(** * sashboard: the PnL aggregation engine of [main.py] and [main2.py]

    A shallow embedding of the trade ingestion and aggregation code of the
    dashboard, and the properties of its report.

    Python floats are IEEE 754 binary64 values; they are modelled by the
    Standard Library's [spec_float] at precision 53 and [emax] 1024, whose
    operations compute with correctly rounded results on integers. *)

From Stdlib Require Import ZArith List String Ascii Bool Lia.
From Stdlib Require Import Sorting.Sorted Sorting.Permutation.
From Stdlib Require Import Floats.SpecFloat.
Import ListNotations.

Local Open Scope Z_scope.

(** ** Binary64 arithmetic *)

Module F64.

Definition prec : Z := 53.
Definition emax : Z := 1024.

Definition float := spec_float.

Definition add : float -> float -> float := SFadd prec emax.
Definition sub : float -> float -> float := SFsub prec emax.
Definition mul : float -> float -> float := SFmul prec emax.
Definition div : float -> float -> float := SFdiv prec emax.

(** Python's [==] on floats: false as soon as one side is NaN, and
    [0.0 == -0.0]. *)
Definition eqb : float -> float -> bool := SFeqb.
Definition leb : float -> float -> bool := SFleb.
Definition ltb : float -> float -> bool := SFltb.


Definition zero : float := S754_zero false.
Definition neg_zero : float := S754_zero true.
Definition nan : float := S754_nan.
Definition inf : float := S754_infinity false.

Definition is_nan (x : float) : bool :=
  match x with S754_nan => true | _ => false end.

Definition is_inf (x : float) : bool :=
  match x with S754_infinity _ => true | _ => false end.

Definition is_zero (x : float) : bool :=
  match x with S754_zero _ => true | _ => false end.

(** [math.isfinite]. *)
Definition is_finite (x : float) : bool :=
  match x with
  | S754_zero _ | S754_finite _ _ _ => true
  | S754_infinity _ | S754_nan => false
  end.

(** The float nearest to an integer ([float(n)]). *)
Definition of_Z (n : Z) : float := binary_normalize prec emax n 0 false.

(** The float nearest to [n / d] for a positive [d]; the sign of a zero
    quotient is [s]. *)
Definition of_ratio (s : bool) (n d : positive) : float :=
  div (S754_finite s n 0) (S754_finite false d 0).

(** The float nearest to [(-1)^s * m * 10^e10], that is, a decimal literal
    read with correct rounding. *)
Definition of_decimal (s : bool) (m : Z) (e10 : Z) : float :=
  match m with
  | Zpos p =>
      match e10 with
      | Zneg k => of_ratio s p (Pos.pow 10 k)
      | Z0 => binary_normalize prec emax (if s then Zneg p else Zpos p) 0 false
      | Zpos k =>
          binary_normalize prec emax
            (if s then Zneg (p * Pos.pow 10 k) else Zpos (p * Pos.pow 10 k)) 0 false
      end
  | _ => S754_zero s
  end.

Definition one : float := of_Z 1.

(** *** The built-in [round(x, ndigits)] on a float

    CPython's [float.__round__] returns NaN and the infinities unchanged and
    otherwise ([double_round]) prints [x] with [ndigits] digits after the
    point, correctly rounded from the exact binary value with ties going to
    the even digit, and reads the decimal string back with correct
    rounding. *)

(** [n / d] rounded to an integer, ties to even. *)
Definition div_half_even (n d : Z) : Z :=
  let q := n / d in
  let r := n mod d in
  match 2 * r ?= d with
  | Lt => q
  | Gt => q + 1
  | Eq => if Z.even q then q else q + 1
  end.

(** [m * 2^e * 10^nd] rounded to an integer, ties to even. *)
Definition scaled_half_even (m : positive) (e : Z) (nd : positive) : Z :=
  match e with
  | Zneg k => div_half_even (Zpos (m * Pos.pow 10 nd)) (Zpos (Pos.pow 2 k))
  | _ => Zpos (m * Pos.pow 10 nd) * 2 ^ e
  end.

Definition py_round (x : float) (nd : positive) : float :=
  match x with
  | S754_finite s m e =>
      match scaled_half_even m e nd with
      | Zpos q => of_ratio s q (Pos.pow 10 nd)
      | _ => S754_zero s
      end
  | _ => x
  end.

(** *** [round(x, ndigits)] on a NumPy float

    [Series.sum()] returns a [numpy.float64], and the built-in [round] then
    runs NumPy's rounding: the number is multiplied by [10^ndigits], brought
    to the nearest integer by [rint] (ties to even) and divided by
    [10^ndigits], each step a float operation. *)

(** [numpy.rint]. *)
Definition rint (x : float) : float :=
  match x with
  | S754_finite s m (Zneg k) =>
      match div_half_even (Zpos m) (Zpos (Pos.pow 2 k)) with
      | Zpos q => binary_normalize prec emax (if s then Zneg q else Zpos q) 0 false
      | _ => S754_zero s
      end
  | _ => x
  end.

Definition np_round (x : float) (nd : positive) : float :=
  let f := of_Z (Zpos (Pos.pow 10 nd)) in
  div (rint (mul x f)) f.

(** Rounding with ties away from zero, the rule the specification names:
    the same decimal scaling, with a tie resolved upwards in magnitude. *)
Definition div_half_away (n d : Z) : Z :=
  let q := n / d in
  let r := n mod d in
  if d <=? 2 * r then q + 1 else q.

Definition scaled_half_away (m : positive) (e : Z) (nd : positive) : Z :=
  match e with
  | Zneg k => div_half_away (Zpos (m * Pos.pow 10 nd)) (Zpos (Pos.pow 2 k))
  | _ => Zpos (m * Pos.pow 10 nd) * 2 ^ e
  end.

Definition round_half_away (x : float) (nd : positive) : float :=
  match x with
  | S754_finite s m e =>
      match scaled_half_away m e nd with
      | Zpos q => of_ratio s q (Pos.pow 10 nd)
      | _ => S754_zero s
      end
  | _ => x
  end.

(** [x or 0] followed by [float(...)]: a zero of either sign is falsy and
    is replaced by the integer 0; NaN is truthy. *)
Definition or_zero (x : float) : float :=
  if is_zero x then zero else x.

End F64.

(** ** Python values, trades and the insertion-ordered dictionary *)

(** The values that occur in a trade record or a spreadsheet cell: a string,
    a float, or [None].  A dictionary tells two NaN keys apart by the
    objects they are, so a NaN comes with its identity: [PyFloat nan] is the
    one object [np.nan], which pandas puts into every empty cell of a column
    that holds text; [PyNaN i] is a NaN that is a float object of its own,
    the [i]-th of them.  The identity of any other value does not matter to
    the program, and is not kept. *)
Inductive pyobj :=
| PyStr (s : string)
| PyFloat (x : F64.float)
| PyNaN (id : N)
| PyNone.

(** Python's [==]: false as soon as one side is a NaN. *)
Definition py_eqb (a b : pyobj) : bool :=
  match a, b with
  | PyStr s, PyStr t => String.eqb s t
  | PyFloat x, PyFloat y => F64.eqb x y
  | PyNone, PyNone => true
  | _, _ => false
  end.

(** Equality of dictionary keys: [a is b or a == b].  A NaN equals nothing,
    itself included, so a NaN key is found again only by the object it
    is. *)
Definition key_eqb (a b : pyobj) : bool :=
  match a, b with
  | PyFloat S754_nan, PyFloat S754_nan => true
  | PyNaN i, PyNaN j => N.eqb i j
  | _, _ => py_eqb a b
  end.

(** The representative of a key: the two zeros are one key. *)
Definition key_norm (a : pyobj) : pyobj :=
  match a with
  | PyFloat (S754_zero _) => PyFloat (S754_zero false)
  | _ => a
  end.

(** A trade as [calculate_token_pnl] reads it; [float(...)] has been applied
    to the two numeric fields. *)
Record trade := mkTrade {
  symbol : pyobj;
  realizedPnl : F64.float;
  commission : F64.float;
  commissionAsset : pyobj
}.

(** The value stored under a symbol in [data]. *)
Record entry := mkEntry {
  realized_pnl : F64.float;
  bnb_fees : F64.float;
  usdc_fees : F64.float;
  trades : Z
}.

(** A [dict] keeps its keys in insertion order. *)
Definition dict := list (pyobj * entry).

Fixpoint dict_get (k : pyobj) (d : dict) : option entry :=
  match d with
  | [] => None
  | (k', v) :: d' => if key_eqb k k' then Some v else dict_get k d'
  end.

(** [k in d]. *)
Definition dict_mem (k : pyobj) (d : dict) : bool :=
  match dict_get k d with Some _ => true | None => false end.

(** [d[k] = v]: replaces the value in place, or appends a new key. *)
Fixpoint dict_set (k : pyobj) (v : entry) (d : dict) : dict :=
  match d with
  | [] => [(k, v)]
  | (k', v') :: d' =>
      if key_eqb k k' then (k', v) :: d' else (k', v') :: dict_set k v d'
  end.

(** [d[k][field] op= ...]: updates the value stored under an existing key. *)
Fixpoint dict_modify (k : pyobj) (f : entry -> entry) (d : dict) : dict :=
  match d with
  | [] => []
  | (k', v) :: d' =>
      if key_eqb k k' then (k', f v) :: d' else (k', v) :: dict_modify k f d'
  end.

(** ** The report *)

(** One row of the returned data frame, a column per field. *)
Record row := mkRow {
  Token : pyobj;
  Realized_PnL : F64.float;
  BNB_Fees : F64.float;
  BNB_Fees_USDC : F64.float;
  Direct_USDC_Fees : F64.float;
  Total_Fees_USDC : F64.float;
  Net_PnL : F64.float;
  Trades : Z
}.

Definition DataFrame := list row.

(** ** What the program leaves to NumPy

    Two things that the program takes from NumPy are not fixed by the
    program and differ between builds of the library: the order in which
    [argsort] leaves equal values (its default kind, "quicksort", is not
    stable, and is another algorithm on another processor), and the sign of
    the zero that [add.reduce] starts a sum from.  A build is given by these
    two. *)
Record numpy := mkNumpy {
  argsort : list F64.float -> list nat;
  add_initial : F64.float
}.

(** [l[indexer]]: the elements of [l] at the positions [indexer].  A
    position outside [l] raises IndexError; a permutation of the positions
    of [l] holds none, and here such a position is passed over. *)
Definition take {A : Type} (l : list A) (indexer : list nat) : list A :=
  flat_map (fun i => match nth_error l i with Some x => [x] | None => [] end) indexer.

(** [l[mask]] for a mask of booleans. *)
Fixpoint select {A : Type} (mask : list bool) (l : list A) : list A :=
  match mask, l with
  | b :: mask', x :: l' => if b then x :: select mask' l' else select mask' l'
  | _, _ => []
  end.

(** [argsort] returns the positions of its argument in an order in which
    the values ascend: what its documentation promises. *)
Definition ascending (xs : list F64.float) : Prop :=
  StronglySorted (fun x y => F64.ltb y x = false) xs.

Definition conforms (np : numpy) : Prop :=
  (forall xs, Permutation (argsort np xs) (seq 0 (List.length xs))) /\
  (forall xs, Forall (fun x => F64.is_nan x = false) xs ->
              ascending (take xs (argsort np xs))) /\
  F64.is_zero (add_initial np) = true.

(** *** [df.sort_values("Net PnL", ascending=...)]

    pandas sorts on one column with [nargsort], [na_position="last"]: the
    positions of the values that are not NaN, in the order into which NumPy
    sorts those values, and after them the positions of the NaN values as
    they stand.  For a descending sort the values are reversed before
    sorting and the positions after it. *)
Definition nargsort (np : numpy) (items : list F64.float) (asc : bool) : list nat :=
  let idx := seq 0 (List.length items) in
  let mask := map F64.is_nan items in
  let non_nans := select (map negb mask) items in
  let non_nan_idx := select (map negb mask) idx in
  let nan_idx := select mask idx in
  let non_nans := if asc then non_nans else rev non_nans in
  let non_nan_idx := if asc then non_nan_idx else rev non_nan_idx in
  let indexer := take non_nan_idx (argsort np non_nans) in
  let indexer := if asc then indexer else rev indexer in
  indexer ++ nan_idx.

Definition sort_values (np : numpy) (asc : bool) (df : DataFrame) : DataFrame :=
  take df (nargsort np (map Net_PnL df) asc).

(** *** [Series.sum()] of a float column

    pandas replaces the NaN values by 0 ([skipna]) and calls NumPy's
    [add.reduce], which adds the array up pairwise ([pairwise_sum]) and adds
    the result to the zero it starts from.  A run of fewer than 8 values is
    added up from the left, onto a negative zero, which changes no sum; a
    run of up to 128 is added in eight lanes, value [i] into lane [i mod 8],
    the lanes are added as a tree, and the values after the last full block
    of eight are added to that; a longer run is cut near its middle, at a
    multiple of 8, and the sums of the two parts are added. *)
Fixpoint add_lanes (r a : list F64.float) : list F64.float :=
  match r, a with
  | x :: r', y :: a' => F64.add x y :: add_lanes r' a'
  | _, _ => r
  end.

(** [k] more blocks of eight are added into the lanes [r]; returns the
    lanes and what is left of the array. *)
Fixpoint add_blocks (k : nat) (r a : list F64.float) : list F64.float * list F64.float :=
  match k with
  | O => (r, a)
  | S k' => add_blocks k' (add_lanes r (firstn 8 a)) (skipn 8 a)
  end.

Definition sum_lanes (r : list F64.float) : F64.float :=
  match r with
  | [r0; r1; r2; r3; r4; r5; r6; r7] =>
      F64.add (F64.add (F64.add r0 r1) (F64.add r2 r3))
              (F64.add (F64.add r4 r5) (F64.add r6 r7))
  | _ => fold_left F64.add r F64.neg_zero
  end.

(** The sum of a run of 8 to 128 values. *)
Definition sum_block (a : list F64.float) : F64.float :=
  let '(r, rest) := add_blocks (List.length a / 8 - 1) (firstn 8 a) (skipn 8 a) in
  fold_left F64.add rest (sum_lanes r).

(** [fuel] bounds the depth of the recursion; a run is cut into parts
    shorter than itself, so its length is fuel enough. *)
Fixpoint pairwise_sum (fuel : nat) (a : list F64.float) : F64.float :=
  let n := List.length a in
  if (n <? 8)%nat then fold_left F64.add a F64.neg_zero
  else if (n <=? 128)%nat then sum_block a
  else
    match fuel with
    | S fuel' =>
        let n2 := (n / 2)%nat in
        let n2 := (n2 - n2 mod 8)%nat in
        F64.add (pairwise_sum fuel' (firstn n2 a)) (pairwise_sum fuel' (skipn n2 a))
    | O => sum_block a
    end.

(** What [client.ticker_price] does: it returns a price, or raises the
    [ClientError] that [get_price] catches. *)
Inductive ticker :=
| Price (p : F64.float)
| ClientError.

Definition TOTAL : pyobj := PyStr "TOTAL".
Definition BNB : pyobj := PyStr "BNB".
Definition USDC : pyobj := PyStr "USDC".
Definition USDT : pyobj := PyStr "USDT".

(** ** Reading the export file *)

(** A row of the frame [pd.read_excel] returns.  [Date(UTC)] is a timestamp
    (in microseconds from 1970-01-01 00:00, rounded down, no zone) or NaT; a
    cell of the other columns is whatever the sheet holds, an empty cell
    being a NaN; [Fee Coin] is [None] when the sheet has no such column.
    The columns Price, Quantity and Amount are normalized like Fee and never
    read again; they are left out. *)
Record sheet_row := mkSheetRow {
  Date_UTC : option Z;
  Symbol : pyobj;
  Realized_Profit : pyobj;
  Fee : pyobj;
  Fee_Coin : option pyobj
}.

(** *** The symbols that [df.iterrows()] yields

    A Symbol column in which every cell is a number or empty is a column of
    floats, and [iterrows] makes a float object of each of its cells: every
    empty cell of the column is then a NaN object of its own, numbered here
    by its row.  A column with text in it is a column of objects, yielded as
    they are, the one [np.nan] for every empty cell. *)
Definition is_float_cell (c : pyobj) : bool :=
  match c with
  | PyFloat _ | PyNaN _ => true
  | _ => false
  end.

Definition is_nan_cell (c : pyobj) : bool :=
  match c with
  | PyFloat x => F64.is_nan x
  | PyNaN _ => true
  | _ => false
  end.

Definition with_symbol (r : sheet_row) (s : pyobj) : sheet_row :=
  mkSheetRow (Date_UTC r) s (Realized_Profit r) (Fee r) (Fee_Coin r).

Fixpoint box_symbols (i : N) (rows : list sheet_row) : list sheet_row :=
  match rows with
  | [] => []
  | r :: rows' =>
      (if is_nan_cell (Symbol r) then with_symbol r (PyNaN i) else r)
      :: box_symbols (N.succ i) rows'
  end.

Definition iterrows (rows : list sheet_row) : list sheet_row :=
  if forallb (fun r => is_float_cell (Symbol r)) rows then box_symbols 0 rows else rows.

(** [r] is the row [r0] of the sheet as [iterrows] yields it: the same
    cells, an empty Symbol cell being yielded as some NaN. *)
Definition yielded (r0 r : sheet_row) : Prop :=
  Date_UTC r = Date_UTC r0 /\ Realized_Profit r = Realized_Profit r0 /\
  Fee r = Fee r0 /\ Fee_Coin r = Fee_Coin r0 /\
  (Symbol r = Symbol r0 \/
   (is_nan_cell (Symbol r0) = true /\ is_nan_cell (Symbol r) = true)).

(** What looking for the file and reading it comes to. *)
Inductive workbook :=
| NoFile
| Unreadable
| MissingColumns
| Sheet (rows : list sheet_row).

(** A [datetime]: the wall-clock time, in microseconds from
    1970-01-01 00:00, and the offset of its zone from UTC, if it has a
    zone.  Python has the datetimes from 0001-01-01 00:00:00 to
    9999-12-31 23:59:59.999999 and zones of less than a day from UTC. *)
Record datetime := mkDatetime {
  wall_clock : Z;
  utcoffset : option Z
}.

Definition datetime_min : Z := -62135596800000000.
Definition datetime_max : Z := 253402300799999999.

Definition is_datetime (t : Z) : bool :=
  (datetime_min <=? t) && (t <=? datetime_max).

Definition valid_datetime (d : datetime) : bool :=
  is_datetime (wall_clock d)
  && match utcoffset d with
     | Some off => (-86400000000 <? off) && (off <? 86400000000)
     | None => true
     end.

(** [d.astimezone(timezone.utc).replace(tzinfo=None)] for a [d] with a
    zone: the offset is subtracted from the wall clock, and OverflowError
    ([None]) is raised when the result is not a datetime. *)
Definition to_naive_utc (d : datetime) : option datetime :=
  match utcoffset d with
  | Some off =>
      let utc := wall_clock d - off in
      if is_datetime utc then Some (mkDatetime utc None) else None
  | None => Some d
  end.

(** *** Strings *)

(** [s.lstrip("'")]: every leading apostrophe goes. *)
Fixpoint lstrip_apostrophe (s : string) : string :=
  match s with
  | String c r => if Ascii.eqb c "'" then lstrip_apostrophe r else s
  | EmptyString => s
  end.

(** [s.replace(",", "")]. *)
Fixpoint remove_commas (s : string) : string :=
  match s with
  | String c r => if Ascii.eqb c "," then remove_commas r else String c (remove_commas r)
  | EmptyString => s
  end.

Definition is_space (c : ascii) : bool :=
  let n := nat_of_ascii c in
  (Nat.eqb n 32 || (Nat.leb 9 n && Nat.leb n 13))%bool.

Definition digit_of (c : ascii) : option Z :=
  let n := nat_of_ascii c in
  if (Nat.leb 48 n && Nat.leb n 57)%bool then Some (Z.of_nat n - 48) else None.

Fixpoint skip_spaces (s : string) : string :=
  match s with
  | String c r => if is_space c then skip_spaces r else s
  | EmptyString => s
  end.

Definition read_sign (s : string) : bool * string :=
  match s with
  | String "-" r => (true, r)
  | String "+" r => (false, r)
  | _ => (false, s)
  end.

(** Reads a run of digits onto the number [acc]; returns the number, how
    many digits were read, and the rest. *)
Fixpoint read_digits (s : string) (acc : Z) (n : nat) : Z * nat * string :=
  match s with
  | String c r =>
      match digit_of c with
      | Some d => read_digits r (10 * acc + d) (S n)
      | None => (acc, n, s)
      end
  | EmptyString => (acc, n, s)
  end.

Definition lower (c : ascii) : ascii :=
  let n := nat_of_ascii c in
  if (Nat.leb 65 n && Nat.leb n 90)%bool then ascii_of_nat (n + 32) else c.

Fixpoint lowercase (s : string) : string :=
  match s with
  | String c r => String (lower c) (lowercase r)
  | EmptyString => s
  end.

(** *** [pd.to_numeric(..., errors="coerce")] on one string

    A model of the library's reader: a decimal numeral, with optional sign,
    fraction and exponent and with blanks around it, is read as the nearest
    float; a numeral beyond the range of the floats is not accepted; the
    spellings of infinity are; every other string is coerced to NaN.  (The
    library keeps the first 17 digits of a numeral and scales them by a
    power of ten in floating point, which gives the nearest float for a
    numeral of at most 15 digits and an exponent of at most 22 in size; the
    properties below do not depend on the digits read.) *)
Definition read_numeral (s : string) : option F64.float :=
  let s := skip_spaces s in
  let (neg, s) := read_sign s in
  let '(ip, ni, s) := read_digits s 0 0 in
  let '(m, nf, s) :=
    match s with
    | String "." r => read_digits r ip 0
    | _ => (ip, 0%nat, s)
    end in
  if Nat.eqb (ni + nf) 0 then None
  else
    let '(e, s) :=
      match s with
      | String c r =>
          if Ascii.eqb (lower c) "e" then
            let (eneg, r) := read_sign r in
            let '(n, _, r) := read_digits r 0 0 in
            (if eneg then - n else n, r)
          else (0, s)
      | EmptyString => (0, s)
      end in
    match skip_spaces s with
    | EmptyString =>
        let v := F64.of_decimal neg m (e - Z.of_nat nf) in
        if F64.is_inf v then None else Some v
    | _ => None
    end.

Definition read_infinity (s : string) : option F64.float :=
  let t := lowercase s in
  if (String.eqb t "inf" || String.eqb t "+inf"
      || String.eqb t "infinity" || String.eqb t "+infinity")%bool
  then Some (S754_infinity false)
  else if (String.eqb t "-inf" || String.eqb t "-infinity")%bool
  then Some (S754_infinity true)
  else None.

Definition to_numeric (s : string) : F64.float :=
  match read_numeral s with
  | Some v => v
  | None =>
      match read_infinity s with
      | Some v => v
      | None => F64.nan
      end
  end.

(** [.fillna(0)]. *)
Definition fillna0 (x : F64.float) : F64.float :=
  if F64.is_nan x then F64.zero else x.

(** What [astype(str)] makes of a cell that is not a number: the string
    itself, ["None"], or ["nan"] for the NaN of an empty cell. *)
Definition text_of (c : pyobj) : option string :=
  match c with
  | PyStr s => Some s
  | PyNone => Some "None"%string
  | PyFloat S754_nan | PyNaN _ => Some "nan"%string
  | PyFloat _ => None
  end.

(** *** Paths and names *)

(** [s.endswith(suffix)]. *)
Fixpoint ends_with (suffix s : string) : bool :=
  (String.eqb s suffix
   || match s with
      | String _ r => ends_with suffix r
      | EmptyString => false
      end)%bool.

(** [needle in s]. *)
Fixpoint contains (needle s : string) : bool :=
  (String.prefix needle s
   || match s with
      | String _ r => contains needle r
      | EmptyString => false
      end)%bool.

(** [os.path.join(a, b)] on a POSIX system. *)
Definition path_join (a b : string) : string :=
  if String.prefix "/" b then b
  else if (String.eqb a "" || ends_with "/" a)%bool then (a ++ b)%string
  else (a ++ "/" ++ b)%string.

(** [os.path.basename(p)]: what follows the last slash. *)
Fixpoint basename (p : string) : string :=
  match p with
  | EmptyString => EmptyString
  | String c r =>
      if contains "/" r then basename r
      else if Ascii.eqb c "/" then r
      else p
  end.

(** ** The exchange's list of contracts *)

(** An element of [info["symbols"]]: its ["symbol"], and its
    ["contractType"] if it has one. *)
Record contract := mkContract {
  contract_symbol : string;
  contractType : option string
}.

(** The condition of the list comprehension of [get_all_symbols]. *)
Definition perpetual_usdc (s : contract) : bool :=
  match contractType s with
  | Some ty => (String.eqb ty "PERPETUAL" && ends_with "USDC" (contract_symbol s))%bool
  | None => false
  end.

(** ** Charts and styles *)

(** The columns of the frame, in the order of the keys of a row. *)
Definition columns : list string :=
  [ "Token"; "Realized PnL"; "BNB Fees"; "BNB Fees (USDC)"; "Direct USDC Fees";
    "Total Fees (USDC)"; "Net PnL"; "Trades" ]%string.

(** What [create_pnl_chart] hands to the charting library: the frame to draw
    and the properties it sets.  The bar mark and the encodings of the
    channels are the same for every frame and are carried by no field. *)
Record chart := mkChart {
  chart_data : DataFrame;
  chart_title : string;
  chart_width : Z;
  chart_height : option Z
}.

(** [df[df["Token"] != "TOTAL"]]. *)
Definition without_total (df : DataFrame) : DataFrame :=
  filter (fun r => negb (py_eqb (Token r) TOTAL)) df.

(** [styles[i] = v] on a list long enough. *)
Fixpoint list_set (i : nat) (v : string) (l : list string) : list string :=
  match l, i with
  | [], _ => []
  | _ :: l', O => v :: l'
  | x :: l', S i' => x :: list_set i' v l'
  end.

(** The code shared by both files. *)
Module Common.

Definition new_entry : entry := mkEntry F64.zero F64.zero F64.zero 0.

Definition add_realized (x : F64.float) (v : entry) : entry :=
  mkEntry (F64.add (realized_pnl v) x) (bnb_fees v) (usdc_fees v) (trades v).

Definition add_trade (v : entry) : entry :=
  mkEntry (realized_pnl v) (bnb_fees v) (usdc_fees v) (trades v + 1).

Definition add_bnb (x : F64.float) (v : entry) : entry :=
  mkEntry (realized_pnl v) (F64.add (bnb_fees v) x) (usdc_fees v) (trades v).

Definition add_usdc (x : F64.float) (v : entry) : entry :=
  mkEntry (realized_pnl v) (bnb_fees v) (F64.add (usdc_fees v) x) (trades v).

(** The body of [for trade in trades]. *)
Definition process_trade (data : dict) (t : trade) : dict :=
  let sym := symbol t in
  let realized := realizedPnl t in
  let commission := commission t in
  let asset := commissionAsset t in
  let data := if negb (dict_mem sym data) then dict_set sym new_entry data else data in
  let data := dict_modify sym (add_realized realized) data in
  let data := dict_modify sym add_trade data in
  if py_eqb asset BNB then dict_modify sym (add_bnb commission) data
  else if existsb (py_eqb asset) [USDC; USDT] then dict_modify sym (add_usdc commission) data
  else data.

Definition accumulate (ts : list trade) : dict :=
  fold_left process_trade ts [].

(** The three derived amounts of a symbol before rounding. *)
Definition bnb_fees_usdc (bnb_price : F64.float) (v : entry) : F64.float :=
  F64.mul (bnb_fees v) bnb_price.

Definition total_fees (bnb_price : F64.float) (v : entry) : F64.float :=
  F64.add (bnb_fees_usdc bnb_price v) (usdc_fees v).

Definition net_pnl (bnb_price : F64.float) (v : entry) : F64.float :=
  F64.sub (realized_pnl v) (total_fees bnb_price v).

(** The body of [for sym, vals in data.items()]. *)
Definition make_row (bnb_price : F64.float) (kv : pyobj * entry) : row :=
  let (sym, vals) := kv in
  mkRow sym
        (F64.py_round (realized_pnl vals) 2)
        (F64.py_round (bnb_fees vals) 5)
        (F64.py_round (bnb_fees_usdc bnb_price vals) 2)
        (F64.py_round (usdc_fees vals) 2)
        (F64.py_round (total_fees bnb_price vals) 2)
        (F64.py_round (net_pnl bnb_price vals) 2)
        (trades vals).

Definition make_rows (bnb_price : F64.float) (data : dict) : DataFrame :=
  map (make_row bnb_price) data.

(** [Series.sum()] of a float column: the NaN values are replaced by 0.0,
    the array is added up pairwise, and the result is added to the zero that
    the build starts a sum from.  The sum of an empty column is 0.0. *)
Definition series_sum (np : numpy) (xs : list F64.float) : F64.float :=
  let values := map (fun x => if F64.is_nan x then F64.zero else x) xs in
  match values with
  | [] => F64.zero
  | _ => F64.add (add_initial np) (pairwise_sum (List.length values) values)
  end.

(** [Series.sum()] of the integer column.  A count never exceeds the number
    of trades, so the 64-bit sum does not wrap. *)
Definition int_sum (xs : list Z) : Z := fold_left Z.add xs 0.

(** [get_trades_since], given the symbols [get_all_symbols] returned and
    what [client.get_account_trades] does for each: it answers with trades or
    raises the [ClientError] that the loop catches ([None]). *)
Definition get_trades_since
    (symbols : list string) (fetch : string -> option (list trade)) : list trade :=
  flat_map (fun s => match fetch s with Some ts => ts | None => [] end) symbols.

(** [avg_fee] of [main]: the total fees per trade, and 0 when the TOTAL row
    counts no trade. *)
Definition avg_fee (total : row) : F64.float :=
  if Trades total =? 0 then F64.zero
  else F64.div (Total_Fees_USDC total) (F64.of_Z (Trades total)).

(** [sorted({t["symbol"] for t in trades})] of [main], for symbols that are
    strings: the distinct names, in ascending order. *)
Definition distinct (names : list string) : list string :=
  fold_left (fun ks s => if existsb (String.eqb s) ks then ks else ks ++ [s]) names [].

Fixpoint insert_name (s : string) (l : list string) : list string :=
  match l with
  | [] => [s]
  | s' :: l' => if String.leb s s' then s :: l else s' :: insert_name s l'
  end.

Definition sorted (names : list string) : list string :=
  fold_right insert_name [] names.

Definition tokens (names : list string) : list string :=
  sorted (distinct names).

End Common.

(** ** [main.py] *)

Module Main.
Import Common.

(** The chain applied to a numeric column: [astype(str)],
    [str.lstrip("'")], [replace("", "0")],
    [pd.to_numeric(errors="coerce")].  A number that is not NaN is printed
    by [astype(str)] and read back; the model takes the number itself, which
    is what is read back when the print has at most 15 digits and an
    exponent of at most 22 in size. *)
Definition normalize (c : pyobj) : F64.float :=
  match text_of c with
  | Some s =>
      let s := lstrip_apostrophe s in
      let s := if String.eqb s "" then "0"%string else s in
      to_numeric s
  | None => match c with PyFloat x => x | _ => F64.nan end
  end.

(** The body of [for _, row in df.iterrows()]; [row["Fee Coin"]] raises
    [KeyError] when the column is missing. *)
Definition make_trade (r : sheet_row) : option trade :=
  match Fee_Coin r with
  | Some coin =>
      Some (mkTrade (Symbol r)
                    (F64.or_zero (normalize (Realized_Profit r)))
                    (F64.or_zero (normalize (Fee r)))
                    coin)
  | None => None
  end.

Fixpoint make_trades (rows : list sheet_row) : option (list trade) :=
  match rows with
  | [] => Some []
  | r :: rows' =>
      match make_trade r, make_trades rows' with
      | Some t, Some ts => Some (t :: ts)
      | _, _ => None
      end
  end.

(** [df["Date(UTC)"] >= start_datetime]; NaT compares false. *)
Definition on_or_after (start : datetime) (r : sheet_row) : bool :=
  match Date_UTC r with
  | Some d => wall_clock start <=? d
  | None => false
  end.

(** [None] stands for an exception leaving the function: the start cannot
    be brought to UTC, the file cannot be read, or it lacks a column. *)
Definition get_trades_from_file (start_datetime : datetime) (w : workbook)
  : option (list trade) :=
  match (match utcoffset start_datetime with
         | Some _ => to_naive_utc start_datetime
         | None => Some start_datetime
         end) with
  | None => None
  | Some start_datetime =>
      match w with
      | Sheet rows => make_trades (filter (on_or_after start_datetime) (iterrows rows))
      | _ => None
      end
  end.

Definition get_price (t : ticker) : F64.float :=
  match t with
  | Price p => p
  | ClientError => F64.zero
  end.

Definition total_row (np : numpy) (df : DataFrame) : row :=
  mkRow TOTAL
        (series_sum np (map Realized_PnL df))
        (series_sum np (map BNB_Fees df))
        (series_sum np (map BNB_Fees_USDC df))
        (series_sum np (map Direct_USDC_Fees df))
        (series_sum np (map Total_Fees_USDC df))
        (series_sum np (map Net_PnL df))
        (int_sum (map Trades df)).

Definition calculate_token_pnl (np : numpy) (ts : list trade) (t : ticker) : DataFrame :=
  match ts with
  | [] => []
  | _ =>
      let bnb_price := get_price t in
      let data := accumulate ts in
      let df := make_rows bnb_price data in
      match df with
      | [] => df
      | _ => df ++ [total_row np df]
      end
  end.

(** [get_all_symbols], given what [client.exchange_info] does: it answers
    with the contracts, or raises [ClientError] ([None]), which here leaves
    the function. *)
Definition get_all_symbols (info : option (list contract)) : option (list string) :=
  match info with
  | Some symbols => Some (map contract_symbol (filter perpetual_usdc symbols))
  | None => None
  end.

Definition create_pnl_chart (df : DataFrame) : option chart :=
  let df_chart := without_total df in
  match df_chart with
  | [] => None
  | _ => Some (mkChart df_chart "PnL by Token" 600 None)
  end.

(** [len(row)] is the number of columns. *)
Definition highlight_total (r : row) : list string :=
  if py_eqb (Token r) TOTAL
  then repeat "font-weight: bold"%string (List.length columns)
  else repeat ""%string (List.length columns).

End Main.

(** ** [main2.py] *)

Module Main2.
Import Common.

(** The chain applied to a numeric column: [astype(str)],
    [str.lstrip("'")], [str.replace(",", "")],
    [replace(["", "nan", "None"], "0")], [pd.to_numeric(errors="coerce")],
    [fillna(0)].  A number that is not NaN is printed by [astype(str)] and
    read back; the model takes the number itself, as for [main.py]. *)
Definition normalize (c : pyobj) : F64.float :=
  match text_of c with
  | Some s =>
      let s := lstrip_apostrophe s in
      let s := remove_commas s in
      let s := if existsb (String.eqb s) [""; "nan"; "None"]%string then "0"%string else s in
      fillna0 (to_numeric s)
  | None => match c with PyFloat x => fillna0 x | _ => F64.zero end
  end.

(** The body of [for _, row in df.iterrows()];
    [row.get("Fee Coin", "USDC")]. *)
Definition make_trade (r : sheet_row) : trade :=
  mkTrade (Symbol r)
          (F64.or_zero (normalize (Realized_Profit r)))
          (F64.or_zero (normalize (Fee r)))
          (match Fee_Coin r with Some coin => coin | None => USDC end).

(** [None] stands for the one exception that leaves the function: the
    OverflowError of a start that cannot be brought to UTC, raised before the
    file is looked for.  What goes wrong with the file is reported and gives
    no trades. *)
Definition get_trades_from_file (start_datetime : datetime) (w : workbook)
  : option (list trade) :=
  match (match utcoffset start_datetime with
         | Some _ => to_naive_utc start_datetime
         | None => Some start_datetime
         end) with
  | None => None
  | Some start_datetime =>
      match w with
      | NoFile => Some []
      | Unreadable => Some []
      | MissingColumns => Some []
      | Sheet rows =>
          match rows with
          | [] => Some []
          | _ => Some (map make_trade (iterrows rows))
          end
      end
  end.

Definition get_price (t : ticker) : F64.float :=
  match t with
  | Price p => p
  | ClientError => F64.one
  end.

(** The rate [calculate_token_pnl] converts with: a zero price is replaced
    by 600. *)
Definition bnb_rate (t : ticker) : F64.float :=
  let bnb_price := get_price t in
  if F64.eqb bnb_price F64.zero then F64.of_Z 600 else bnb_price.

Definition total_row (np : numpy) (df : DataFrame) : row :=
  mkRow TOTAL
        (F64.np_round (series_sum np (map Realized_PnL df)) 2)
        (F64.np_round (series_sum np (map BNB_Fees df)) 5)
        (F64.np_round (series_sum np (map BNB_Fees_USDC df)) 2)
        (F64.np_round (series_sum np (map Direct_USDC_Fees df)) 2)
        (F64.np_round (series_sum np (map Total_Fees_USDC df)) 2)
        (F64.np_round (series_sum np (map Net_PnL df)) 2)
        (int_sum (map Trades df)).

Definition calculate_token_pnl (np : numpy) (ts : list trade) (t : ticker) : DataFrame :=
  match ts with
  | [] => []
  | _ =>
      let bnb_price := bnb_rate t in
      let data := accumulate ts in
      let df := make_rows bnb_price data in
      match df with
      | [] => df
      | _ =>
          let df := sort_values np false df in
          df ++ [total_row np df]
      end
  end.

(** [get_all_symbols]: a [ClientError] of [client.exchange_info] ([None])
    is reported and gives no symbols. *)
Definition get_all_symbols (info : option (list contract)) : list string :=
  match info with
  | Some symbols => map contract_symbol (filter perpetual_usdc symbols)
  | None => []
  end.

Definition possible_names : list string :=
  [ "Export Trade History.xlsx"; "export trade history.xlsx";
    "Export_Trade_History.xlsx"; "TradeHistory.xlsx"; "trade_history.xlsx" ]%string.

(** The test of the second loop of [find_excel_file]. *)
Definition mentions_trade (file_path : string) : bool :=
  let filename := lowercase (basename file_path) in
  (contains "trade" filename || contains "history" filename)%bool.

(** [find_excel_file], given the expanded path of the Downloads folder, what
    [os.path.exists] answers, and the list [glob.glob] returns for the
    pattern [*.xlsx] in that folder. *)
Definition find_excel_file
    (downloads_path : string) (path_exists : string -> bool) (excel_files : list string)
  : string :=
  match find (fun name => path_exists (path_join downloads_path name)) possible_names with
  | Some name => path_join downloads_path name
  | None =>
      match find mentions_trade excel_files with
      | Some file_path => file_path
      | None => ""%string
      end
  end.

Definition create_pnl_chart (np : numpy) (df : DataFrame) : option chart :=
  let df_chart := without_total df in
  match df_chart with
  | [] => None
  | _ =>
      let df_chart := sort_values np true df_chart in
      Some (mkChart df_chart "Net PnL by Token" 600
                    (Some (Z.max 300 (Z.of_nat (List.length df_chart) * 25))))
  end.

Definition highlight_total_and_negative (r : row) : list string :=
  let styles := repeat ""%string (List.length columns) in
  let styles :=
    if py_eqb (Token r) TOTAL
    then repeat "font-weight: bold"%string (List.length columns)
    else styles in
  if F64.ltb (Net_PnL r) F64.zero then list_set 6 "color: red" styles else styles.

End Main2.

(** The invariant the specification states for a trade: the symbol is a
    non-empty string and the commission is finite. *)
Definition nonempty_string (o : pyobj) : bool :=
  match o with
  | PyStr s => negb (String.eqb s "")
  | _ => false
  end.

Definition canonical (t : trade) : bool :=
  nonempty_string (symbol t) && F64.is_finite (commission t).

(** The rows of a workbook that was read. *)
Definition rows_of (w : workbook) : list sheet_row :=
  match w with
  | Sheet rows => rows
  | _ => []
  end.

(** ** The per-symbol view of the input *)

(** The trades filed under key [k], in input order. *)
Definition trades_of (k : pyobj) (ts : list trade) : list trade :=
  filter (fun t => key_eqb k (symbol t)) ts.

(** The symbols of the input in the order of their first appearance. *)
Definition first_seen (ts : list trade) : list pyobj :=
  fold_left (fun ks t =>
               if existsb (key_eqb (symbol t)) ks then ks else ks ++ [symbol t])
            ts [].

(** [asset == "BNB"] and [asset in ("USDC", "USDT")]. *)
Definition paid_in_bnb (t : trade) : bool :=
  py_eqb (commissionAsset t) BNB.

Definition paid_in_stable (t : trade) : bool :=
  existsb (py_eqb (commissionAsset t)) [USDC; USDT].

(** A running [+=] over a list, started at [0.0]. *)
Definition float_sum (xs : list F64.float) : F64.float :=
  fold_left F64.add xs F64.zero.

(** What one loop iteration does to the entry of the trade's symbol. *)
Definition apply_trade (v : entry) (t : trade) : entry :=
  let v := Common.add_trade (Common.add_realized (realizedPnl t) v) in
  if paid_in_bnb t then Common.add_bnb (commission t) v
  else if paid_in_stable t then Common.add_usdc (commission t) v
  else v.

(** The entry a list of trades of one symbol adds up to. *)
Definition entry_of (mine : list trade) : entry :=
  mkEntry (float_sum (map realizedPnl mine))
          (float_sum (map commission (filter paid_in_bnb mine)))
          (float_sum (map commission (filter paid_in_stable mine)))
          (Z.of_nat (List.length mine)).

(** ** Reading a report *)

(** [main] takes the last row of the frame ([pnl_df.iloc[-1]]) as the
    totals; the rows before it are the per-symbol rows. *)
Definition report_total (df : DataFrame) : option row :=
  match rev df with
  | r :: _ => Some r
  | [] => None
  end.

Definition report_rows (df : DataFrame) : DataFrame := removelast df.

(** The number of rows labelled ["TOTAL"]. *)
Definition count_total (df : DataFrame) : nat :=
  List.length (filter (fun r => py_eqb (Token r) TOTAL) df).

(** The trades counted so far, over all symbols. *)
Definition held (d : dict) : Z :=
  Common.int_sum (map (fun kv => trades (snd kv)) d).

(** ** The order of the rows *)

(** The place of a float in an ascending order of all floats in which NaN
    comes first: a triple compared lexicographically. *)
Definition rank (x : F64.float) : Z * Z * Z :=
  match x with
  | S754_nan => (-3, 0, 0)
  | S754_infinity true => (-2, 0, 0)
  | S754_finite true m e => (-1, - e, Zneg m)
  | S754_zero _ => (0, 0, 0)
  | S754_finite false m e => (1, e, Zpos m)
  | S754_infinity false => (2, 0, 0)
  end.

Definition lt3 (a b : Z * Z * Z) : Prop :=
  let '(a1, a2, a3) := a in
  let '(b1, b2, b3) := b in
  a1 < b1 \/ (a1 = b1 /\ (a2 < b2 \/ (a2 = b2 /\ a3 < b3))).

(** [r] must stand before [r'] in a frame sorted on Net PnL, descending: a
    missing value goes last, otherwise the larger value goes first. *)
Definition precedes (r r' : row) : bool :=
  if F64.is_nan (Net_PnL r) then false
  else if F64.is_nan (Net_PnL r') then true
  else F64.ltb (Net_PnL r') (Net_PnL r).

(** [a] may stand above [b] in a frame sorted on Net PnL, descending:
    [b] need not stand before [a]. *)
Definition in_order (a b : row) : Prop := precedes b a = false.

(** The row has no Net PnL. *)
Definition no_net_pnl (r : row) : bool := F64.is_nan (Net_PnL r).

(** The order the specification asks for: Net PnL descending, and symbol
    ascending between rows of equal Net PnL. *)
Definition token_leb (a b : pyobj) : bool :=
  match a, b with
  | PyStr s, PyStr t => String.leb s t
  | _, _ => false
  end.

Definition specified_order (a b : row) : bool :=
  F64.ltb (Net_PnL b) (Net_PnL a)
  || (F64.eqb (Net_PnL a) (Net_PnL b) && token_leb (Token a) (Token b)).

Fixpoint sorted_as_specified (df : DataFrame) : bool :=
  match df with
  | a :: (b :: _) as df' => specified_order a b && sorted_as_specified df'
  | _ => true
  end.

(** ** Rounding to decimals, as a relation *)

(** [q] is the integer nearest to the fraction [n / d], and the even one of
    the two nearest when the fraction lies halfway between them. *)
Definition nearest_ties_even (n d q : Z) : Prop :=
  Z.abs (2 * n - 2 * q * d) <= d /\
  (Z.abs (2 * n - 2 * q * d) = d -> Z.even q = true).

(** The magnitude [m * 2^e] times [10^nd], as a fraction. *)
Definition scaled_fraction (m : positive) (e : Z) (nd : positive) : Z * Z :=
  match e with
  | Zneg k => (Zpos (m * Pos.pow 10 nd), Zpos (Pos.pow 2 k))
  | _ => (Zpos (m * Pos.pow 10 nd) * 2 ^ e, 1)
  end.

(** [y] is [x] rounded to [nd] decimal places with ties to even: NaN and
    the infinities are kept; a finite [x] goes to the float nearest to
    [q / 10^nd], with the sign of [x], where [q] is the integer nearest to
    the exact value of [|x| * 10^nd], even in a tie. *)
Definition rounds_half_even (x : F64.float) (nd : positive) (y : F64.float) : Prop :=
  match x with
  | S754_finite s m e =>
      exists q,
        nearest_ties_even (fst (scaled_fraction m e nd)) (snd (scaled_fraction m e nd)) q /\
        y = match q with
            | Zpos p => F64.of_ratio s p (Pos.pow 10 nd)
            | _ => S754_zero s
            end
  | _ => y = x
  end.

(** A per-symbol row holds the rounded amounts of an entry of the
    dictionary: the three sums and the three amounts derived from them. *)
Definition row_rounded (rate : F64.float) (d : dict) (r : row) : Prop :=
  exists v,
    In (Token r, v) d /\
    rounds_half_even (realized_pnl v) 2 (Realized_PnL r) /\
    rounds_half_even (bnb_fees v) 5 (BNB_Fees r) /\
    rounds_half_even (Common.bnb_fees_usdc rate v) 2 (BNB_Fees_USDC r) /\
    rounds_half_even (usdc_fees v) 2 (Direct_USDC_Fees r) /\
    rounds_half_even (Common.total_fees rate v) 2 (Total_Fees_USDC r) /\
    rounds_half_even (Common.net_pnl rate v) 2 (Net_PnL r).

(** The TOTAL row of [main2.py] holds the column sums of the rows above it,
    rounded as NumPy rounds. *)
Definition total_rounded (np : numpy) (rows : DataFrame) (total : row) : Prop :=
  Realized_PnL total = F64.np_round (Common.series_sum np (map Realized_PnL rows)) 2 /\
  BNB_Fees total = F64.np_round (Common.series_sum np (map BNB_Fees rows)) 5 /\
  BNB_Fees_USDC total = F64.np_round (Common.series_sum np (map BNB_Fees_USDC rows)) 2 /\
  Direct_USDC_Fees total
  = F64.np_round (Common.series_sum np (map Direct_USDC_Fees rows)) 2 /\
  Total_Fees_USDC total
  = F64.np_round (Common.series_sum np (map Total_Fees_USDC rows)) 2 /\
  Net_PnL total = F64.np_round (Common.series_sum np (map Net_PnL rows)) 2.

(** ** What a row shows of the trades of its symbol *)

(** The row of a symbol shows the sums over the trades of that symbol: the
    realized PnL and the count over all of them, the BNB fee quantity over
    those paid in BNB, the direct fees over those paid in USDC or USDT. *)
Definition classified (ts : list trade) (r : row) : Prop :=
  let mine := trades_of (Token r) ts in
  mine <> [] /\
  Realized_PnL r = F64.py_round (float_sum (map realizedPnl mine)) 2 /\
  BNB_Fees r = F64.py_round (float_sum (map commission (filter paid_in_bnb mine))) 5 /\
  Direct_USDC_Fees r
  = F64.py_round (float_sum (map commission (filter paid_in_stable mine))) 2 /\
  Trades r = Z.of_nat (List.length mine).

(** ** Counting and ordering, for the report as a whole *)

(** How often the key [k] occurs among keys. *)
Definition occurrences (k : pyobj) (ks : list pyobj) : nat :=
  List.length (filter (key_eqb k) ks).

(** Some trade has the symbol [k]. *)
Definition traded (k : pyobj) (ts : list trade) : bool :=
  existsb (fun t => key_eqb k (symbol t)) ts.

(** The columns of a row that the conversion rate has no part in. *)
Definition unconverted (r : row) : pyobj * F64.float * F64.float * F64.float * Z :=
  (Token r, Realized_PnL r, BNB_Fees r, Direct_USDC_Fees r, Trades r).

(** The place of a float in an ascending order in which NaN comes last. *)
Definition rank_up (x : F64.float) : Z * Z * Z :=
  match x with
  | S754_nan => (3, 0, 0)
  | _ => rank x
  end.

(** [r] must stand before [r'] in a frame sorted on Net PnL, ascending: a
    missing value goes last, otherwise the smaller value goes first. *)
Definition precedes_up (r r' : row) : bool :=
  if F64.is_nan (Net_PnL r) then false
  else if F64.is_nan (Net_PnL r') then true
  else F64.ltb (Net_PnL r) (Net_PnL r').

(** [a] may stand above [b] in a frame sorted on Net PnL, ascending. *)
Definition in_order_up (a b : row) : Prop := precedes_up b a = false.

(** The same on the values of the column: [x] may stand above [y]. *)
Definition key_order (asc : bool) (x y : F64.float) : Prop :=
  (if F64.is_nan y then false
   else if F64.is_nan x then true
   else if asc then F64.ltb y x else F64.ltb x y) = false.

(** The rows of a frame stand in the one order that a sort on Net PnL can
    give them: every row must stand before the rows after it. *)
Fixpoint strictly_sorted (asc : bool) (df : DataFrame) : bool :=
  match df with
  | [] => true
  | r :: df' =>
      forallb (fun r' => if asc then precedes_up r r' else precedes r r') df'
      && strictly_sorted asc df'
  end.

(** ** Two builds of NumPy

    An insertion sort of the positions: position [i] goes before the first
    position that [before] puts its value before. *)
Fixpoint insert_index (before : F64.float -> F64.float -> bool)
    (xs : list F64.float) (i : nat) (sorted : list nat) : list nat :=
  match sorted with
  | [] => [i]
  | j :: rest =>
      if before (nth i xs F64.nan) (nth j xs F64.nan) then i :: sorted
      else j :: insert_index before xs i rest
  end.

Definition insertion_argsort (before : F64.float -> F64.float -> bool)
    (xs : list F64.float) : list nat :=
  fold_left (fun sorted i => insert_index before xs i sorted) (seq 0 (List.length xs)) [].

(** A build with a stable sort, whose sums start from 0.0. *)
Definition stable_build : numpy := mkNumpy (insertion_argsort F64.ltb) F64.zero.

(** A build whose sort puts the later of two equal values first, and whose
    sums start from -0.0. *)
Definition mirror_build : numpy := mkNumpy (insertion_argsort F64.leb) F64.neg_zero.

(** The style of the cell of a row in the column [name], as
    [highlight_total_and_negative] sets it. *)
Definition cell_style (r : row) (name : string) : string :=
  if (String.eqb name "Net PnL" && F64.ltb (Net_PnL r) F64.zero)%bool then "color: red"%string
  else if py_eqb (Token r) TOTAL then "font-weight: bold"%string
  else ""%string.

(** ** Sample inputs *)

(** The end-to-end scenario of the specification. *)
Definition scenario : list trade :=
  [ mkTrade (PyStr "BTCUSDC") (F64.of_Z 100) (F64.of_decimal false 1 (-2)) BNB;
    mkTrade (PyStr "BTCUSDC") (F64.of_Z (-20)) (F64.of_decimal false 5 (-1)) USDC;
    mkTrade (PyStr "ETHUSDC") (F64.of_Z 50) (F64.of_decimal false 2 (-2)) BNB ].

(** Two symbols with net results 0.1 and 0.2. *)
Definition tenth_and_fifth : list trade :=
  [ mkTrade (PyStr "AUSDC") (F64.of_decimal false 1 (-1)) F64.zero USDC;
    mkTrade (PyStr "BUSDC") (F64.of_decimal false 2 (-1)) F64.zero USDC ].

(** A single trade in an instrument named TOTAL. *)
Definition trade_named_total : list trade :=
  [ mkTrade TOTAL (F64.of_Z 1) F64.zero USDC ].

(** Two symbols with the same result, BUSDC traded first. *)
Definition equal_results : list trade :=
  [ mkTrade (PyStr "BUSDC") (F64.of_Z 1) F64.zero USDC;
    mkTrade (PyStr "AUSDC") (F64.of_Z 1) F64.zero USDC ].

(** Two symbols, the smaller result traded first. *)
Definition rising_results : list trade :=
  [ mkTrade (PyStr "AUSDC") (F64.of_Z 1) F64.zero USDC;
    mkTrade (PyStr "BUSDC") (F64.of_Z 2) F64.zero USDC ].

(** One trade with a realized result of 0.125, halfway between 0.12 and
    0.13 and exact in binary. *)
Definition one_eighth : list trade :=
  [ mkTrade (PyStr "BTCUSDC") (F64.of_decimal false 125 (-3)) F64.zero USDC ].

(** A sheet with one row: no symbol, an unreadable result, a fee of
    ["inf"]. *)
Definition odd_sheet : workbook :=
  Sheet [ mkSheetRow (Some 0) (PyFloat F64.nan) (PyStr "abc") (PyStr "inf") (Some USDC) ].


(** Eight symbols with a result of 0.1 each. *)
Definition eight_tenths : list trade :=
  map (fun s => mkTrade (PyStr s) (F64.of_decimal false 1 (-1)) F64.zero USDC)
      ["AUSDC"; "BUSDC"; "CUSDC"; "DUSDC"; "EUSDC"; "FUSDC"; "GUSDC"; "HUSDC"]%string.

(** A sheet of two rows whose Symbol cells are empty, without a Fee Coin
    column. *)
Definition nameless_rows : list sheet_row :=
  [ mkSheetRow (Some 0) (PyFloat F64.nan) (PyStr "2") (PyStr "0.25") None;
    mkSheetRow (Some 1) (PyFloat F64.nan) (PyStr "1") (PyStr "0.5") None ].

(** 9999-12-31 23:59 in a zone one hour behind UTC, and 1970-01-02 00:00
    without a zone. *)
Definition last_hour : datetime :=
  mkDatetime 253402300740000000 (Some (-3600000000)).

Definition second_day : datetime := mkDatetime 86400000000 None.

(** A sheet with two rows, a day apart. *)
Definition dated_sheet : workbook :=
  Sheet [ mkSheetRow (Some 0) (PyStr "BTCUSDC") (PyStr "1") (PyStr "0") (Some BNB);
          mkSheetRow (Some 86400000000) (PyStr "ETHUSDC") (PyStr "1") (PyStr "0")
                     (Some BNB) ].

(** A row under another label. *)
Definition relabel (f : pyobj -> pyobj) (r : row) : row :=
  mkRow (f (Token r)) (Realized_PnL r) (BNB_Fees r) (BNB_Fees_USDC r)
        (Direct_USDC_Fees r) (Total_Fees_USDC r) (Net_PnL r) (Trades r).

(** The rows built for two symbols with the same result, in the two orders
    in which the symbols can first appear. *)
Definition tie_frame : DataFrame :=
  Common.make_rows (F64.of_Z 600) (Common.accumulate equal_results).

Definition tie_frame_rev : DataFrame :=
  Common.make_rows (F64.of_Z 600) (Common.accumulate (rev equal_results)).

(** Exchanges the two symbols. *)
Definition exchange (k : pyobj) : pyobj :=
  if py_eqb k (PyStr "AUSDC") then PyStr "BUSDC"
  else if py_eqb k (PyStr "BUSDC") then PyStr "AUSDC"
  else k.

(** A sheet without a Fee Coin column: two fees on one symbol. *)
Definition coinless_rows : list sheet_row :=
  [ mkSheetRow (Some 0) (PyStr "BTCUSDC") (PyStr "10") (PyStr "0.25") None;
    mkSheetRow (Some 1) (PyStr "BTCUSDC") (PyStr "-4") (PyStr "0.5") None ].

(** Contracts as the exchange lists them: two to keep, three to drop. *)
Definition listed_contracts : list contract :=
  [ mkContract "BTCUSDC" (Some "PERPETUAL"); mkContract "BTCUSDT" (Some "PERPETUAL");
    mkContract "ETHUSDC" (Some "CURRENT_QUARTER"); mkContract "ETHUSDC" (Some "PERPETUAL");
    mkContract "XRPUSDC" None ]%string.

(** An exchange that refuses the trades of ETHUSDC. *)
Definition refusing_eth (s : string) : option (list trade) :=
  if String.eqb s "ETHUSDC" then None
  else Some [ mkTrade (PyStr s) (F64.of_Z 1) F64.zero USDC ].

(** A Downloads folder that holds the file under the fourth of the names
    looked for. *)
Definition has_trade_history (p : string) : bool :=
  String.eqb p "/home/user/Downloads/TradeHistory.xlsx".
(** * Properties *)

(** ** Dictionary keys *)

Lemma SFeqb_finite_iff s1 m1 e1 s2 m2 e2 :
  SFeqb (S754_finite s1 m1 e1) (S754_finite s2 m2 e2) = true <->
  s1 = s2 /\ m1 = m2 /\ e1 = e2.
Proof.
  unfold SFeqb, SFcompare.
  destruct s1, s2; try (split; [discriminate | intros (H & _); discriminate]).
  - destruct (Z.compare_spec e1 e2) as [He|He|He];
      try (split; [discriminate | intros (_ & _ & H); lia]).
    change (Pos.compare_cont Eq m1 m2) with (Pos.compare m1 m2).
    destruct (Pos.compare_spec m1 m2) as [Hm|Hm|Hm]; simpl;
      try (split; [discriminate | intros (_ & H & _); lia]).
    subst; tauto.
  - destruct (Z.compare_spec e1 e2) as [He|He|He];
      try (split; [discriminate | intros (_ & _ & H); lia]).
    change (Pos.compare_cont Eq m1 m2) with (Pos.compare m1 m2).
    destruct (Pos.compare_spec m1 m2) as [Hm|Hm|Hm]; simpl;
      try (split; [discriminate | intros (_ & H & _); lia]).
    subst; tauto.
Qed.

Lemma key_eqb_spec a b : key_eqb a b = true <-> key_norm a = key_norm b.
Proof.
  destruct a as [s|[sx|sx| |sx mx ex]|i|], b as [t|[sy|sy| |sy my ey]|j|]; simpl;
    try (split; (discriminate || reflexivity));
    try (destruct sx, sy; split; (discriminate || reflexivity));
    try (destruct sx; split; discriminate);
    try (destruct sy; split; discriminate).
  - rewrite String.eqb_eq. split; congruence.
  - unfold F64.eqb. rewrite SFeqb_finite_iff.
    split; [intros (-> & -> & ->); reflexivity | intros H; injection H; auto].
  - rewrite N.eqb_eq. split; congruence.
Qed.

Lemma key_eqb_refl k : key_eqb k k = true.
Proof. apply key_eqb_spec; reflexivity. Qed.

Lemma key_eqb_congr k k0 k' :
  key_eqb k k0 = true -> key_eqb k k' = key_eqb k0 k'.
Proof.
  intros H; apply key_eqb_spec in H.
  destruct (key_eqb k k') eqn:E1, (key_eqb k0 k') eqn:E2; try reflexivity.
  - apply key_eqb_spec in E1.
    assert (E : key_eqb k0 k' = true) by (apply key_eqb_spec; congruence).
    congruence.
  - apply key_eqb_spec in E2.
    assert (E : key_eqb k k' = true) by (apply key_eqb_spec; congruence).
    congruence.
Qed.

Lemma key_eqb_sym k k' : key_eqb k k' = key_eqb k' k.
Proof.
  destruct (key_eqb k k') eqn:E1, (key_eqb k' k) eqn:E2; try reflexivity.
  - apply key_eqb_spec in E1.
    assert (E : key_eqb k' k = true) by (apply key_eqb_spec; congruence).
    congruence.
  - apply key_eqb_spec in E2.
    assert (E : key_eqb k k' = true) by (apply key_eqb_spec; congruence).
    congruence.
Qed.

(** Comparing with a string literal. *)
Lemma py_eqb_str a s : py_eqb a (PyStr s) = true <-> a = PyStr s.
Proof.
  destruct a as [t|x|i|]; simpl; try (split; discriminate).
  rewrite String.eqb_eq. split; congruence.
Qed.

(** ** Reading and writing the dictionary *)

Lemma dict_get_modify_same k k0 f d :
  key_eqb k k0 = true ->
  dict_get k (dict_modify k0 f d) = option_map f (dict_get k d).
Proof.
  intros H. induction d as [|[k' v] d IH]; simpl; [reflexivity|].
  rewrite <- (key_eqb_congr _ _ k' H).
  destruct (key_eqb k k') eqn:E; simpl; rewrite E; auto.
Qed.

Lemma dict_get_modify_other k k0 f d :
  key_eqb k k0 = false ->
  dict_get k (dict_modify k0 f d) = dict_get k d.
Proof.
  intros H. induction d as [|[k' v] d IH]; simpl; [reflexivity|].
  destruct (key_eqb k0 k') eqn:E0; simpl.
  - assert (E : key_eqb k k' = false).
    { rewrite key_eqb_sym, <- (key_eqb_congr k0 k' k E0), key_eqb_sym. exact H. }
    rewrite E. reflexivity.
  - destruct (key_eqb k k'); auto.
Qed.

Lemma dict_get_set_same k k0 v d :
  key_eqb k k0 = true -> dict_get k (dict_set k0 v d) = Some v.
Proof.
  intros H. induction d as [|[k' v'] d IH]; simpl.
  - rewrite H. reflexivity.
  - rewrite <- (key_eqb_congr _ _ k' H).
    destruct (key_eqb k k') eqn:E; simpl; rewrite E; auto.
Qed.

Lemma dict_get_set_other k k0 v d :
  key_eqb k k0 = false -> dict_get k (dict_set k0 v d) = dict_get k d.
Proof.
  intros H. induction d as [|[k' v'] d IH]; simpl.
  - rewrite H. reflexivity.
  - destruct (key_eqb k0 k') eqn:E0; simpl.
    + assert (E : key_eqb k k' = false).
      { rewrite key_eqb_sym, <- (key_eqb_congr k0 k' k E0), key_eqb_sym. exact H. }
      rewrite E. reflexivity.
    + destruct (key_eqb k k'); auto.
Qed.

Lemma dict_set_fresh k v d :
  dict_mem k d = false -> dict_set k v d = d ++ [(k, v)].
Proof.
  unfold dict_mem. induction d as [|[k' v'] d IH]; simpl; [reflexivity|].
  destruct (key_eqb k k'); [discriminate|].
  intros H. rewrite IH by exact H. reflexivity.
Qed.

Lemma dict_modify_keys k f d : map fst (dict_modify k f d) = map fst d.
Proof.
  induction d as [|[k' v] d IH]; simpl; [reflexivity|].
  destruct (key_eqb k k'); simpl; congruence.
Qed.

(** ** One iteration of the accumulation loop *)

(** Splits a goal along the [if ... elif ...] on the commission asset. *)
Ltac fee_cases t :=
  destruct (py_eqb (commissionAsset t) BNB);
  [| destruct (existsb (py_eqb (commissionAsset t)) [USDC; USDT])].

Lemma process_trade_same d t k :
  key_eqb k (symbol t) = true ->
  dict_get k (Common.process_trade d t) =
  Some (apply_trade (match dict_get k d with
                     | Some v => v
                     | None => Common.new_entry
                     end) t).
Proof.
  intros Hk. unfold Common.process_trade, apply_trade, paid_in_bnb, paid_in_stable.
  set (d1 := if negb (dict_mem (symbol t) d)
             then dict_set (symbol t) Common.new_entry d else d).
  assert (H1 : dict_get k d1 =
               Some (match dict_get k d with
                     | Some v => v | None => Common.new_entry end)).
  { unfold d1, dict_mem.
    assert (Hg : dict_get (symbol t) d = dict_get k d).
    { clear -Hk. induction d as [|[k' v] d IH]; simpl; [reflexivity|].
      rewrite (key_eqb_congr _ _ k' Hk). rewrite IH. reflexivity. }
    rewrite Hg. destruct (dict_get k d) eqn:E; simpl.
    - exact E.
    - apply dict_get_set_same. exact Hk. }
  fee_cases t;
    repeat rewrite (dict_get_modify_same _ _ _ _ Hk); rewrite H1; reflexivity.
Qed.

Lemma process_trade_other d t k :
  key_eqb k (symbol t) = false ->
  dict_get k (Common.process_trade d t) = dict_get k d.
Proof.
  intros Hk. unfold Common.process_trade.
  set (d1 := if negb (dict_mem (symbol t) d)
             then dict_set (symbol t) Common.new_entry d else d).
  assert (H1 : dict_get k d1 = dict_get k d).
  { unfold d1. destruct (negb (dict_mem (symbol t) d)); [|reflexivity].
    apply dict_get_set_other. exact Hk. }
  fee_cases t;
    repeat rewrite (dict_get_modify_other _ _ _ _ Hk); exact H1.
Qed.

(** The two fee tests exclude each other, so the [elif] never hides a
    stable-coin fee. *)
Lemma paid_in_bnb_not_stable t : paid_in_bnb t = true -> paid_in_stable t = false.
Proof.
  unfold paid_in_bnb, paid_in_stable. intros H.
  apply py_eqb_str in H. rewrite H. reflexivity.
Qed.

(** ** The whole loop, symbol by symbol *)

Lemma accumulate_from d ts k :
  dict_get k (fold_left Common.process_trade ts d) =
  match dict_get k d with
  | Some v => Some (fold_left apply_trade (trades_of k ts) v)
  | None =>
      match trades_of k ts with
      | [] => None
      | mine => Some (fold_left apply_trade mine Common.new_entry)
      end
  end.
Proof.
  revert d. induction ts as [|t ts IH]; intros d; simpl.
  - destruct (dict_get k d); reflexivity.
  - rewrite IH. destruct (key_eqb k (symbol t)) eqn:Hk.
    + rewrite (process_trade_same _ _ _ Hk). simpl.
      destruct (dict_get k d); reflexivity.
    + rewrite (process_trade_other _ _ _ Hk). reflexivity.
Qed.

Lemma fold_apply_trade mine v :
  fold_left apply_trade mine v =
  mkEntry (fold_left F64.add (map realizedPnl mine) (realized_pnl v))
          (fold_left F64.add (map commission (filter paid_in_bnb mine)) (bnb_fees v))
          (fold_left F64.add (map commission (filter paid_in_stable mine)) (usdc_fees v))
          (trades v + Z.of_nat (List.length mine)).
Proof.
  revert v. induction mine as [|t mine IH]; intros v.
  - simpl. destruct v; simpl. f_equal. lia.
  - cbn [fold_left]. rewrite IH. unfold apply_trade.
    cbn [map filter List.length].
    destruct (paid_in_bnb t) eqn:Hb.
    + rewrite (paid_in_bnb_not_stable _ Hb). simpl. f_equal. lia.
    + destruct (paid_in_stable t); simpl; f_equal; lia.
Qed.

(** ** Sums *)

Lemma fold_add_shift l a : fold_left Z.add l a = a + Common.int_sum l.
Proof.
  unfold Common.int_sum. revert a.
  induction l as [|x l IH]; intros a; simpl; [lia|].
  rewrite IH, (IH x). lia.
Qed.

Lemma int_sum_cons x l : Common.int_sum (x :: l) = x + Common.int_sum l.
Proof. unfold Common.int_sum at 1. simpl. apply fold_add_shift. Qed.

Lemma int_sum_app l l' :
  Common.int_sum (l ++ l') = Common.int_sum l + Common.int_sum l'.
Proof.
  induction l as [|x l IH]; simpl; [reflexivity|].
  rewrite !int_sum_cons, IH. lia.
Qed.

Lemma int_sum_perm l l' :
  Permutation l l' -> Common.int_sum l = Common.int_sum l'.
Proof.
  induction 1; rewrite ?int_sum_cons; lia.
Qed.

(** ** The trade counts held by the dictionary *)

Lemma dict_mem_modify k k0 f d :
  dict_mem k (dict_modify k0 f d) = dict_mem k d.
Proof.
  unfold dict_mem. destruct (key_eqb k k0) eqn:E.
  - rewrite (dict_get_modify_same _ _ _ _ E). destruct (dict_get k d); reflexivity.
  - rewrite (dict_get_modify_other _ _ _ _ E). reflexivity.
Qed.

Lemma held_modify k f c d :
  (forall v, trades (f v) = trades v + c) ->
  held (dict_modify k f d) = held d + (if dict_mem k d then c else 0).
Proof.
  intros Hf. unfold held, dict_mem.
  induction d as [|[k' v] d IH]; simpl; [reflexivity|].
  destruct (key_eqb k k'); simpl; rewrite !int_sum_cons; simpl.
  - rewrite Hf. lia.
  - rewrite IH. lia.
Qed.

Lemma held_process_trade d t : held (Common.process_trade d t) = held d + 1.
Proof.
  unfold Common.process_trade.
  set (d1 := if negb (dict_mem (symbol t) d)
             then dict_set (symbol t) Common.new_entry d else d).
  assert (Hm : dict_mem (symbol t) d1 = true).
  { unfold d1. destruct (dict_mem (symbol t) d) eqn:E; simpl; [exact E|].
    unfold dict_mem. rewrite dict_get_set_same by apply key_eqb_refl. reflexivity. }
  assert (Hh : held d1 = held d).
  { unfold d1. destruct (dict_mem (symbol t) d) eqn:E; simpl; [reflexivity|].
    rewrite (dict_set_fresh _ _ _ E). unfold held.
    rewrite map_app, int_sum_app. simpl. unfold Common.int_sum at 2. simpl. lia. }
  assert (H2 : held (dict_modify (symbol t) Common.add_trade
                       (dict_modify (symbol t)
                          (Common.add_realized (realizedPnl t)) d1)) = held d + 1).
  { rewrite (held_modify _ _ 1) by (intros; reflexivity).
    rewrite (held_modify _ _ 0) by (intros; simpl; lia).
    rewrite dict_mem_modify, Hm. lia. }
  fee_cases t;
    try rewrite (held_modify _ _ 0) by (intros; simpl; lia);
    rewrite ?dict_mem_modify, ?Hm; lia.
Qed.

Lemma held_accumulate ts : held (Common.accumulate ts) = Z.of_nat (List.length ts).
Proof.
  unfold Common.accumulate.
  assert (H : forall d, held (fold_left Common.process_trade ts d)
                        = held d + Z.of_nat (List.length ts)).
  { induction ts as [|t ts IH]; intros d.
    - simpl. lia.
    - cbn [fold_left List.length]. rewrite IH, held_process_trade. lia. }
  rewrite H. unfold held. simpl. unfold Common.int_sum. simpl. lia.
Qed.

(** ** The symbols held by the dictionary *)

Lemma dict_set_keys k v d x :
  In x (map fst (dict_set k v d)) -> x = k \/ In x (map fst d).
Proof.
  induction d as [|[k' v'] d IH]; simpl.
  - intros [H|[]]; auto.
  - destruct (key_eqb k k'); simpl; intros [H|H]; auto.
    destruct (IH H); auto.
Qed.

Lemma process_trade_keys d t x :
  In x (map fst (Common.process_trade d t)) -> x = symbol t \/ In x (map fst d).
Proof.
  unfold Common.process_trade.
  set (d1 := if negb (dict_mem (symbol t) d)
             then dict_set (symbol t) Common.new_entry d else d).
  assert (H1 : In x (map fst d1) -> x = symbol t \/ In x (map fst d)).
  { unfold d1. destruct (negb (dict_mem (symbol t) d)); auto.
    apply dict_set_keys. }
  fee_cases t;
    rewrite ?dict_modify_keys; exact H1.
Qed.

Lemma accumulate_keys ts x :
  In x (map fst (Common.accumulate ts)) -> exists t, In t ts /\ symbol t = x.
Proof.
  unfold Common.accumulate.
  assert (H : forall d, In x (map fst (fold_left Common.process_trade ts d)) ->
                        (exists t, In t ts /\ symbol t = x) \/ In x (map fst d)).
  { induction ts as [|t ts IH]; intros d; simpl; auto.
    intros Hx. destruct (IH _ Hx) as [(t' & Ht & E)|Hd].
    - left. exists t'. auto.
    - destruct (process_trade_keys _ _ _ Hd) as [E|Hd']; auto.
      left. exists t. auto. }
  intros Hx. destruct (H _ Hx) as [Ht|[]]. exact Ht.
Qed.

Lemma accumulate_nonempty t ts : Common.accumulate (t :: ts) <> [].
Proof.
  intros E.
  pose proof (accumulate_from [] (t :: ts) (symbol t)) as H.
  fold (Common.accumulate (t :: ts)) in H.
  rewrite E in H. unfold trades_of in H. cbn [filter dict_get] in H.
  rewrite key_eqb_refl in H. discriminate.
Qed.

Lemma dict_mem_keys k d : dict_mem k d = existsb (key_eqb k) (map fst d).
Proof.
  unfold dict_mem. induction d as [|[k' v] d IH]; simpl; [reflexivity|].
  destruct (key_eqb k k'); [reflexivity | exact IH].
Qed.

Lemma process_trade_key_order d t :
  map fst (Common.process_trade d t) =
  if existsb (key_eqb (symbol t)) (map fst d) then map fst d
  else map fst d ++ [symbol t].
Proof.
  unfold Common.process_trade.
  set (d1 := if negb (dict_mem (symbol t) d)
             then dict_set (symbol t) Common.new_entry d else d).
  assert (H1 : map fst d1 =
               if existsb (key_eqb (symbol t)) (map fst d) then map fst d
               else map fst d ++ [symbol t]).
  { unfold d1. rewrite <- dict_mem_keys.
    destruct (dict_mem (symbol t) d) eqn:E; simpl; [reflexivity|].
    rewrite (dict_set_fresh _ _ _ E), map_app. reflexivity. }
  fee_cases t; rewrite ?dict_modify_keys; exact H1.
Qed.

(** The dictionary holds the symbols in the order of their first
    appearance. *)
Lemma accumulate_key_order ts : map fst (Common.accumulate ts) = first_seen ts.
Proof.
  unfold Common.accumulate, first_seen.
  assert (H : forall d,
             map fst (fold_left Common.process_trade ts d) =
             fold_left (fun ks t =>
                          if existsb (key_eqb (symbol t)) ks then ks
                          else ks ++ [symbol t])
                       ts (map fst d)).
  { induction ts as [|t ts IH]; intros d; [reflexivity|].
    cbn [fold_left]. rewrite IH, process_trade_key_order. reflexivity. }
  apply (H []).
Qed.

(** ** Rows *)

Lemma make_rows_tokens p d : map Token (Common.make_rows p d) = map fst d.
Proof.
  unfold Common.make_rows. rewrite map_map. apply map_ext. intros [k v]. reflexivity.
Qed.

Lemma make_rows_trades p d :
  map Trades (Common.make_rows p d) = map (fun kv => trades (snd kv)) d.
Proof.
  unfold Common.make_rows. rewrite map_map. apply map_ext. intros [k v]. reflexivity.
Qed.

(** ** Positions and masks *)

Lemma take_app {A} (l : list A) (ix js : list nat) :
  take l (ix ++ js) = take l ix ++ take l js.
Proof. unfold take. apply flat_map_app. Qed.

Lemma take_cons {A} (l : list A) (i : nat) (ix : list nat) :
  take l (i :: ix) = match nth_error l i with Some x => [x] | None => [] end ++ take l ix.
Proof. reflexivity. Qed.

Lemma take_map {A B} (f : A -> B) (l : list A) (ix : list nat) :
  take (map f l) ix = map f (take l ix).
Proof.
  induction ix as [|i ix IH]; [reflexivity|].
  rewrite !take_cons, map_app, IH, nth_error_map.
  destruct (nth_error l i); reflexivity.
Qed.

Lemma take_rev {A} (l : list A) (ix : list nat) : take l (rev ix) = rev (take l ix).
Proof.
  induction ix as [|i ix IH]; [reflexivity|].
  cbn [rev]. rewrite take_app, IH, !take_cons, rev_app_distr.
  destruct (nth_error l i); reflexivity.
Qed.

Lemma take_shift {A} (x : A) (l : list A) (ix : list nat) :
  take (x :: l) (map S ix) = take l ix.
Proof.
  induction ix as [|i ix IH]; [reflexivity|].
  cbn [map]. rewrite !take_cons, IH. reflexivity.
Qed.

Lemma take_seq {A} (l : list A) : take l (seq 0 (List.length l)) = l.
Proof.
  induction l as [|x l IH]; [reflexivity|].
  cbn [List.length seq]. rewrite <- seq_shift, take_cons, take_shift, IH. reflexivity.
Qed.

Lemma take_perm {A} (l : list A) (ix : list nat) :
  Permutation ix (seq 0 (List.length l)) -> Permutation (take l ix) l.
Proof.
  intros H. rewrite <- (take_seq l) at 2. unfold take.
  apply Permutation_flat_map. exact H.
Qed.

Lemma take_in {A} (l : list A) (ix : list nat) (x : A) : In x (take l ix) -> In x l.
Proof.
  unfold take. rewrite in_flat_map. intros (i & _ & H).
  destruct (nth_error l i) as [y|] eqn:E; [|contradiction].
  destruct H as [<-|[]]. exact (nth_error_In _ _ E).
Qed.

Lemma nth_error_take {A} (l : list A) (ix : list nat) (j : nat) :
  Forall (fun i => (i < List.length l)%nat) ix ->
  nth_error (take l ix) j =
  match nth_error ix j with
  | Some i => nth_error l i
  | None => None
  end.
Proof.
  intros H. revert j. induction H as [|i ix Hi _ IH]; intros j.
  - destruct j; reflexivity.
  - rewrite take_cons. destruct (nth_error l i) as [x|] eqn:E.
    + destruct j; cbn; [symmetry; exact E | apply IH].
    + apply nth_error_None in E. lia.
Qed.

Lemma take_take {A} (l : list A) (ix js : list nat) :
  Forall (fun i => (i < List.length l)%nat) ix ->
  take l (take ix js) = take (take l ix) js.
Proof.
  intros H. induction js as [|j js IH]; [reflexivity|].
  rewrite !take_cons, take_app, IH, (nth_error_take l ix j H).
  destruct (nth_error ix j) as [i|]; [|reflexivity].
  rewrite take_cons. cbn [take flat_map]. rewrite app_nil_r. reflexivity.
Qed.

Lemma select_nil {A} (m : list bool) : select m (@nil A) = [].
Proof. destruct m as [|[] m]; reflexivity. Qed.

Lemma select_map {A B} (f : A -> B) (m : list bool) (l : list A) :
  select m (map f l) = map f (select m l).
Proof.
  revert l. induction m as [|b m IH]; intros [|x l]; try reflexivity.
  cbn [map select]. rewrite IH. destruct b; reflexivity.
Qed.

Lemma select_length {A B} (m : list bool) (l : list A) (l' : list B) :
  List.length l = List.length l' ->
  List.length (select m l) = List.length (select m l').
Proof.
  revert l l'. induction m as [|b m IH]; intros [|x l] [|y l'] E;
    try reflexivity; try discriminate.
  cbn [select]. injection E as E. destruct b; cbn [List.length]; rewrite (IH l l' E);
    reflexivity.
Qed.

Lemma select_take {A} (m : list bool) (l : list A) :
  take l (select m (seq 0 (List.length l))) = select m l.
Proof.
  revert m. induction l as [|x l IH]; intros m.
  - cbn [List.length seq]. rewrite !select_nil. reflexivity.
  - destruct m as [|b m]; [reflexivity|].
    cbn [List.length seq select]. rewrite <- seq_shift, select_map.
    destruct b.
    + rewrite take_cons, take_shift, IH. reflexivity.
    + rewrite take_shift, IH. reflexivity.
Qed.

Lemma select_seq_range (m : list bool) (a n : nat) :
  Forall (fun i => (i < a + n)%nat) (select m (seq a n)).
Proof.
  revert m a. induction n as [|n IH]; intros m a.
  - cbn. rewrite select_nil. constructor.
  - destruct m as [|b m]; [constructor|].
    cbn [seq select].
    assert (H : Forall (fun i => (i < a + S n)%nat) (select m (seq (S a) n))).
    { eapply Forall_impl; [|apply (IH m (S a))]. cbn beta. intros i Hi. lia. }
    destruct b; [constructor; [lia | exact H] | exact H].
Qed.

Lemma select_partition {A} (m : list bool) (l : list A) :
  List.length m = List.length l ->
  Permutation (select (map negb m) l ++ select m l) l.
Proof.
  revert l. induction m as [|b m IH]; intros [|x l] E; try discriminate.
  - constructor.
  - injection E as E. specialize (IH l E). cbn [map select].
    destruct b; cbn [negb].
    + apply Permutation_sym, Permutation_cons_app, Permutation_sym. exact IH.
    + cbn. constructor. exact IH.
Qed.

Lemma select_filter {A} (p : A -> bool) (l : list A) : select (map p l) l = filter p l.
Proof.
  induction l as [|x l IH]; [reflexivity|].
  cbn [map select filter]. rewrite IH. reflexivity.
Qed.

Lemma select_filter_not {A} (p : A -> bool) (l : list A) :
  select (map negb (map p l)) l = filter (fun x => negb (p x)) l.
Proof. rewrite map_map. apply (select_filter (fun x => negb (p x))). Qed.

Lemma filter_none {A} (f : A -> bool) l :
  Forall (fun x => f x = false) l -> filter f l = [].
Proof.
  induction 1 as [|x l Hx _ IH]; [reflexivity|]. cbn. rewrite Hx. exact IH.
Qed.

Lemma filter_all {A} (f : A -> bool) l :
  Forall (fun x => f x = true) l -> filter f l = l.
Proof.
  induction 1 as [|x l Hx _ IH]; [reflexivity|]. cbn. rewrite Hx, IH. reflexivity.
Qed.

Lemma filter_forall {A} (p : A -> bool) (l : list A) :
  Forall (fun x => p x = true) (filter p l).
Proof. apply Forall_forall. intros x Hx. apply filter_In in Hx. tauto. Qed.

(** ** Sorted lists *)

Lemma StronglySorted_app {A} (R : A -> A -> Prop) (l l' : list A) :
  StronglySorted R l -> StronglySorted R l' ->
  (forall a b, In a l -> In b l' -> R a b) ->
  StronglySorted R (l ++ l').
Proof.
  intros Hl Hl' Hx. induction Hl as [|a l Hs IH Ha]; [exact Hl'|].
  cbn. constructor.
  - apply IH. intros x y Hx' Hy. apply Hx; [right; exact Hx' | exact Hy].
  - apply Forall_app. split; [exact Ha|].
    apply Forall_forall. intros b Hb. apply Hx; [left; reflexivity | exact Hb].
Qed.

Lemma StronglySorted_rev {A} (R : A -> A -> Prop) (l : list A) :
  StronglySorted R l -> StronglySorted (fun a b => R b a) (rev l).
Proof.
  induction 1 as [|a l Hs IH Ha]; [constructor|].
  cbn [rev]. apply StronglySorted_app; [exact IH | repeat constructor |].
  intros x y Hx [<-|[]]. rewrite Forall_forall in Ha. apply Ha.
  apply in_rev. exact Hx.
Qed.

Lemma StronglySorted_within {A} (R R' : A -> A -> Prop) (l : list A) :
  (forall a b, In a l -> In b l -> R a b -> R' a b) ->
  StronglySorted R l -> StronglySorted R' l.
Proof.
  intros H Hs. induction Hs as [|a l Hs IH Ha]; [constructor|].
  constructor.
  - apply IH. intros x y Hx Hy. apply H; right; assumption.
  - rewrite Forall_forall in *. intros b Hb.
    apply H; [left; reflexivity | right; exact Hb | apply Ha; exact Hb].
Qed.

Lemma StronglySorted_of_map {A B} (f : A -> B) (R : B -> B -> Prop) (l : list A) :
  StronglySorted R (map f l) -> StronglySorted (fun a b => R (f a) (f b)) l.
Proof.
  induction l as [|a l IH]; [constructor|].
  cbn [map]. intros H. inversion H as [|? ? Hs Ha]; subst.
  constructor; [apply IH; exact Hs|].
  rewrite Forall_forall in *. intros b Hb. apply Ha. apply in_map. exact Hb.
Qed.

Lemma StronglySorted_map {A B} (f : A -> B) (R : B -> B -> Prop) (l : list A) :
  StronglySorted (fun a b => R (f a) (f b)) l -> StronglySorted R (map f l).
Proof.
  induction 1 as [|a l Hs IH Ha]; [constructor|].
  cbn [map]. constructor; [exact IH|].
  rewrite Forall_forall in *. intros y Hy. apply in_map_iff in Hy.
  destruct Hy as (b & <- & Hb). apply Ha. exact Hb.
Qed.

(** A list has at most one arrangement in which every element must stand
    before those after it. *)
Lemma sorted_unique {A} (R strict : A -> A -> Prop) :
  (forall a b, strict a b -> R b a -> False) ->
  forall l l', Permutation l l' -> StronglySorted R l -> StronglySorted strict l' -> l = l'.
Proof.
  intros Hx l. induction l as [|h l IH]; intros l' P Hl Hl'.
  - apply Permutation_nil in P. subst. reflexivity.
  - destruct l' as [|x l'].
    + apply Permutation_sym, Permutation_nil in P. discriminate.
    + inversion Hl as [|? ? Hs Hh]; subst. inversion Hl' as [|? ? Hs' Hx']; subst.
      rewrite Forall_forall in Hh, Hx'.
      assert (E : h = x).
      { assert (Hin : In h (x :: l')) by (apply (Permutation_in _ P); left; reflexivity).
        destruct Hin as [E|Hin]; [symmetry; exact E|].
        assert (Hin' : In x (h :: l))
          by (apply (Permutation_in _ (Permutation_sym P)); left; reflexivity).
        destruct Hin' as [E|Hin']; [exact E|].
        exfalso. exact (Hx x h (Hx' h Hin) (Hh x Hin')). }
      subst x. f_equal. apply IH; [|exact Hs | exact Hs'].
      exact (Permutation_cons_inv P).
Qed.
(** ** The order of floats *)

Lemma lex_compare_lt e1 m1 e2 m2 :
  match e1 ?= e2 with
  | Lt => Lt
  | Gt => Gt
  | Eq => Pos.compare_cont Eq m1 m2
  end = Lt <-> e1 < e2 \/ (e1 = e2 /\ Zpos m1 < Zpos m2).
Proof.
  change (Pos.compare_cont Eq m1 m2) with (Pos.compare m1 m2).
  destruct (Z.compare_spec e1 e2); [destruct (Pos.compare_spec m1 m2)| |];
    split; intros H'; try discriminate; try reflexivity; lia.
Qed.

Lemma lex_compare_gt e1 m1 e2 m2 :
  match e1 ?= e2 with
  | Lt => Gt
  | Gt => Lt
  | Eq => CompOpp (Pos.compare_cont Eq m1 m2)
  end = Lt <-> e2 < e1 \/ (e1 = e2 /\ Zpos m2 < Zpos m1).
Proof.
  change (Pos.compare_cont Eq m1 m2) with (Pos.compare m1 m2).
  destruct (Z.compare_spec e1 e2); [destruct (Pos.compare_spec m1 m2)| |];
    split; simpl; intros H'; try discriminate; try reflexivity; lia.
Qed.

Lemma is_Lt_iff (c : comparison) :
  match c with Lt => true | _ => false end = true <-> c = Lt.
Proof. destruct c; split; congruence. Qed.

(** On floats that are not NaN, [<] is the order of the ranks. *)
Lemma ltb_rank x y :
  F64.is_nan x = false -> F64.is_nan y = false ->
  (F64.ltb x y = true <-> lt3 (rank x) (rank y)).
Proof.
  unfold F64.ltb, SFltb.
  destruct x as [sx|sx| |sx mx ex], y as [sy|sy| |sy my ey];
    try discriminate; intros _ _; simpl;
    try (destruct sx); try (destruct sy); simpl;
    try (split; [discriminate | lia]);
    try (split; [intros _; lia | reflexivity]).
  - rewrite is_Lt_iff, lex_compare_gt. lia.
  - rewrite is_Lt_iff, lex_compare_lt. lia.
Qed.

Lemma rank_nan_least x : F64.is_nan x = false -> lt3 (rank S754_nan) (rank x).
Proof.
  destruct x as [s|[]| |[] m e]; try discriminate; intros _; simpl; lia.
Qed.

(** [precedes] is the strict descending order of the ranks. *)
Lemma precedes_rank r r' :
  precedes r r' = true <-> lt3 (rank (Net_PnL r')) (rank (Net_PnL r)).
Proof.
  unfold precedes.
  destruct (F64.is_nan (Net_PnL r)) eqn:Hr.
  - destruct (Net_PnL r); try discriminate.
    split; [discriminate|].
    destruct (Net_PnL r') as [s|[]| |[] m e]; simpl; lia.
  - destruct (F64.is_nan (Net_PnL r')) eqn:Hr'.
    + destruct (Net_PnL r'); try discriminate.
      split; [intros _; apply rank_nan_least; exact Hr | reflexivity].
    + apply ltb_rank; assumption.
Qed.

Lemma lt3_asym a b : lt3 a b -> lt3 b a -> False.
Proof. destruct a as [[a1 a2] a3], b as [[b1 b2] b3]; simpl; lia. Qed.

Lemma lt3_neg_trans a b c : ~ lt3 a b -> ~ lt3 b c -> ~ lt3 a c.
Proof.
  destruct a as [[a1 a2] a3], b as [[b1 b2] b3], c as [[c1 c2] c3]; simpl; lia.
Qed.

Lemma precedes_false r r' :
  precedes r r' = false <-> ~ lt3 (rank (Net_PnL r')) (rank (Net_PnL r)).
Proof.
  rewrite <- precedes_rank. destruct (precedes r r'); split; congruence.
Qed.

Lemma precedes_asym r r' :
  precedes r r' = true -> precedes r' r = false.
Proof.
  rewrite precedes_rank, precedes_false. intros H H'. exact (lt3_asym _ _ H H').
Qed.

Lemma in_order_trans a b c : in_order a b -> in_order b c -> in_order a c.
Proof.
  unfold in_order. rewrite !precedes_false. intros H1 H2.
  exact (lt3_neg_trans _ _ _ H1 H2).
Qed.
Lemma precedes_up_rank r r' :
  precedes_up r r' = true <-> lt3 (rank_up (Net_PnL r)) (rank_up (Net_PnL r')).
Proof.
  unfold precedes_up.
  destruct (F64.is_nan (Net_PnL r)) eqn:Hr.
  - destruct (Net_PnL r); try discriminate.
    split; [discriminate|].
    destruct (Net_PnL r') as [s|[]| |[] m e]; simpl; lia.
  - destruct (F64.is_nan (Net_PnL r')) eqn:Hr'.
    + destruct (Net_PnL r'); try discriminate.
      split; [|reflexivity]. intros _.
      destruct (Net_PnL r) as [s|[]| |[] m e]; try discriminate; simpl; lia.
    + assert (E : rank_up (Net_PnL r) = rank (Net_PnL r))
        by (destruct (Net_PnL r); try discriminate; reflexivity).
      assert (E' : rank_up (Net_PnL r') = rank (Net_PnL r'))
        by (destruct (Net_PnL r'); try discriminate; reflexivity).
      rewrite E, E'. apply ltb_rank; assumption.
Qed.

Lemma precedes_up_false r r' :
  precedes_up r r' = false <->
  ~ lt3 (rank_up (Net_PnL r)) (rank_up (Net_PnL r')).
Proof.
  rewrite <- precedes_up_rank. destruct (precedes_up r r'); split; congruence.
Qed.

Lemma precedes_up_asym r r' : precedes_up r r' = true -> precedes_up r' r = false.
Proof.
  rewrite precedes_up_rank, precedes_up_false. intros H H'. exact (lt3_asym _ _ H' H).
Qed.

(** On floats that are not NaN, [x <= y] is not [y < x]. *)
Lemma leb_ltb x y :
  F64.is_nan x = false -> F64.is_nan y = false -> F64.leb x y = negb (F64.ltb y x).
Proof.
  unfold F64.leb, F64.ltb, SFleb, SFltb.
  destruct x as [sx|sx| |sx mx ex], y as [sy|sy| |sy my ey];
    try discriminate; intros _ _; cbn;
    try (destruct sx); try (destruct sy); try reflexivity.
  - assert (Hm : Pos.compare_cont Eq my mx = CompOpp (Pos.compare_cont Eq mx my))
      by (symmetry; apply (Pos.compare_cont_antisym mx my Eq)).
    rewrite Hm, (Z.compare_antisym ex ey).
    destruct (ex ?= ey), (Pos.compare_cont Eq mx my); reflexivity.
  - assert (Hm : Pos.compare_cont Eq my mx = CompOpp (Pos.compare_cont Eq mx my))
      by (symmetry; apply (Pos.compare_cont_antisym mx my Eq)).
    rewrite Hm, (Z.compare_antisym ex ey).
    destruct (ex ?= ey), (Pos.compare_cont Eq mx my); reflexivity.
Qed.

(** [<=] is transitive on floats that are not NaN. *)
Lemma not_ltb_trans x y z :
  F64.is_nan x = false -> F64.is_nan y = false -> F64.is_nan z = false ->
  F64.ltb y x = false -> F64.ltb z y = false -> F64.ltb z x = false.
Proof.
  intros Hx Hy Hz H1 H2.
  destruct (F64.ltb z x) eqn:E; [|reflexivity]. exfalso.
  apply (ltb_rank _ _ Hz Hx) in E.
  apply (lt3_neg_trans (rank z) (rank y) (rank x)); try exact E.
  - intros H. apply (ltb_rank _ _ Hz Hy) in H. congruence.
  - intros H. apply (ltb_rank _ _ Hy Hx) in H. congruence.
Qed.

Lemma ltb_asym x y :
  F64.is_nan x = false -> F64.is_nan y = false ->
  F64.ltb x y = true -> F64.ltb y x = false.
Proof.
  intros Hx Hy H. destruct (F64.ltb y x) eqn:E; [|reflexivity]. exfalso.
  apply (ltb_rank _ _ Hx Hy) in H. apply (ltb_rank _ _ Hy Hx) in E.
  exact (lt3_asym _ _ H E).
Qed.

(** ** [sort_values] *)

Lemma nargsort_perm np items asc :
  conforms np -> Permutation (nargsort np items asc) (seq 0 (List.length items)).
Proof.
  intros (Hp & _ & _). unfold nargsort. cbv zeta.
  set (mask := map F64.is_nan items).
  set (idx := seq 0 (List.length items)).
  set (nn := select (map negb mask) items).
  set (nni := select (map negb mask) idx).
  assert (Hlen : List.length mask = List.length idx)
    by (unfold mask, idx; rewrite length_map, length_seq; reflexivity).
  assert (Hl : List.length nn = List.length nni)
    by (apply select_length; unfold idx; rewrite length_seq; reflexivity).
  apply Permutation_trans with (nni ++ select mask idx);
    [|exact (select_partition mask idx Hlen)].
  apply Permutation_app_tail.
  destruct asc.
  - apply take_perm. rewrite <- Hl. apply Hp.
  - apply Permutation_trans with (take (rev nni) (argsort np (rev nn))).
    + apply Permutation_sym, Permutation_rev.
    + apply Permutation_trans with (rev nni); [|apply Permutation_sym, Permutation_rev].
      apply take_perm. rewrite length_rev, <- Hl, <- (length_rev nn). apply Hp.
Qed.

(** The values at the positions that [nargsort] returns: the values that
    are not NaN, as NumPy orders them, and then the NaN values. *)
Lemma nargsort_keys np items asc :
  take items (nargsort np items asc) =
  (let nn := filter (fun x => negb (F64.is_nan x)) items in
   if asc then take nn (argsort np nn)
   else rev (take (rev nn) (argsort np (rev nn))))
  ++ filter F64.is_nan items.
Proof.
  unfold nargsort. cbv zeta.
  rewrite take_app, select_take, select_filter. f_equal.
  assert (Hr : Forall (fun i => (i < List.length items)%nat)
                      (select (map negb (map F64.is_nan items))
                              (seq 0 (List.length items))))
    by apply (select_seq_range _ 0).
  rewrite <- (select_filter_not F64.is_nan items).
  set (m := map negb (map F64.is_nan items)) in *.
  destruct asc.
  - rewrite (take_take _ _ _ Hr), select_take. reflexivity.
  - rewrite take_rev. f_equal.
    rewrite (take_take _ _ _ (Forall_rev Hr)).
    rewrite take_rev, select_take. reflexivity.
Qed.

Lemma sort_values_perm np asc df :
  conforms np -> Permutation (sort_values np asc df) df.
Proof.
  intros H. unfold sort_values. apply take_perm.
  rewrite <- (length_map Net_PnL df). apply nargsort_perm. exact H.
Qed.

Lemma sort_values_keys np asc df :
  map Net_PnL (sort_values np asc df) =
  (let nn := filter (fun x => negb (F64.is_nan x)) (map Net_PnL df) in
   if asc then take nn (argsort np nn)
   else rev (take (rev nn) (argsort np (rev nn))))
  ++ filter F64.is_nan (map Net_PnL df).
Proof. unfold sort_values. rewrite <- take_map. apply nargsort_keys. Qed.

Lemma not_nan_filter items :
  Forall (fun x => F64.is_nan x = false) (filter (fun x => negb (F64.is_nan x)) items).
Proof.
  apply Forall_forall. intros x Hx. apply filter_In in Hx.
  destruct Hx as (_ & Hx). apply negb_true_iff in Hx. exact Hx.
Qed.

Lemma take_forall {A} (P : A -> Prop) (l : list A) (ix : list nat) :
  Forall P l -> Forall P (take l ix).
Proof.
  rewrite !Forall_forall. intros H x Hx. apply H. exact (take_in _ _ _ Hx).
Qed.

Lemma keys_sorted (asc : bool) (vals nans : list F64.float) :
  Forall (fun x => F64.is_nan x = false) vals ->
  Forall (fun x => F64.is_nan x = true) nans ->
  StronglySorted (fun x y => (if asc then F64.ltb y x else F64.ltb x y) = false) vals ->
  StronglySorted (key_order asc) (vals ++ nans).
Proof.
  intros HA HN Hs. rewrite Forall_forall in HA, HN.
  apply StronglySorted_app.
  - apply (StronglySorted_within
             (fun x y => (if asc then F64.ltb y x else F64.ltb x y) = false)); [|exact Hs].
    intros a b Ha Hb H. unfold key_order. rewrite (HA a Ha), (HA b Hb). exact H.
  - clear -HN. induction nans as [|a nans IH]; constructor.
    + apply IH. intros x Hx. apply HN. right. exact Hx.
    + apply Forall_forall. intros b Hb. unfold key_order.
      rewrite (HN b (or_intror Hb)). reflexivity.
  - intros a b _ Hb. unfold key_order. rewrite (HN b Hb). reflexivity.
Qed.

Lemma sort_values_key_order np asc df :
  conforms np -> StronglySorted (key_order asc) (map Net_PnL (sort_values np asc df)).
Proof.
  intros (_ & Hs & _). rewrite sort_values_keys. cbv zeta.
  set (nn := filter (fun x => negb (F64.is_nan x)) (map Net_PnL df)).
  assert (Hnn : Forall (fun x => F64.is_nan x = false) nn) by apply not_nan_filter.
  apply keys_sorted.
  - destruct asc.
    + apply take_forall. exact Hnn.
    + apply Forall_rev, take_forall, Forall_rev. exact Hnn.
  - apply filter_forall.
  - destruct asc.
    + exact (Hs nn Hnn).
    + apply (StronglySorted_rev (fun x y => F64.ltb y x = false)).
      apply Hs. apply Forall_rev. exact Hnn.
Qed.

(** The sorted frame is in order: Net PnL descends, or ascends, and the
    rows without a Net PnL come last. *)
Lemma sort_values_sorted np df :
  conforms np -> StronglySorted in_order (sort_values np false df).
Proof.
  intros H.
  exact (StronglySorted_of_map Net_PnL (key_order false) _ (sort_values_key_order np false df H)).
Qed.

Lemma sort_values_sorted_up np df :
  conforms np -> StronglySorted in_order_up (sort_values np true df).
Proof.
  intros H.
  exact (StronglySorted_of_map Net_PnL (key_order true) _ (sort_values_key_order np true df H)).
Qed.

Lemma filter_filter {A} (p : A -> bool) (l : list A) : filter p (filter p l) = filter p l.
Proof.
  induction l as [|x l IH]; [reflexivity|].
  cbn [filter]. destruct (p x) eqn:E; cbn [filter]; rewrite ?E, IH; reflexivity.
Qed.

(** The rows without a Net PnL keep the order of the frame. *)
Lemma sort_values_nan_rows np asc df :
  filter no_net_pnl (sort_values np asc df) = filter no_net_pnl df.
Proof.
  pose proof (sort_values_keys np asc df) as Hk. revert Hk.
  unfold sort_values, nargsort. cbv zeta.
  rewrite take_app, length_map, select_take.
  replace (select (map F64.is_nan (map Net_PnL df)) df) with (filter no_net_pnl df)
    by (rewrite map_map; symmetry; apply (select_filter no_net_pnl)).
  set (front := take df _).
  rewrite map_app. intros Hk.
  assert (Hf : map Net_PnL (filter no_net_pnl df) = filter F64.is_nan (map Net_PnL df)).
  { clear. induction df as [|r df IH]; [reflexivity|].
    cbn [map filter]. unfold no_net_pnl at 1.
    destruct (F64.is_nan (Net_PnL r)); cbn [map]; rewrite IH; reflexivity. }
  rewrite Hf in Hk. apply app_inv_tail in Hk.
  rewrite filter_app, filter_filter.
  replace (filter no_net_pnl front) with (@nil row); [reflexivity|].
  symmetry.
  assert (Hn : Forall (fun x => F64.is_nan x = false) (map Net_PnL front)).
  { rewrite Hk.
    set (nn := filter (fun x => negb (F64.is_nan x)) (map Net_PnL df)).
    assert (Hnn : Forall (fun x => F64.is_nan x = false) nn) by apply not_nan_filter.
    destruct asc.
    - apply take_forall. exact Hnn.
    - apply Forall_rev, take_forall, Forall_rev. exact Hnn. }
  clear -Hn. induction front as [|r front IH]; [reflexivity|].
  cbn [map] in Hn. inversion Hn as [|? ? Hr Hn']; subst.
  cbn [filter]. unfold no_net_pnl at 1. rewrite Hr. apply IH. exact Hn'.
Qed.

(** The sort reads the Net PnL column and nothing else. *)
Lemma sort_values_relabel np asc f df :
  sort_values np asc (map (relabel f) df) = map (relabel f) (sort_values np asc df).
Proof.
  unfold sort_values. rewrite map_map.
  replace (map (fun x => Net_PnL (relabel f x)) df) with (map Net_PnL df)
    by (apply map_ext; reflexivity).
  apply take_map.
Qed.

Lemma strictly_sorted_spec asc df :
  strictly_sorted asc df = true ->
  StronglySorted (fun a b => (if asc then precedes_up a b else precedes a b) = true) df.
Proof.
  induction df as [|r df IH]; [constructor|].
  cbn [strictly_sorted]. intros H. apply andb_true_iff in H. destruct H as (H1 & H2).
  constructor; [apply IH; exact H2|].
  apply Forall_forall. intros r' Hr'. rewrite forallb_forall in H1.
  specialize (H1 r' Hr'). destruct asc; exact H1.
Qed.

(** A frame whose rows can stand in one order only is sorted into that
    order by every build. *)
Lemma sort_values_known np asc df out :
  conforms np -> Permutation out df -> strictly_sorted asc out = true ->
  sort_values np asc df = out.
Proof.
  intros H P Hs. apply strictly_sorted_spec in Hs.
  assert (P' : Permutation (sort_values np asc df) out).
  { apply Permutation_trans with df; [apply sort_values_perm; exact H|].
    apply Permutation_sym. exact P. }
  destruct asc.
  - apply (sorted_unique in_order_up (fun a b => precedes_up a b = true));
      [|exact P' | apply sort_values_sorted_up; exact H | exact Hs].
    unfold in_order_up. intros a b Ha Hb. congruence.
  - apply (sorted_unique in_order (fun a b => precedes a b = true));
      [|exact P' | apply sort_values_sorted; exact H | exact Hs].
    unfold in_order. intros a b Ha Hb. congruence.
Qed.

Lemma sort_values_one np asc r : conforms np -> sort_values np asc [r] = [r].
Proof. intros H. apply sort_values_known; [exact H | reflexivity | reflexivity]. Qed.

(** ** The two builds *)

Lemma insert_index_perm before xs i sorted :
  Permutation (insert_index before xs i sorted) (i :: sorted).
Proof.
  induction sorted as [|j rest IH]; cbn [insert_index]; [reflexivity|].
  destruct (before (nth i xs F64.nan) (nth j xs F64.nan)); [reflexivity|].
  rewrite IH. apply perm_swap.
Qed.

Lemma insertion_argsort_perm before xs :
  Permutation (insertion_argsort before xs) (seq 0 (List.length xs)).
Proof.
  unfold insertion_argsort.
  assert (H : forall l acc,
             Permutation (fold_left (fun sorted i => insert_index before xs i sorted) l acc)
                         (l ++ acc)).
  { induction l as [|i l IH]; intros acc; [reflexivity|].
    cbn [fold_left]. rewrite IH, insert_index_perm. cbn.
    apply Permutation_sym, Permutation_middle. }
  rewrite H, app_nil_r. reflexivity.
Qed.

Lemma take_nth {A} (d : A) (l : list A) (ix : list nat) :
  Forall (fun i => (i < List.length l)%nat) ix ->
  take l ix = map (fun i => nth i l d) ix.
Proof.
  induction 1 as [|i ix Hi _ IH]; [reflexivity|].
  rewrite take_cons, IH. cbn [map].
  destruct (nth_error l i) as [x|] eqn:E.
  - rewrite (nth_error_nth _ _ d E). reflexivity.
  - apply nth_error_None in E. lia.
Qed.

Lemma insertion_argsort_sorted (before : F64.float -> F64.float -> bool) xs :
  (forall x y, F64.is_nan x = false -> F64.is_nan y = false ->
               before x y = true -> F64.ltb y x = false) ->
  (forall x y, F64.is_nan x = false -> F64.is_nan y = false ->
               before x y = false -> F64.ltb x y = false) ->
  Forall (fun x => F64.is_nan x = false) xs ->
  ascending (take xs (insertion_argsort before xs)).
Proof.
  intros Ha Hb Hxs.
  set (key := fun i => nth i xs F64.nan).
  set (R := fun i j => F64.ltb (key j) (key i) = false).
  set (ok := fun i => (i < List.length xs)%nat).
  assert (Hkey : forall i, ok i -> F64.is_nan (key i) = false).
  { intros i Hi. rewrite Forall_forall in Hxs. apply Hxs. apply nth_In. exact Hi. }
  assert (Hins : forall i sorted,
             ok i -> Forall ok sorted -> StronglySorted R sorted ->
             StronglySorted R (insert_index before xs i sorted)).
  { intros i sorted Hi Hok Hs. induction Hs as [|j rest Hs IH Hj]; cbn [insert_index].
    - repeat constructor.
    - inversion Hok as [|? ? Hj' Hok']; subst.
      fold (key i). fold (key j).
      destruct (before (key i) (key j)) eqn:E.
      + assert (Hij : R i j) by (apply Ha; auto).
        constructor; [constructor; assumption|].
        constructor; [exact Hij|].
        rewrite Forall_forall in *. intros k Hk.
        apply (not_ltb_trans (key i) (key j) (key k)); auto.
        apply Hj. exact Hk.
      + constructor; [apply IH; exact Hok'|].
        apply Forall_forall. intros k Hk.
        apply (Permutation_in _ (insert_index_perm before xs i rest)) in Hk.
        destruct Hk as [<-|Hk].
        * apply Hb; auto.
        * rewrite Forall_forall in Hj. apply Hj. exact Hk. }
  assert (Hfold : forall l acc,
             Forall ok l -> Forall ok acc -> StronglySorted R acc ->
             let out := fold_left (fun sorted i => insert_index before xs i sorted) l acc in
             Forall ok out /\ StronglySorted R out).
  { induction l as [|i l IH]; intros acc Hl Hacc Hs; cbn [fold_left]; [split; assumption|].
    inversion Hl as [|? ? Hi Hl']; subst.
    apply IH; [exact Hl' | | apply Hins; assumption].
    apply Forall_forall. intros k Hk.
    apply (Permutation_in _ (insert_index_perm before xs i acc)) in Hk.
    destruct Hk as [<-|Hk]; [exact Hi|].
    rewrite Forall_forall in Hacc. apply Hacc. exact Hk. }
  destruct (Hfold (seq 0 (List.length xs)) []) as (Hok & Hs).
  - apply Forall_forall. intros i Hi. apply in_seq in Hi. unfold ok. lia.
  - constructor.
  - constructor.
  - fold (insertion_argsort before xs) in Hok, Hs.
    unfold ascending. rewrite (take_nth F64.nan _ _ Hok).
    apply (StronglySorted_map key (fun x y => F64.ltb y x = false)). exact Hs.
Qed.

Lemma stable_build_conforms : conforms stable_build.
Proof.
  split; [|split].
  - intros xs. apply insertion_argsort_perm.
  - intros xs Hxs. apply insertion_argsort_sorted; [| |exact Hxs].
    + intros x y Hx Hy H. apply ltb_asym; assumption.
    + intros x y _ _ H. exact H.
  - reflexivity.
Qed.

Lemma mirror_build_conforms : conforms mirror_build.
Proof.
  split; [|split].
  - intros xs. apply insertion_argsort_perm.
  - intros xs Hxs. apply insertion_argsort_sorted; [| |exact Hxs].
    + intros x y Hx Hy H. rewrite (leb_ltb _ _ Hx Hy) in H.
      apply negb_true_iff in H. exact H.
    + intros x y Hx Hy H. rewrite (leb_ltb _ _ Hx Hy) in H.
      apply negb_false_iff in H. apply ltb_asym; assumption.
  - reflexivity.
Qed.

(** ** The pairwise sum *)

(** The length of a run is fuel enough: more fuel gives the same sum. *)
Lemma pairwise_sum_fuel f f' a :
  (List.length a <= f)%nat -> (List.length a <= f')%nat ->
  pairwise_sum f a = pairwise_sum f' a.
Proof.
  revert f' a. induction f as [|f IH]; intros f' a Hf Hf'.
  - destruct a; [|cbn in Hf; lia]. destruct f'; reflexivity.
  - destruct f' as [|f'].
    + destruct a; [|cbn in Hf'; lia]. reflexivity.
    + cbn [pairwise_sum].
      destruct (List.length a <? 8)%nat eqn:E8; [reflexivity|].
      destruct (List.length a <=? 128)%nat eqn:E128; [reflexivity|].
      apply Nat.leb_gt in E128.
      set (n := List.length a) in *.
      assert (Hn2 : (1 <= n / 2 - (n / 2) mod 8 < n)%nat).
      { pose proof (Nat.mod_upper_bound (n / 2) 8 ltac:(lia)).
        pose proof (Nat.div_mod_eq n 2).
        pose proof (Nat.mod_upper_bound n 2 ltac:(lia)). lia. }
      f_equal; apply IH; rewrite ?length_firstn, ?length_skipn; fold n; lia.
Qed.

(** On a column of fewer than eight rows the sum runs from the top of the
    column down. *)
Lemma series_sum_short np x xs :
  (List.length (x :: xs) < 8)%nat ->
  Common.series_sum np (x :: xs) =
  F64.add (add_initial np)
          (fold_left F64.add
                     (map (fun x => if F64.is_nan x then F64.zero else x) (x :: xs))
                     F64.neg_zero).
Proof.
  intros H. unfold Common.series_sum. cbv zeta. cbn [map]. f_equal.
  set (values := _ :: map _ xs).
  assert (Hl : (List.length values <? 8)%nat = true).
  { apply Nat.ltb_lt. unfold values. cbn [List.length] in *. rewrite length_map. exact H. }
  destruct (List.length values) as [|f] eqn:E; [discriminate E|].
  cbn [pairwise_sum]. rewrite E, Hl. reflexivity.
Qed.

(** ** Rows *)

Lemma report_total_snoc rows total : report_total (rows ++ [total]) = Some total.
Proof. unfold report_total. rewrite rev_unit. reflexivity. Qed.

Lemma report_rows_snoc rows total : report_rows (rows ++ [total]) = rows.
Proof. apply removelast_last. Qed.

(** The shape of a report on a non-empty input. *)
Lemma main_report np t ts tk :
  let rows := Common.make_rows (Main.get_price tk) (Common.accumulate (t :: ts)) in
  Main.calculate_token_pnl np (t :: ts) tk = rows ++ [Main.total_row np rows].
Proof.
  intros rows. unfold Main.calculate_token_pnl. fold rows.
  destruct rows as [|r rows'] eqn:E; [|reflexivity].
  exfalso. apply (accumulate_nonempty t ts).
  unfold rows, Common.make_rows in E. apply map_eq_nil in E. exact E.
Qed.

Lemma main2_report np t ts tk :
  let rows := sort_values np false
                (Common.make_rows (Main2.bnb_rate tk) (Common.accumulate (t :: ts))) in
  Main2.calculate_token_pnl np (t :: ts) tk = rows ++ [Main2.total_row np rows].
Proof.
  intros rows. unfold Main2.calculate_token_pnl.
  destruct (Common.make_rows (Main2.bnb_rate tk) (Common.accumulate (t :: ts)))
    as [|r rows'] eqn:E; [|reflexivity].
  exfalso. apply (accumulate_nonempty t ts).
  unfold Common.make_rows in E. apply map_eq_nil in E. exact E.
Qed.

(** The report of [main2.py] on an input whose rows can stand in one order
    only. *)
Lemma main2_report_known np t ts tk out :
  conforms np ->
  Permutation out (Common.make_rows (Main2.bnb_rate tk) (Common.accumulate (t :: ts))) ->
  strictly_sorted false out = true ->
  Main2.calculate_token_pnl np (t :: ts) tk = out ++ [Main2.total_row np out].
Proof.
  intros H P Hs. rewrite main2_report. cbv zeta.
  rewrite (sort_values_known np false _ out H P Hs). reflexivity.
Qed.

(** The zero that a conforming build starts its sums from. *)
Lemma conforms_zero np :
  conforms np -> add_initial np = F64.zero \/ add_initial np = F64.neg_zero.
Proof.
  intros (_ & _ & H). destruct (add_initial np) as [[]| | |]; try discriminate; auto.
Qed.

(** ** The trade counts of a report *)

(** C4. For every trade sequence and both versions of the program, the
    trade counts of the per-symbol rows add up to the number of input
    trades, and the last row of a report, its TOTAL row, carries that same
    number; a report without a last row comes from an empty input.  (For
    [main2.py], whatever order the build of NumPy sorts the rows into.) *)
Theorem trade_count_conservation (np : numpy) (ts : list trade) (tk : ticker) :
  (Common.int_sum (map Trades (report_rows (Main.calculate_token_pnl np ts tk)))
   = Z.of_nat (List.length ts) /\
   match report_total (Main.calculate_token_pnl np ts tk) with
   | Some total => Trades total = Z.of_nat (List.length ts)
   | None => ts = []
   end) /\
  (conforms np ->
   Common.int_sum (map Trades (report_rows (Main2.calculate_token_pnl np ts tk)))
   = Z.of_nat (List.length ts) /\
   match report_total (Main2.calculate_token_pnl np ts tk) with
   | Some total => Trades total = Z.of_nat (List.length ts)
   | None => ts = []
   end).
Proof.
  destruct ts as [|t ts].
  - repeat split; reflexivity.
  - split.
    + rewrite main_report, report_rows_snoc, report_total_snoc.
      cbn [Main.total_row Trades].
      rewrite make_rows_trades. fold (held (Common.accumulate (t :: ts))).
      rewrite held_accumulate. split; reflexivity.
    + intros H. rewrite main2_report, report_rows_snoc, report_total_snoc.
      cbn [Main2.total_row Trades].
      rewrite (int_sum_perm _ _ (Permutation_map Trades (sort_values_perm np false _ H))).
      rewrite make_rows_trades. fold (held (Common.accumulate (t :: ts))).
      rewrite held_accumulate. split; reflexivity.
Qed.

Lemma trade_count_conservation_witness :
  conforms mirror_build /\
  Common.int_sum
    (map Trades (report_rows (Main2.calculate_token_pnl mirror_build scenario ClientError)))
  = Z.of_nat (List.length scenario) /\
  match report_total (Main2.calculate_token_pnl mirror_build scenario ClientError) with
  | Some total => Trades total = Z.of_nat (List.length scenario)
  | None => scenario = []
  end.
Proof.
  split; [exact mirror_build_conforms|].
  exact (proj2 (trade_count_conservation mirror_build scenario ClientError)
               mirror_build_conforms).
Defined.

(** ** The TOTAL row *)

(** C1, as the code has it.  On a non-empty input the last row is labelled
    TOTAL and is computed from the rounded values of the per-symbol rows, not
    from the unrounded accumulators: in [main.py] every amount is the column
    sum of the rows above, as pandas and NumPy add a column up (NaN taken as
    0.0, pairwise from eight rows on); in [main2.py] it is that column sum
    rounded once more, as NumPy rounds (to 2 places, BNB Fees to 5); Trades
    is the integer column sum in both. *)
Theorem total_row_from_rounded_rows
    (np : numpy) (t : trade) (ts : list trade) (tk : ticker) :
  (exists total,
     let rows := report_rows (Main.calculate_token_pnl np (t :: ts) tk) in
     report_total (Main.calculate_token_pnl np (t :: ts) tk) = Some total /\
     Token total = TOTAL /\
     Realized_PnL total = Common.series_sum np (map Realized_PnL rows) /\
     BNB_Fees total = Common.series_sum np (map BNB_Fees rows) /\
     BNB_Fees_USDC total = Common.series_sum np (map BNB_Fees_USDC rows) /\
     Direct_USDC_Fees total = Common.series_sum np (map Direct_USDC_Fees rows) /\
     Total_Fees_USDC total = Common.series_sum np (map Total_Fees_USDC rows) /\
     Net_PnL total = Common.series_sum np (map Net_PnL rows) /\
     Trades total = Common.int_sum (map Trades rows)) /\
  (exists total,
     let rows := report_rows (Main2.calculate_token_pnl np (t :: ts) tk) in
     report_total (Main2.calculate_token_pnl np (t :: ts) tk) = Some total /\
     Token total = TOTAL /\
     Realized_PnL total = F64.np_round (Common.series_sum np (map Realized_PnL rows)) 2 /\
     BNB_Fees total = F64.np_round (Common.series_sum np (map BNB_Fees rows)) 5 /\
     BNB_Fees_USDC total
       = F64.np_round (Common.series_sum np (map BNB_Fees_USDC rows)) 2 /\
     Direct_USDC_Fees total
       = F64.np_round (Common.series_sum np (map Direct_USDC_Fees rows)) 2 /\
     Total_Fees_USDC total
       = F64.np_round (Common.series_sum np (map Total_Fees_USDC rows)) 2 /\
     Net_PnL total = F64.np_round (Common.series_sum np (map Net_PnL rows)) 2 /\
     Trades total = Common.int_sum (map Trades rows)).
Proof.
  split.
  - rewrite main_report, report_rows_snoc, report_total_snoc.
    eexists. split; [reflexivity|]. repeat split.
  - rewrite main2_report, report_rows_snoc, report_total_snoc.
    eexists. split; [reflexivity|]. repeat split.
Qed.

(** The column sum is NumPy's: eight rows of 0.1 add up to 0.8, where adding
    from the top of the column down gives 0.7999999999999999. *)
Lemma eight_tenths_total (np : numpy) :
  conforms np ->
  map Net_PnL (report_rows (Main.calculate_token_pnl np eight_tenths ClientError))
  = repeat (F64.of_decimal false 1 (-1)) 8 /\
  option_map Net_PnL (report_total (Main.calculate_token_pnl np eight_tenths ClientError))
  = Some (F64.of_decimal false 8 (-1)) /\
  fold_left F64.add (repeat (F64.of_decimal false 1 (-1)) 8) F64.zero
  = S754_finite false 7205759403792793 (-53).
Proof.
  intros H. destruct (conforms_zero np H) as [Hz|Hz].
  - change eight_tenths with (hd (mkTrade PyNone F64.zero F64.zero PyNone) eight_tenths
                              :: tl eight_tenths).
    rewrite main_report, report_rows_snoc, report_total_snoc.
    cbn [option_map Main.total_row Net_PnL]. unfold Common.series_sum. rewrite Hz.
    vm_compute. repeat split; reflexivity.
  - change eight_tenths with (hd (mkTrade PyNone F64.zero F64.zero PyNone) eight_tenths
                              :: tl eight_tenths).
    rewrite main_report, report_rows_snoc, report_total_snoc.
    cbn [option_map Main.total_row Net_PnL]. unfold Common.series_sum. rewrite Hz.
    vm_compute. repeat split; reflexivity.
Qed.

(** C1 fails as stated: in [main2.py] the TOTAL net result of the rows 0.2
    and 0.1 is 0.3, while the sum of the two row values is
    0.30000000000000004; [main.py], on the same rows, reports the latter.
    This is so for every build of NumPy. *)
Lemma total_net_pnl_is_not_the_row_sum :
  conforms stable_build /\
  forall np, conforms np ->
    let out := Main2.calculate_token_pnl np tenth_and_fifth (Price (F64.of_Z 600)) in
    let out1 := Main.calculate_token_pnl np tenth_and_fifth (Price (F64.of_Z 600)) in
    map Net_PnL (report_rows out)
      = [F64.of_decimal false 2 (-1); F64.of_decimal false 1 (-1)] /\
    option_map Net_PnL (report_total out) = Some (F64.of_decimal false 3 (-1)) /\
    Common.series_sum np (map Net_PnL (report_rows out))
      = S754_finite false 5404319552844596 (-54) /\
    option_map Net_PnL (report_total out)
      <> Some (Common.series_sum np (map Net_PnL (report_rows out))) /\
    option_map Net_PnL (report_total out1) <> option_map Net_PnL (report_total out).
Proof.
  split; [exact stable_build_conforms|].
  intros np H. cbv zeta.
  unfold tenth_and_fifth.
  rewrite (main2_report_known np _ _ _
             (rev (Common.make_rows (Main2.bnb_rate (Price (F64.of_Z 600)))
                     (Common.accumulate tenth_and_fifth))) H);
    [|vm_compute; apply perm_swap | vm_compute; reflexivity].
  rewrite main_report, !report_rows_snoc, !report_total_snoc.
  cbn [option_map Main.total_row Main2.total_row Net_PnL].
  unfold Common.series_sum.
  destruct (conforms_zero np H) as [Hz|Hz]; rewrite Hz;
    vm_compute; repeat split; try reflexivity; discriminate.
Qed.

(** ** Where the TOTAL row is *)

Lemma report_row_tokens_main np t ts tk r :
  In r (report_rows (Main.calculate_token_pnl np (t :: ts) tk)) ->
  exists t', In t' (t :: ts) /\ symbol t' = Token r.
Proof.
  rewrite main_report, report_rows_snoc. intros Hr.
  apply accumulate_keys. rewrite <- (make_rows_tokens (Main.get_price tk)).
  apply in_map. exact Hr.
Qed.

Lemma report_row_tokens_main2 np t ts tk r :
  conforms np ->
  In r (report_rows (Main2.calculate_token_pnl np (t :: ts) tk)) ->
  exists t', In t' (t :: ts) /\ symbol t' = Token r.
Proof.
  intros H. rewrite main2_report, report_rows_snoc. intros Hr.
  apply accumulate_keys. rewrite <- (make_rows_tokens (Main2.bnb_rate tk)).
  apply in_map. apply (Permutation_in _ (sort_values_perm np false _ H)). exact Hr.
Qed.

Lemma count_total_snoc rows total :
  Token total = TOTAL ->
  (forall r, In r rows -> Token r <> TOTAL) ->
  count_total (rows ++ [total]) = 1%nat.
Proof.
  intros Ht Hr. unfold count_total. rewrite filter_app, length_app.
  cbn [filter]. rewrite Ht. cbn [py_eqb TOTAL]. rewrite String.eqb_refl.
  replace (filter (fun r => py_eqb (Token r) TOTAL) rows) with (@nil row);
    [reflexivity|].
  symmetry. induction rows as [|r rows IH]; [reflexivity|].
  cbn [filter]. destruct (py_eqb (Token r) TOTAL) eqn:E.
  - apply py_eqb_str in E. exfalso. apply (Hr r); [left; reflexivity | exact E].
  - apply IH. intros r' Hr'. apply Hr. right. exact Hr'.
Qed.

(** C9, as the code has it.  When no trade carries the symbol ["TOTAL"]
    itself: the report has a row labelled TOTAL exactly when the input is
    not empty; an empty input gives an empty report; and on a non-empty input
    there is exactly one such row and it is the last one.  Both versions,
    and for [main2.py] every build of NumPy. *)
Theorem total_row_presence (np : numpy) (ts : list trade) (tk : ticker) :
  (forall t, In t ts -> symbol t <> TOTAL) ->
  (conforms np ->
   let out := Main2.calculate_token_pnl np ts tk in
   ((exists r, In r out /\ Token r = TOTAL) <-> ts <> []) /\
   (ts = [] -> out = []) /\
   (ts <> [] ->
    count_total out = 1%nat /\ option_map Token (report_total out) = Some TOTAL)) /\
  (let out := Main.calculate_token_pnl np ts tk in
   ((exists r, In r out /\ Token r = TOTAL) <-> ts <> []) /\
   (ts = [] -> out = []) /\
   (ts <> [] ->
    count_total out = 1%nat /\ option_map Token (report_total out) = Some TOTAL)).
Proof.
  intros Hsym. destruct ts as [|t ts].
  - split; [intros _|]; cbv zeta; cbn; (split; [|split]).
    1, 4: split; [intros (r & [] & _) | congruence].
    1, 3: reflexivity.
    all: congruence.
  - split; [intros H|]; cbv zeta.
    + assert (Hrows : forall r,
                In r (report_rows (Main2.calculate_token_pnl np (t :: ts) tk)) ->
                Token r <> TOTAL).
      { intros r Hr E.
        destruct (report_row_tokens_main2 _ _ _ _ _ H Hr) as (t' & Ht' & Es).
        apply (Hsym t' Ht'). congruence. }
      revert Hrows. rewrite main2_report, report_rows_snoc. intros Hrows.
      split; [|split].
      * split; [discriminate|]. intros _. eexists. split.
        -- apply in_or_app. right. left. reflexivity.
        -- reflexivity.
      * discriminate.
      * intros _. rewrite report_total_snoc. split; [|reflexivity].
        apply count_total_snoc; [reflexivity | exact Hrows].
    + assert (Hrows : forall r,
                In r (report_rows (Main.calculate_token_pnl np (t :: ts) tk)) ->
                Token r <> TOTAL).
      { intros r Hr E. destruct (report_row_tokens_main _ _ _ _ _ Hr) as (t' & Ht' & Es).
        apply (Hsym t' Ht'). congruence. }
      revert Hrows. rewrite main_report, report_rows_snoc. intros Hrows.
      split; [|split].
      * split; [discriminate|]. intros _. eexists. split.
        -- apply in_or_app. right. left. reflexivity.
        -- reflexivity.
      * discriminate.
      * intros _. rewrite report_total_snoc. split; [|reflexivity].
        apply count_total_snoc; [reflexivity | exact Hrows].
Qed.

Lemma total_row_presence_witness :
  (forall t, In t scenario -> symbol t <> TOTAL) /\
  conforms stable_build /\
  count_total (Main2.calculate_token_pnl stable_build scenario (Price (F64.of_Z 600)))
  = 1%nat /\
  count_total (Main.calculate_token_pnl stable_build scenario (Price (F64.of_Z 600)))
  = 1%nat.
Proof.
  assert (H : forall t, In t scenario -> symbol t <> TOTAL).
  { intros t [<-|[<-|[<-|[]]]]; discriminate. }
  split; [exact H|]. split; [exact stable_build_conforms|].
  destruct (total_row_presence stable_build scenario (Price (F64.of_Z 600)) H)
    as (H2 & (_ & _ & H1)).
  destruct (H2 stable_build_conforms) as (_ & _ & H2').
  split.
  - apply H2'. discriminate.
  - apply H1. discriminate.
Defined.

(** C9 fails as stated: a trade whose symbol is ["TOTAL"] gives a report
    with two rows of that label, in either version and with every build. *)
Lemma two_rows_labelled_total :
  conforms stable_build /\
  forall np, conforms np ->
    count_total (Main2.calculate_token_pnl np trade_named_total (Price (F64.of_Z 600)))
    = 2%nat /\
    count_total (Main.calculate_token_pnl np trade_named_total (Price (F64.of_Z 600)))
    = 2%nat.
Proof.
  split; [exact stable_build_conforms|].
  intros np H. unfold trade_named_total.
  rewrite (main2_report_known np _ _ _
             (Common.make_rows (Main2.bnb_rate (Price (F64.of_Z 600)))
                (Common.accumulate trade_named_total)) H);
    [|reflexivity | vm_compute; reflexivity].
  rewrite main_report. split; reflexivity.
Qed.

(** ** The descending sort of [main2.py] *)

(** Whatever order a sort gives to two rows of equal Net PnL, it gives the
    same order to the two rows under exchanged labels; one of the two frames
    is then not in the order of the specification. *)
Lemma tie_frames np :
  conforms np ->
  sorted_as_specified (sort_values np false tie_frame) = false \/
  sorted_as_specified (sort_values np false tie_frame_rev) = false.
Proof.
  intros H.
  assert (E : tie_frame_rev = map (relabel exchange) tie_frame) by (vm_compute; reflexivity).
  rewrite E, sort_values_relabel.
  pose proof (sort_values_perm np false tie_frame H) as P.
  remember (sort_values np false tie_frame) as out eqn:Eo. clear Eo.
  change tie_frame with
    [ mkRow (PyStr "BUSDC") (F64.of_Z 1) F64.zero F64.zero F64.zero F64.zero (F64.of_Z 1) 1;
      mkRow (PyStr "AUSDC") (F64.of_Z 1) F64.zero F64.zero F64.zero F64.zero (F64.of_Z 1) 1 ]
    in P.
  apply Permutation_sym, Permutation_length_2_inv in P.
  destruct P as [-> | ->].
  - left. vm_compute. reflexivity.
  - right. vm_compute. reflexivity.
Qed.

(** C7, as the code has it.  In [main2.py] the per-symbol rows are the rows
    built from the dictionary, rearranged so that Net PnL descends and the
    rows without a Net PnL (NaN) come last, these in the order in which they
    were built.  The order of rows of equal Net PnL is the one NumPy's sort
    leaves them in, which the program does not fix; the sort reads the Net
    PnL column only, so the same rows under other labels come out in the
    same order, and no order of the symbols is kept.  [main.py] returns the
    rows in the order of the dictionary, that of the first appearance of the
    symbols. *)
Theorem rows_sorted_by_net_pnl
    (np : numpy) (t : trade) (ts : list trade) (tk : ticker) :
  (conforms np ->
   let built := Common.make_rows (Main2.bnb_rate tk) (Common.accumulate (t :: ts)) in
   let rows := report_rows (Main2.calculate_token_pnl np (t :: ts) tk) in
   map Token built = first_seen (t :: ts) /\
   Permutation rows built /\
   StronglySorted in_order rows /\
   filter no_net_pnl rows = filter no_net_pnl built /\
   forall f, sort_values np false (map (relabel f) built) = map (relabel f) rows) /\
  map Token (report_rows (Main.calculate_token_pnl np (t :: ts) tk)) = first_seen (t :: ts).
Proof.
  split.
  - intros H. cbv zeta. rewrite main2_report, report_rows_snoc.
    rewrite make_rows_tokens, accumulate_key_order.
    split; [reflexivity|]. split; [apply sort_values_perm; exact H|].
    split; [apply sort_values_sorted; exact H|].
    split; [apply sort_values_nan_rows|].
    intros f. apply sort_values_relabel.
  - rewrite main_report, report_rows_snoc, make_rows_tokens.
    apply accumulate_key_order.
Qed.

Lemma rows_sorted_by_net_pnl_witness :
  conforms mirror_build /\
  let built := Common.make_rows (Main2.bnb_rate ClientError) (Common.accumulate scenario) in
  let rows := report_rows (Main2.calculate_token_pnl mirror_build scenario ClientError) in
  map Token built = first_seen scenario /\
  Permutation rows built /\
  StronglySorted in_order rows /\
  filter no_net_pnl rows = filter no_net_pnl built /\
  forall f, sort_values mirror_build false (map (relabel f) built) = map (relabel f) rows.
Proof.
  split; [exact mirror_build_conforms|].
  exact (proj1 (rows_sorted_by_net_pnl mirror_build _ _ ClientError) mirror_build_conforms).
Defined.

(** C7 fails as stated.  Of two symbols with the same Net PnL, a build with
    a stable sort lists BUSDC, seen first, above AUSDC, and another build
    lists them the other way round; and with every build one of the two
    inputs, BUSDC first or AUSDC first, gives rows that are not in the order
    of the specification.  [main.py] lists a Net PnL of 1 above one of 2. *)
Lemma rows_not_sorted_as_specified :
  (conforms stable_build /\ conforms mirror_build /\
   map Token (report_rows
                (Main2.calculate_token_pnl stable_build equal_results (Price (F64.of_Z 600))))
   = [PyStr "BUSDC"; PyStr "AUSDC"] /\
   map Token (report_rows
                (Main2.calculate_token_pnl mirror_build equal_results (Price (F64.of_Z 600))))
   = [PyStr "AUSDC"; PyStr "BUSDC"] /\
   map Net_PnL (report_rows
                  (Main2.calculate_token_pnl stable_build equal_results
                                             (Price (F64.of_Z 600))))
   = [F64.of_Z 1; F64.of_Z 1]) /\
  (forall np, conforms np ->
     sorted_as_specified
       (report_rows (Main2.calculate_token_pnl np equal_results (Price (F64.of_Z 600))))
     = false \/
     sorted_as_specified
       (report_rows (Main2.calculate_token_pnl np (rev equal_results)
                                               (Price (F64.of_Z 600))))
     = false) /\
  (forall np,
     map Net_PnL
       (report_rows (Main.calculate_token_pnl np rising_results (Price (F64.of_Z 600))))
     = [F64.of_Z 1; F64.of_Z 2] /\
     sorted_as_specified
       (report_rows (Main.calculate_token_pnl np rising_results (Price (F64.of_Z 600))))
     = false).
Proof.
  split; [|split].
  - split; [exact stable_build_conforms|]. split; [exact mirror_build_conforms|].
    vm_compute. repeat split; reflexivity.
  - intros np H.
    assert (E1 : report_rows (Main2.calculate_token_pnl np equal_results
                                                       (Price (F64.of_Z 600)))
                 = sort_values np false tie_frame).
    { unfold equal_results. rewrite main2_report, report_rows_snoc.
      f_equal. }
    assert (E2 : report_rows (Main2.calculate_token_pnl np (rev equal_results)
                                                       (Price (F64.of_Z 600)))
                 = sort_values np false tie_frame_rev).
    { unfold equal_results. cbn [rev app]. rewrite main2_report, report_rows_snoc.
      f_equal. }
    rewrite E1, E2. exact (tie_frames np H).
  - intros np. unfold rising_results.
    rewrite main_report, report_rows_snoc. vm_compute. split; reflexivity.
Qed.
(** ** Rounding *)

Lemma div_half_even_nearest n d :
  0 <= n -> 0 < d -> nearest_ties_even n d (F64.div_half_even n d).
Proof.
  intros Hn Hd. unfold nearest_ties_even, F64.div_half_even.
  pose proof (Z.div_mod n d ltac:(lia)) as Hdiv.
  pose proof (Z.mod_pos_bound n d Hd) as Hr.
  set (q := n / d) in *. set (r := n mod d) in *.
  assert (Hqd : q * d = n - r) by lia.
  destruct (Z.compare_spec (2 * r) d) as [He|Hl|Hg].
  - destruct (Z.even q) eqn:Ev.
    + split; [lia | intros _; exact Ev].
    + split; [lia|]. intros _.
      replace (q + 1) with (Z.succ q) by lia.
      rewrite Z.even_succ, <- Z.negb_even, Ev. reflexivity.
  - split; lia.
  - split; lia.
Qed.

(** The integer nearest to a fraction, even in a tie, is unique. *)
Lemma nearest_ties_even_unique n d q q' :
  0 < d -> nearest_ties_even n d q -> nearest_ties_even n d q' -> q = q'.
Proof.
  intros Hd (H1 & E1) (H2 & E2).
  assert (Hc : q' = q \/ q' = q + 1 \/ q = q' + 1) by nia.
  destruct Hc as [->|[->| ->]]; [reflexivity| |].
  - assert (T1 : Z.abs (2 * n - 2 * q * d) = d) by nia.
    assert (T2 : Z.abs (2 * n - 2 * (q + 1) * d) = d) by nia.
    specialize (E1 T1). specialize (E2 T2).
    replace (q + 1) with (Z.succ q) in E2 by lia.
    rewrite Z.even_succ, <- Z.negb_even, E1 in E2. discriminate.
  - assert (T1 : Z.abs (2 * n - 2 * (q' + 1) * d) = d) by nia.
    assert (T2 : Z.abs (2 * n - 2 * q' * d) = d) by nia.
    specialize (E1 T1). specialize (E2 T2).
    replace (q' + 1) with (Z.succ q') in E1 by lia.
    rewrite Z.even_succ, <- Z.negb_even, E2 in E1. discriminate.
Qed.

(** The built-in [round] rounds half to even. *)
Lemma py_round_spec x nd : rounds_half_even x nd (F64.py_round x nd).
Proof.
  destruct x as [s|s| |s m e]; try reflexivity.
  unfold rounds_half_even, F64.py_round.
  exists (F64.scaled_half_even m e nd). split; [|reflexivity].
  unfold scaled_fraction, F64.scaled_half_even.
  destruct e as [|p|p]; cbn [fst snd].
  - unfold nearest_ties_even. split; lia.
  - unfold nearest_ties_even. split; lia.
  - apply div_half_even_nearest; lia.
Qed.

Lemma make_row_rounded rate d kv :
  In kv d -> row_rounded rate d (Common.make_row rate kv).
Proof.
  destruct kv as [k v]. intros Hin. exists v. cbn.
  split; [exact Hin|]. repeat split; apply py_round_spec.
Qed.

Lemma make_rows_rounded rate d : Forall (row_rounded rate d) (Common.make_rows rate d).
Proof.
  apply Forall_forall. intros r Hr. unfold Common.make_rows in Hr.
  apply in_map_iff in Hr. destruct Hr as (kv & <- & Hin).
  apply make_row_rounded. exact Hin.
Qed.

(** C6, as the code has it.  Every per-symbol row of either version holds,
    for an entry of the dictionary under its symbol, the three sums and the
    three derived amounts rounded by the built-in [round]: to 2 decimal
    places, the BNB fee quantity to 5, to the nearest decimal and to the even
    one in a tie.  The TOTAL row of [main2.py] holds the column sums rounded
    to the same numbers of places by NumPy: scaled by a power of ten,
    brought to the nearest integer, the even one in a tie, and scaled
    back. *)
Theorem amounts_rounded_half_even
    (np : numpy) (t : trade) (ts : list trade) (tk : ticker) :
  Forall (row_rounded (Main.get_price tk) (Common.accumulate (t :: ts)))
         (report_rows (Main.calculate_token_pnl np (t :: ts) tk)) /\
  (conforms np ->
   Forall (row_rounded (Main2.bnb_rate tk) (Common.accumulate (t :: ts)))
          (report_rows (Main2.calculate_token_pnl np (t :: ts) tk))) /\
  (exists total,
     report_total (Main2.calculate_token_pnl np (t :: ts) tk) = Some total /\
     total_rounded np (report_rows (Main2.calculate_token_pnl np (t :: ts) tk)) total).
Proof.
  rewrite main_report, main2_report, !report_rows_snoc, report_total_snoc.
  split; [|split].
  - apply make_rows_rounded.
  - intros H. apply Forall_forall. intros r Hr.
    apply (Permutation_in _ (sort_values_perm np false _ H)) in Hr.
    revert r Hr. apply Forall_forall. apply make_rows_rounded.
  - eexists. split; [reflexivity|].
    unfold total_rounded. cbn. repeat split.
Qed.

Lemma amounts_rounded_half_even_witness :
  conforms stable_build /\
  Forall (row_rounded (Main2.bnb_rate ClientError) (Common.accumulate scenario))
         (report_rows (Main2.calculate_token_pnl stable_build scenario ClientError)).
Proof.
  split; [exact stable_build_conforms|].
  exact (proj1 (proj2 (amounts_rounded_half_even stable_build _ _ ClientError))
               stable_build_conforms).
Defined.

(** C6 fails as stated: a realized result of 0.125 is reported as 0.12,
    where rounding half away from zero gives 0.13; and the TOTAL row of
    [main.py] reports a Net PnL of 0.30000000000000004, which either rounding
    to 2 places would change.  This is so for every build of NumPy. *)
Lemma round_is_not_half_away :
  (map realized_pnl (map snd (Common.accumulate one_eighth))
   = [F64.of_decimal false 125 (-3)] /\
   F64.round_half_away (F64.of_decimal false 125 (-3)) 2 = F64.of_decimal false 13 (-2) /\
   F64.of_decimal false 12 (-2) <> F64.of_decimal false 13 (-2) /\
   F64.py_round (S754_finite false 5404319552844596 (-54)) 2
   <> S754_finite false 5404319552844596 (-54) /\
   F64.round_half_away (S754_finite false 5404319552844596 (-54)) 2
   <> S754_finite false 5404319552844596 (-54)) /\
  forall np, conforms np ->
    map Realized_PnL
      (report_rows (Main2.calculate_token_pnl np one_eighth (Price (F64.of_Z 600))))
    = [F64.of_decimal false 12 (-2)] /\
    map Realized_PnL
      (report_rows (Main.calculate_token_pnl np one_eighth (Price (F64.of_Z 600))))
    = [F64.of_decimal false 12 (-2)] /\
    option_map Net_PnL
      (report_total (Main.calculate_token_pnl np tenth_and_fifth (Price (F64.of_Z 600))))
    = Some (S754_finite false 5404319552844596 (-54)).
Proof.
  split.
  - vm_compute. repeat split; try reflexivity; discriminate.
  - intros np H. unfold one_eighth, tenth_and_fifth.
    rewrite (main2_report_known np _ _ _
               (Common.make_rows (Main2.bnb_rate (Price (F64.of_Z 600)))
                  (Common.accumulate one_eighth)) H);
      [|reflexivity | vm_compute; reflexivity].
    rewrite !main_report, !report_rows_snoc, report_total_snoc.
    cbn [option_map Main.total_row Net_PnL]. unfold Common.series_sum.
    destruct (conforms_zero np H) as [Hz|Hz]; rewrite Hz;
      vm_compute; repeat split; reflexivity.
Qed.

(** ** The numeric normalizer *)

Lemma fillna0_not_nan x : F64.is_nan (fillna0 x) = false.
Proof. unfold fillna0. destruct x; reflexivity. Qed.

Lemma or_zero_not_nan x : F64.is_nan x = false -> F64.is_nan (F64.or_zero x) = false.
Proof. destruct x; simpl; congruence. Qed.

(** The normalizer of [main2.py] never returns NaN. *)
Lemma normalize_not_nan c : F64.is_nan (Main2.normalize c) = false.
Proof.
  unfold Main2.normalize. destruct (text_of c).
  - apply fillna0_not_nan.
  - destruct c; try reflexivity. apply fillna0_not_nan.
Qed.

(** C5.  The normalizer of [main2.py] is a function of every cell, returns
    a number for each, and gives the five values of the specification.  The
    normalizer of [main.py] does not: a cell with a thousands separator, a
    cell that is no numeral and [None] all come out as NaN, and the
    [... or 0] of the row loop does not replace a NaN. *)
Theorem normalizer_on_sample_cells :
  (Main2.normalize (PyStr "'0.5") = F64.of_decimal false 5 (-1) /\
   Main2.normalize (PyStr "") = F64.zero /\
   Main2.normalize (PyStr "1,234.5") = F64.of_decimal false 12345 (-1) /\
   Main2.normalize (PyStr "abc") = F64.zero /\
   Main2.normalize PyNone = F64.zero /\
   forall c, F64.is_nan (Main2.normalize c) = false) /\
  (Main.normalize (PyStr "'0.5") = F64.of_decimal false 5 (-1) /\
   Main.normalize (PyStr "") = F64.zero /\
   F64.or_zero (Main.normalize (PyStr "1,234.5")) = F64.nan /\
   F64.or_zero (Main.normalize (PyStr "abc")) = F64.nan /\
   F64.or_zero (Main.normalize PyNone) = F64.nan).
Proof.
  split.
  - repeat split; try (vm_compute; reflexivity). apply normalize_not_nan.
  - vm_compute. repeat split; reflexivity.
Qed.

(** ** The trades read from the file *)

Lemma start_converted d :
  match utcoffset d with
  | Some _ => to_naive_utc d
  | None => Some d
  end = to_naive_utc d.
Proof. unfold to_naive_utc. destruct (utcoffset d); reflexivity. Qed.

Lemma yielded_refl r : yielded r r.
Proof. unfold yielded. repeat split; try reflexivity. left. reflexivity. Qed.

Lemma box_symbols_yielded i rows : Forall2 yielded rows (box_symbols i rows).
Proof.
  revert i. induction rows as [|r rows IH]; intros i; cbn [box_symbols]; constructor.
  - destruct (is_nan_cell (Symbol r)) eqn:E; [|apply yielded_refl].
    unfold yielded. cbn. repeat split; try reflexivity. right. split; [exact E | reflexivity].
  - apply IH.
Qed.

Lemma iterrows_yielded rows : Forall2 yielded rows (iterrows rows).
Proof.
  unfold iterrows. destruct (forallb _ rows); [apply box_symbols_yielded|].
  induction rows; constructor; [apply yielded_refl | assumption].
Qed.

(** What [main2.py] returns for a start that can be brought to UTC. *)
Lemma main2_trades start w :
  Main2.get_trades_from_file start w =
  match to_naive_utc start with
  | Some _ => Some (map Main2.make_trade (iterrows (rows_of w)))
  | None => None
  end.
Proof.
  unfold Main2.get_trades_from_file. rewrite start_converted.
  destruct (to_naive_utc start); [|reflexivity].
  destruct w as [| | |[|r rows]]; reflexivity.
Qed.

(** C8, as the code has it.  In [main2.py] a trade read from the file has a
    commission and a realized result that are numbers (never NaN), and its
    symbol is the Symbol of a row of the sheet as [iterrows] yields it: the
    cell as it is, an empty cell as a NaN; a trade of the live query is a
    record the exchange answered with, as it is.  Neither path looks at the
    symbol, and an infinite commission is kept.  No trades are returned when
    the start cannot be brought to UTC. *)
Theorem ingested_trades
    (start : datetime) (w : workbook)
    (symbols : list string) (fetch : string -> option (list trade)) :
  match Main2.get_trades_from_file start w with
  | Some ts =>
      Forall (fun t =>
                F64.is_nan (commission t) = false /\
                F64.is_nan (realizedPnl t) = false /\
                exists r, In r (iterrows (rows_of w)) /\ symbol t = Symbol r)
             ts
  | None => to_naive_utc start = None
  end /\
  Forall2 yielded (rows_of w) (iterrows (rows_of w)) /\
  Forall (fun t => exists s ts, In s symbols /\ fetch s = Some ts /\ In t ts)
         (Common.get_trades_since symbols fetch).
Proof.
  split; [|split].
  - rewrite main2_trades. destruct (to_naive_utc start); [|reflexivity].
    apply Forall_forall. intros t Ht.
    apply in_map_iff in Ht. destruct Ht as (r & <- & Hr).
    cbn [commission realizedPnl symbol Main2.make_trade].
    repeat split; try (apply or_zero_not_nan, normalize_not_nan).
    exists r. split; [exact Hr | reflexivity].
  - apply iterrows_yielded.
  - apply Forall_forall. intros t Ht. unfold Common.get_trades_since in Ht.
    apply in_flat_map in Ht. destruct Ht as (s & Hs & Ht).
    destruct (fetch s) as [ts|] eqn:E; [|contradiction].
    exists s, ts. auto.
Qed.

(** C8 fails as stated: a row without a symbol and with the fee ["inf"]
    becomes a trade whose symbol is NaN, not a string, and whose commission
    is infinite; in [main.py] a fee that is no numeral becomes NaN. *)
Lemma ingested_trade_not_canonical :
  option_map (map symbol) (Main2.get_trades_from_file (mkDatetime 0 None) odd_sheet)
  = Some [PyNaN 0] /\
  option_map (map commission) (Main2.get_trades_from_file (mkDatetime 0 None) odd_sheet)
  = Some [S754_infinity false] /\
  option_map (map canonical) (Main2.get_trades_from_file (mkDatetime 0 None) odd_sheet)
  = Some [false] /\
  option_map (map realizedPnl) (Main.get_trades_from_file (mkDatetime 0 None) odd_sheet)
  = Some [F64.nan].
Proof. vm_compute. repeat split; reflexivity. Qed.

(** ** The start of the period *)

(** C10, as the code has it.  In [main2.py] the start is brought to UTC and
    not used again.  When that can be done, and it always can for a start
    without a zone, the trades read from the file are the same whatever the
    start: every row of a sheet that was read gives one trade, in the order
    of the sheet, and there are no trades otherwise.  When it cannot, the
    function raises. *)
Theorem start_date_is_ignored (start1 start2 : datetime) (w : workbook) :
  Main2.get_trades_from_file start1 w =
  match to_naive_utc start1 with
  | Some _ => Some (map Main2.make_trade (iterrows (rows_of w)))
  | None => None
  end /\
  (utcoffset start1 = None -> to_naive_utc start1 = Some start1) /\
  (to_naive_utc start1 <> None -> to_naive_utc start2 <> None ->
   Main2.get_trades_from_file start1 w = Main2.get_trades_from_file start2 w).
Proof.
  split; [apply main2_trades|]. split.
  - intros E. unfold to_naive_utc. rewrite E. reflexivity.
  - intros H1 H2. rewrite !main2_trades.
    destruct (to_naive_utc start1); [|congruence].
    destruct (to_naive_utc start2); [reflexivity | congruence].
Qed.

Lemma start_date_is_ignored_witness :
  to_naive_utc (mkDatetime 3600000000 (Some 3600000000)) <> None /\
  to_naive_utc second_day <> None /\
  Main2.get_trades_from_file (mkDatetime 3600000000 (Some 3600000000)) dated_sheet
  = Main2.get_trades_from_file second_day dated_sheet.
Proof.
  assert (H1 : to_naive_utc (mkDatetime 3600000000 (Some 3600000000)) <> None)
    by discriminate.
  assert (H2 : to_naive_utc second_day <> None) by discriminate.
  split; [exact H1|]. split; [exact H2|].
  exact (proj2 (proj2 (start_date_is_ignored _ _ dated_sheet)) H1 H2).
Defined.

(** C10 fails as stated: 9999-12-31 23:59 in a zone one hour behind UTC is a
    datetime, and its time in UTC is not; with it as the start [main2.py]
    raises OverflowError, and with another start it returns the two trades
    of the sheet. *)
Lemma start_date_can_raise :
  valid_datetime last_hour = true /\
  to_naive_utc last_hour = None /\
  Main2.get_trades_from_file last_hour dated_sheet = None /\
  option_map (map symbol) (Main2.get_trades_from_file second_day dated_sheet)
  = Some [PyStr "BTCUSDC"; PyStr "ETHUSDC"] /\
  Main2.get_trades_from_file last_hour dated_sheet
  <> Main2.get_trades_from_file second_day dated_sheet.
Proof. vm_compute. repeat split; try reflexivity; discriminate. Qed.

(** [main.py] does filter: the same sheet gives two trades from the first
    day on and one from the second. *)
Lemma main_filters_by_date :
  option_map (map symbol) (Main.get_trades_from_file (mkDatetime 0 None) dated_sheet)
  = Some [PyStr "BTCUSDC"; PyStr "ETHUSDC"] /\
  option_map (map symbol) (Main.get_trades_from_file second_day dated_sheet)
  = Some [PyStr "ETHUSDC"] /\
  option_map (map symbol) (Main2.get_trades_from_file second_day dated_sheet)
  = Some [PyStr "BTCUSDC"; PyStr "ETHUSDC"].
Proof. vm_compute. repeat split; reflexivity. Qed.

(** ** The conversion rate *)







(** ** The scenario of the specification *)

(** At a rate of 600 the three trades of the end-to-end scenario give the
    table of the specification: BTCUSDC, ETHUSDC and TOTAL, with every
    build of NumPy. *)
Lemma scenario_report np :
  conforms np ->
  Main2.calculate_token_pnl np scenario (Price (F64.of_Z 600)) =
  [ mkRow (PyStr "BTCUSDC")
          (F64.of_Z 80) (F64.of_decimal false 1 (-2)) (F64.of_Z 6)
          (F64.of_decimal false 5 (-1)) (F64.of_decimal false 65 (-1))
          (F64.of_decimal false 735 (-1)) 2;
    mkRow (PyStr "ETHUSDC")
          (F64.of_Z 50) (F64.of_decimal false 2 (-2)) (F64.of_Z 12)
          F64.zero (F64.of_Z 12) (F64.of_Z 38) 1;
    mkRow TOTAL
          (F64.of_Z 130) (F64.of_decimal false 3 (-2)) (F64.of_Z 18)
          (F64.of_decimal false 5 (-1)) (F64.of_decimal false 185 (-1))
          (F64.of_decimal false 1115 (-1)) 3 ].
Proof.
  intros H. unfold scenario.
  rewrite (main2_report_known np _ _ _
             (Common.make_rows (Main2.bnb_rate (Price (F64.of_Z 600)))
                (Common.accumulate scenario)) H);
    [|reflexivity | vm_compute; reflexivity].
  unfold Main2.total_row, Common.series_sum.
  destruct (conforms_zero np H) as [Hz|Hz]; rewrite Hz; vm_compute; reflexivity.
Qed.

(** ** One row for every traded symbol *)

Lemma occurrences_app k ks ks' :
  occurrences k (ks ++ ks') = (occurrences k ks + occurrences k ks')%nat.
Proof. unfold occurrences. rewrite filter_app, length_app. reflexivity. Qed.

Lemma occurrences_congr k s ks :
  key_eqb k s = true -> occurrences k ks = occurrences s ks.
Proof.
  intros H. unfold occurrences. f_equal. apply filter_ext.
  intros a. apply key_eqb_congr. exact H.
Qed.

Lemma occurrences_existsb s ks :
  existsb (key_eqb s) ks = negb (Nat.eqb (occurrences s ks) 0).
Proof.
  unfold occurrences. induction ks as [|a ks IH]; [reflexivity|].
  cbn [existsb filter]. destruct (key_eqb s a); [reflexivity | exact IH].
Qed.

Lemma occurrences_perm k ks ks' :
  Permutation ks ks' -> occurrences k ks = occurrences k ks'.
Proof.
  unfold occurrences. induction 1 as [|a l l' _ IH|a b l|l l' l'' _ IH1 _ IH2];
    cbn [filter].
  - reflexivity.
  - destruct (key_eqb k a); cbn [List.length]; congruence.
  - destruct (key_eqb k a), (key_eqb k b); reflexivity.
  - congruence.
Qed.

Lemma occurrences_step k s ks :
  occurrences k (if existsb (key_eqb s) ks then ks else ks ++ [s]) =
  if key_eqb k s then Nat.max 1 (occurrences k ks) else occurrences k ks.
Proof.
  rewrite occurrences_existsb.
  destruct (key_eqb k s) eqn:Hk.
  - rewrite <- (occurrences_congr _ _ ks Hk).
    destruct (occurrences k ks) as [|n] eqn:E; cbn [Nat.eqb negb].
    + rewrite occurrences_app, E. unfold occurrences. cbn [filter].
      rewrite Hk. reflexivity.
    + rewrite E. reflexivity.
  - destruct (negb (Nat.eqb (occurrences s ks) 0)); [reflexivity|].
    rewrite occurrences_app. unfold occurrences at 2. cbn [filter].
    rewrite Hk. cbn. lia.
Qed.

Lemma occurrences_first_seen k ts :
  occurrences k (first_seen ts) = if traded k ts then 1%nat else 0%nat.
Proof.
  unfold first_seen, traded.
  assert (H : forall ks,
             occurrences k
               (fold_left (fun ks t =>
                             if existsb (key_eqb (symbol t)) ks then ks
                             else ks ++ [symbol t]) ts ks) =
             if existsb (fun t => key_eqb k (symbol t)) ts
             then Nat.max 1 (occurrences k ks) else occurrences k ks).
  { induction ts as [|t ts IH]; intros ks; [reflexivity|].
    cbn [fold_left existsb]. rewrite IH, occurrences_step.
    destruct (key_eqb k (symbol t)); cbn [orb].
    - destruct (existsb (fun t0 => key_eqb k (symbol t0)) ts); lia.
    - reflexivity. }
  rewrite H. destruct (existsb (fun t => key_eqb k (symbol t)) ts); reflexivity.
Qed.


(** X1.  In the report of either version every key has one per-symbol row if
    some trade has it as its symbol, and none otherwise: the rows are one
    for each distinct symbol.  Symbols that are NaN are distinct when they
    are distinct objects. *)
Theorem one_row_per_symbol (np : numpy) (ts : list trade) (tk : ticker) (k : pyobj) :
  occurrences k (map Token (report_rows (Main.calculate_token_pnl np ts tk)))
  = (if traded k ts then 1%nat else 0%nat) /\
  (conforms np ->
   occurrences k (map Token (report_rows (Main2.calculate_token_pnl np ts tk)))
   = (if traded k ts then 1%nat else 0%nat)).
Proof.
  destruct ts as [|t ts]; [split; reflexivity|].
  rewrite main_report, main2_report, !report_rows_snoc.
  split.
  - rewrite make_rows_tokens, accumulate_key_order. apply occurrences_first_seen.
  - intros H.
    rewrite (occurrences_perm k _ _ (Permutation_map Token (sort_values_perm np false _ H))).
    rewrite make_rows_tokens, accumulate_key_order. apply occurrences_first_seen.
Qed.

Lemma one_row_per_symbol_witness :
  conforms stable_build /\
  occurrences (PyStr "BTCUSDC")
    (map Token (report_rows (Main2.calculate_token_pnl stable_build scenario ClientError)))
  = (if traded (PyStr "BTCUSDC") scenario then 1%nat else 0%nat).
Proof.
  split; [exact stable_build_conforms|].
  exact (proj2 (one_row_per_symbol stable_build scenario ClientError (PyStr "BTCUSDC"))
               stable_build_conforms).
Defined.

(** ** What a row holds *)

Lemma occurrences_in k ks : In k ks -> (1 <= occurrences k ks)%nat.
Proof.
  unfold occurrences. induction ks as [|a ks IH]; [contradiction|].
  intros [->|H]; cbn [filter].
  - rewrite key_eqb_refl. cbn. lia.
  - specialize (IH H). destruct (key_eqb k a); cbn [List.length]; lia.
Qed.

(** In a dictionary without repeated keys, the pair listed is the pair
    found. *)
Lemma dict_get_listed k v d :
  (forall k', occurrences k' (map fst d) <= 1)%nat ->
  In (k, v) d -> dict_get k d = Some v.
Proof.
  induction d as [|[k0 v0] d IH]; [contradiction|].
  intros Hu [E|Hin].
  - injection E as -> ->. cbn. rewrite key_eqb_refl. reflexivity.
  - cbn [dict_get]. destruct (key_eqb k k0) eqn:Hk.
    + exfalso. specialize (Hu k). unfold occurrences in Hu. cbn [map fst filter] in Hu.
      rewrite Hk in Hu. cbn [List.length] in Hu.
      assert (H1 : (1 <= occurrences k (map fst d))%nat).
      { apply occurrences_in. change k with (fst (k, v)). apply in_map. exact Hin. }
      unfold occurrences in H1. lia.
    + apply IH; [|exact Hin].
      intros k'. specialize (Hu k'). unfold occurrences in *. cbn [map fst filter] in Hu.
      destruct (key_eqb k' k0); cbn [List.length] in Hu; lia.
Qed.

Lemma accumulate_unique ts k : (occurrences k (map fst (Common.accumulate ts)) <= 1)%nat.
Proof.
  rewrite accumulate_key_order, occurrences_first_seen.
  destruct (traded k ts); lia.
Qed.

(** The entry of a symbol after the loop. *)
Lemma accumulate_entry ts k :
  dict_get k (Common.accumulate ts) =
  match trades_of k ts with
  | [] => None
  | mine => Some (entry_of mine)
  end.
Proof.
  unfold Common.accumulate. rewrite accumulate_from. cbn [dict_get].
  destruct (trades_of k ts) as [|t mine] eqn:E; [reflexivity|].
  rewrite fold_apply_trade. reflexivity.
Qed.

Lemma accumulate_listed ts k v :
  In (k, v) (Common.accumulate ts) -> v = entry_of (trades_of k ts).
Proof.
  intros Hin.
  pose proof (dict_get_listed k v _ (accumulate_unique ts) Hin) as Hg.
  rewrite accumulate_entry in Hg.
  destruct (trades_of k ts); [discriminate | injection Hg; auto].
Qed.

Lemma make_rows_of_trades rate ts :
  Forall (fun r => r = Common.make_row rate (Token r, entry_of (trades_of (Token r) ts)))
         (Common.make_rows rate (Common.accumulate ts)).
Proof.
  apply Forall_forall. intros r Hr. unfold Common.make_rows in Hr.
  apply in_map_iff in Hr. destruct Hr as ([k v] & <- & Hin).
  cbn [Common.make_row Token]. rewrite <- (accumulate_listed _ _ _ Hin). reflexivity.
Qed.

Lemma occurrences_found k ks :
  (1 <= occurrences k ks)%nat -> exists a, In a ks /\ key_eqb k a = true.
Proof.
  unfold occurrences. induction ks as [|a ks IH]; cbn [filter].
  - cbn. lia.
  - destruct (key_eqb k a) eqn:E.
    + intros _. exists a. split; [left; reflexivity | exact E].
    + intros H. destruct (IH H) as (b & Hb & Eb). exists b. split; [right|]; assumption.
Qed.

Lemma rows_of_own_trades_main2 np ts tk :
  conforms np ->
  Forall (fun r => r = Common.make_row (Main2.bnb_rate tk)
                         (Token r, entry_of (trades_of (Token r) ts)))
         (report_rows (Main2.calculate_token_pnl np ts tk)).
Proof.
  intros H. destruct ts as [|t ts]; [constructor|].
  rewrite main2_report, report_rows_snoc.
  apply Forall_forall. intros r Hr.
  apply (Permutation_in _ (sort_values_perm np false _ H)) in Hr.
  revert r Hr. apply Forall_forall. apply make_rows_of_trades.
Qed.

(** X2.  Every per-symbol row of either version is the row made from the
    trades of its own symbol alone: the sums over those trades in input
    order, converted at the rate of the run and rounded. *)
Theorem row_of_own_trades (np : numpy) (ts : list trade) (tk : ticker) :
  Forall (fun r => r = Common.make_row (Main.get_price tk)
                         (Token r, entry_of (trades_of (Token r) ts)))
         (report_rows (Main.calculate_token_pnl np ts tk)) /\
  (conforms np ->
   Forall (fun r => r = Common.make_row (Main2.bnb_rate tk)
                          (Token r, entry_of (trades_of (Token r) ts)))
          (report_rows (Main2.calculate_token_pnl np ts tk))).
Proof.
  split.
  - destruct ts as [|t ts]; [constructor|].
    rewrite main_report, report_rows_snoc. apply make_rows_of_trades.
  - intros H. destruct ts as [|t ts]; [constructor|].
    rewrite main2_report, report_rows_snoc.
    apply Forall_forall. intros r Hr.
    apply (Permutation_in _ (sort_values_perm np false _ H)) in Hr.
    revert r Hr. apply Forall_forall. apply make_rows_of_trades.
Qed.

Lemma row_of_own_trades_witness :
  conforms mirror_build /\
  Forall (fun r => r = Common.make_row (Main2.bnb_rate ClientError)
                         (Token r, entry_of (trades_of (Token r) scenario)))
         (report_rows (Main2.calculate_token_pnl mirror_build scenario ClientError)).
Proof.
  split; [exact mirror_build_conforms|].
  exact (proj2 (row_of_own_trades mirror_build scenario ClientError) mirror_build_conforms).
Defined.

(** ** The fees of a row *)

Lemma make_rows_classified rate ts :
  Forall (classified ts) (Common.make_rows rate (Common.accumulate ts)).
Proof.
  apply Forall_forall. intros r Hr. unfold Common.make_rows in Hr.
  apply in_map_iff in Hr. destruct Hr as ([k v] & <- & Hin).
  pose proof (dict_get_listed k v _ (accumulate_unique ts) Hin) as Hg.
  rewrite accumulate_entry in Hg.
  unfold classified. cbn [Common.make_row Token Realized_PnL BNB_Fees Direct_USDC_Fees Trades].
  destruct (trades_of k ts) as [|t mine] eqn:E; [discriminate|].
  injection Hg as <-. split; [discriminate|]. repeat split.
Qed.

(** Every trade is among the trades of the symbol of some row. *)
Lemma every_trade_has_a_row rows ts :
  Permutation (map Token rows) (first_seen ts) ->
  forall t, In t ts -> exists r, In r rows /\ In t (trades_of (Token r) ts).
Proof.
  intros P t Ht.
  pose proof (occurrences_first_seen (symbol t) ts) as Ho.
  assert (Htr : traded (symbol t) ts = true).
  { unfold traded. apply existsb_exists. exists t. split; [exact Ht | apply key_eqb_refl]. }
  rewrite Htr, <- (occurrences_perm _ _ _ P) in Ho.
  destruct (occurrences_found (symbol t) (map Token rows)) as (a & Ha & Ea); [lia|].
  apply in_map_iff in Ha. destruct Ha as (r & <- & Hr).
  exists r. split; [exact Hr|]. unfold trades_of. apply filter_In.
  split; [exact Ht|]. rewrite key_eqb_sym. exact Ea.
Qed.

(** C3.  The commission of a trade is taken for a BNB fee exactly when its
    commission asset is ["BNB"], for a USDC fee exactly when the asset is
    ["USDC"] or ["USDT"], and otherwise for neither.  After the loop the
    entry of every symbol holds the realized PnL and the count of all trades
    of the symbol, its BNB fees over the trades of the first kind and its
    USDC fees over those of the second.  In the report of either version
    every per-symbol row shows these sums, rounded, for the trades of its
    symbol, and every trade is among the trades of some row: a trade with
    another asset is counted and its PnL added, and its commission enters
    neither fee column. *)
Theorem fee_classification (np : numpy) (ts : list trade) (tk : ticker) :
  (forall t, paid_in_bnb t = true <-> commissionAsset t = BNB) /\
  (forall t, paid_in_stable t = true <->
             commissionAsset t = USDC \/ commissionAsset t = USDT) /\
  (forall k,
     dict_get k (Common.accumulate ts) =
     match trades_of k ts with
     | [] => None
     | mine => Some (entry_of mine)
     end) /\
  (let rows := report_rows (Main.calculate_token_pnl np ts tk) in
   Forall (classified ts) rows /\
   forall t, In t ts -> exists r, In r rows /\ In t (trades_of (Token r) ts)) /\
  (conforms np ->
   let rows := report_rows (Main2.calculate_token_pnl np ts tk) in
   Forall (classified ts) rows /\
   forall t, In t ts -> exists r, In r rows /\ In t (trades_of (Token r) ts)).
Proof.
  split; [|split; [|split; [|split]]].
  - intros t. unfold paid_in_bnb. apply py_eqb_str.
  - intros t. unfold paid_in_stable. cbn [existsb].
    rewrite orb_false_r, orb_true_iff. unfold USDC, USDT. rewrite !py_eqb_str. tauto.
  - intros k. apply accumulate_entry.
  - cbv zeta. destruct ts as [|t0 ts]; [split; [constructor | intros t []]|].
    rewrite main_report, report_rows_snoc. split; [apply make_rows_classified|].
    apply every_trade_has_a_row.
    rewrite make_rows_tokens, accumulate_key_order. reflexivity.
  - intros H. cbv zeta. destruct ts as [|t0 ts]; [split; [constructor | intros t []]|].
    rewrite main2_report, report_rows_snoc.
    pose proof (sort_values_perm np false
                  (Common.make_rows (Main2.bnb_rate tk) (Common.accumulate (t0 :: ts))) H)
      as P.
    split.
    + apply Forall_forall. intros r Hr. apply (Permutation_in _ P) in Hr.
      revert r Hr. apply Forall_forall. apply make_rows_classified.
    + apply every_trade_has_a_row.
      rewrite (Permutation_map Token P), make_rows_tokens, accumulate_key_order.
      reflexivity.
Qed.

Lemma fee_classification_witness :
  conforms stable_build /\
  let rows := report_rows (Main2.calculate_token_pnl stable_build scenario ClientError) in
  Forall (classified scenario) rows /\
  forall t, In t scenario -> exists r, In r rows /\ In t (trades_of (Token r) scenario).
Proof.
  split; [exact stable_build_conforms|].
  exact (proj2 (proj2 (proj2 (proj2 (fee_classification stable_build scenario ClientError))))
               stable_build_conforms).
Defined.

(** ** What the conversion rate does not touch *)

(** X3.  The symbol, the realized PnL, the BNB fee quantity, the direct
    fees and the trade count of every row are the same whatever the price
    lookup returns: in [main.py] row by row, in [main2.py] up to the order
    of the rows, which the rate can change. *)
Theorem rate_leaves_columns (np : numpy) (ts : list trade) (tk tk' : ticker) :
  map unconverted (report_rows (Main.calculate_token_pnl np ts tk))
  = map unconverted (report_rows (Main.calculate_token_pnl np ts tk')) /\
  (conforms np ->
   Permutation (map unconverted (report_rows (Main2.calculate_token_pnl np ts tk)))
               (map unconverted (report_rows (Main2.calculate_token_pnl np ts tk')))).
Proof.
  assert (H : forall p p',
             map unconverted (Common.make_rows p (Common.accumulate ts))
             = map unconverted (Common.make_rows p' (Common.accumulate ts))).
  { intros p p'. unfold Common.make_rows. rewrite !map_map.
    apply map_ext. intros [k v]. reflexivity. }
  destruct ts as [|t ts]; [split; [reflexivity | constructor]|].
  rewrite !main_report, !main2_report, !report_rows_snoc.
  split; [apply H|]. intros Hc.
  rewrite (Permutation_map unconverted (sort_values_perm np false _ Hc)).
  rewrite (Permutation_map unconverted
             (sort_values_perm np false (Common.make_rows (Main2.bnb_rate tk') _) Hc)).
  rewrite (H (Main2.bnb_rate tk) (Main2.bnb_rate tk')). reflexivity.
Qed.

Lemma rate_leaves_columns_witness :
  conforms stable_build /\
  Permutation
    (map unconverted
         (report_rows (Main2.calculate_token_pnl stable_build scenario ClientError)))
    (map unconverted
         (report_rows (Main2.calculate_token_pnl stable_build scenario
                                                 (Price (F64.of_Z 600))))).
Proof.
  split; [exact stable_build_conforms|].
  exact (proj2 (rate_leaves_columns stable_build scenario ClientError (Price (F64.of_Z 600)))
               stable_build_conforms).
Defined.

(** ** The two versions side by side *)

(** X4.  When the lookup returns a price that is not zero, [main2.py]
    reports the per-symbol rows of [main.py], sorted. *)
Theorem versions_agree_on_rows (np : numpy) (ts : list trade) (p : F64.float) :
  F64.eqb p F64.zero = false ->
  conforms np ->
  Permutation (report_rows (Main2.calculate_token_pnl np ts (Price p)))
              (report_rows (Main.calculate_token_pnl np ts (Price p))) /\
  StronglySorted in_order (report_rows (Main2.calculate_token_pnl np ts (Price p))).
Proof.
  intros Hp H. destruct ts as [|t ts]; [split; constructor|].
  rewrite main_report, main2_report, !report_rows_snoc.
  unfold Main2.bnb_rate. cbn [Main2.get_price Main.get_price]. rewrite Hp.
  split; [apply sort_values_perm | apply sort_values_sorted]; exact H.
Qed.

Lemma versions_agree_on_rows_witness :
  F64.eqb (F64.of_Z 600) F64.zero = false /\
  conforms stable_build /\
  Permutation
    (report_rows (Main2.calculate_token_pnl stable_build scenario (Price (F64.of_Z 600))))
    (report_rows (Main.calculate_token_pnl stable_build scenario (Price (F64.of_Z 600)))) /\
  StronglySorted in_order
    (report_rows (Main2.calculate_token_pnl stable_build scenario (Price (F64.of_Z 600)))).
Proof.
  split; [reflexivity|]. split; [exact stable_build_conforms|].
  apply (versions_agree_on_rows stable_build scenario (F64.of_Z 600));
    [reflexivity | exact stable_build_conforms].
Defined.

(** ** The fee per trade *)

(** X5.  On the report of a non-empty input the TOTAL row counts at least
    one trade, so [avg_fee] is always the quotient: the total fees divided
    by the number of input trades. *)
Theorem avg_fee_divides_by_trades
    (np : numpy) (t : trade) (ts : list trade) (tk : ticker) :
  (exists total,
     report_total (Main.calculate_token_pnl np (t :: ts) tk) = Some total /\
     Trades total <> 0 /\
     Common.avg_fee total
     = F64.div (Total_Fees_USDC total) (F64.of_Z (Z.of_nat (List.length (t :: ts))))) /\
  (conforms np ->
   exists total,
     report_total (Main2.calculate_token_pnl np (t :: ts) tk) = Some total /\
     Trades total <> 0 /\
     Common.avg_fee total
     = F64.div (Total_Fees_USDC total) (F64.of_Z (Z.of_nat (List.length (t :: ts))))).
Proof.
  assert (Hn : Z.of_nat (List.length (t :: ts)) <> 0) by (cbn [List.length]; lia).
  split.
  - rewrite main_report, report_total_snoc. eexists. split; [reflexivity|].
    assert (E : Trades (Main.total_row np
                          (Common.make_rows (Main.get_price tk) (Common.accumulate (t :: ts))))
                = Z.of_nat (List.length (t :: ts))).
    { cbn [Main.total_row Trades]. rewrite make_rows_trades.
      fold (held (Common.accumulate (t :: ts))). apply held_accumulate. }
    unfold Common.avg_fee. rewrite E.
    split; [exact Hn|]. apply Z.eqb_neq in Hn. rewrite Hn. reflexivity.
  - intros H. rewrite main2_report, report_total_snoc. eexists. split; [reflexivity|].
    assert (E : Trades (Main2.total_row np
                          (sort_values np false
                             (Common.make_rows (Main2.bnb_rate tk)
                                               (Common.accumulate (t :: ts)))))
                = Z.of_nat (List.length (t :: ts))).
    { cbn [Main2.total_row Trades].
      rewrite (int_sum_perm _ _ (Permutation_map Trades (sort_values_perm np false _ H))).
      rewrite make_rows_trades.
      fold (held (Common.accumulate (t :: ts))). apply held_accumulate. }
    unfold Common.avg_fee. rewrite E.
    split; [exact Hn|]. apply Z.eqb_neq in Hn. rewrite Hn. reflexivity.
Qed.

Lemma avg_fee_divides_by_trades_witness :
  conforms stable_build /\
  exists total,
    report_total (Main2.calculate_token_pnl stable_build scenario ClientError) = Some total /\
    Trades total <> 0 /\
    Common.avg_fee total
    = F64.div (Total_Fees_USDC total) (F64.of_Z (Z.of_nat (List.length scenario))).
Proof.
  split; [exact stable_build_conforms|].
  exact (proj2 (avg_fee_divides_by_trades stable_build _ _ ClientError)
               stable_build_conforms).
Defined.

(** ** A sheet without a Fee Coin column *)

Lemma trades_of_forall (P : trade -> Prop) k ts :
  Forall P ts -> Forall P (trades_of k ts).
Proof.
  rewrite !Forall_forall. intros H t Ht. unfold trades_of in Ht.
  apply filter_In in Ht. apply H. tauto.
Qed.

Lemma iterrows_fee_coin rows :
  Forall (fun r => Fee_Coin r = None) rows ->
  Forall (fun r => Fee_Coin r = None) (iterrows rows).
Proof.
  intros H. pose proof (iterrows_yielded rows) as Hy.
  induction Hy as [|r0 r rows0 rows' Hr _ IH]; [constructor|].
  inversion H as [|? ? H0 H']; subst.
  constructor; [|apply IH; exact H'].
  destruct Hr as (_ & _ & _ & Hc & _). congruence.
Qed.

(** X6.  When the sheet has no Fee Coin column, [main2.py] takes every fee
    as a USDC fee: each row of the report shows a BNB fee quantity of 0.0
    and, as direct fees, the rounded sum of all fees of its symbol. *)
Theorem missing_fee_coin_column
    (np : numpy) (start : datetime) (rows : list sheet_row) (tk : ticker)
    (ts : list trade) :
  conforms np ->
  Forall (fun r => Fee_Coin r = None) rows ->
  Main2.get_trades_from_file start (Sheet rows) = Some ts ->
  Forall (fun r =>
            BNB_Fees r = F64.zero /\
            Direct_USDC_Fees r
            = F64.py_round (float_sum (map commission (trades_of (Token r) ts))) 2)
         (report_rows (Main2.calculate_token_pnl np ts tk)).
Proof.
  intros Hc Hrows Hts.
  assert (Hasset : Forall (fun t => commissionAsset t = USDC) ts).
  { rewrite main2_trades in Hts. destruct (to_naive_utc start); [|discriminate].
    injection Hts as <-. cbn [rows_of].
    apply Forall_forall. intros t Ht. apply in_map_iff in Ht.
    destruct Ht as (r & <- & Hr).
    pose proof (iterrows_fee_coin rows Hrows) as Hn. rewrite Forall_forall in Hn.
    cbn. rewrite (Hn r Hr). reflexivity. }
  apply Forall_forall. intros r Hr.
  pose proof (proj1 (Forall_forall _ _) (rows_of_own_trades_main2 np ts tk Hc) r Hr) as E.
  assert (Hmine := trades_of_forall _ (Token r) ts Hasset).
  rewrite E at 1 2. cbn [Common.make_row BNB_Fees Direct_USDC_Fees entry_of bnb_fees usdc_fees].
  rewrite (filter_none paid_in_bnb), (filter_all paid_in_stable).
  - split; reflexivity.
  - eapply Forall_impl; [|exact Hmine]. intros t Ht. unfold paid_in_stable.
    cbn beta in Ht. rewrite Ht. reflexivity.
  - eapply Forall_impl; [|exact Hmine]. intros t Ht. unfold paid_in_bnb.
    cbn beta in Ht. rewrite Ht. reflexivity.
Qed.

Lemma missing_fee_coin_column_witness :
  conforms stable_build /\
  Forall (fun r => Fee_Coin r = None) nameless_rows /\
  exists ts,
    Main2.get_trades_from_file second_day (Sheet nameless_rows) = Some ts /\
    Forall (fun r =>
              BNB_Fees r = F64.zero /\
              Direct_USDC_Fees r
              = F64.py_round (float_sum (map commission (trades_of (Token r) ts))) 2)
           (report_rows (Main2.calculate_token_pnl stable_build ts ClientError)).
Proof.
  assert (H : Forall (fun r => Fee_Coin r = None) nameless_rows)
    by (repeat constructor).
  split; [exact stable_build_conforms|]. split; [exact H|].
  eexists. split; [reflexivity|].
  exact (missing_fee_coin_column stable_build second_day nameless_rows ClientError _
                                 stable_build_conforms H eq_refl).
Defined.

(** Two rows of the sheet whose Symbol cells are empty are two symbols: the
    report has a row for each, with its own fee, in either version. *)
Lemma nameless_rows_report (np : numpy) :
  conforms np ->
  option_map (fun ts => map Direct_USDC_Fees
                            (report_rows (Main2.calculate_token_pnl np ts ClientError)))
             (Main2.get_trades_from_file second_day (Sheet nameless_rows))
  = Some [F64.of_decimal false 25 (-2); F64.of_decimal false 5 (-1)] /\
  option_map (fun ts => map Token
                            (report_rows (Main2.calculate_token_pnl np ts ClientError)))
             (Main2.get_trades_from_file second_day (Sheet nameless_rows))
  = Some [PyNaN 0; PyNaN 1].
Proof.
  intros H.
  change (Main2.get_trades_from_file second_day (Sheet nameless_rows))
    with (Some (map Main2.make_trade (iterrows nameless_rows))).
  cbn [option_map].
  change (map Main2.make_trade (iterrows nameless_rows))
    with (hd (mkTrade PyNone F64.zero F64.zero PyNone)
             (map Main2.make_trade (iterrows nameless_rows))
          :: tl (map Main2.make_trade (iterrows nameless_rows))).
  rewrite (main2_report_known np _ _ _
             (Common.make_rows (Main2.bnb_rate ClientError)
                (Common.accumulate (map Main2.make_trade (iterrows nameless_rows)))) H);
    [|reflexivity | vm_compute; reflexivity].
  rewrite report_rows_snoc. vm_compute. split; reflexivity.
Qed.

(** ** The number of tokens traded *)

Lemma first_seen_names names ts :
  map symbol ts = map PyStr names -> first_seen ts = map PyStr (Common.distinct names).
Proof.
  unfold first_seen, Common.distinct.
  assert (H : forall ks,
             map symbol ts = map PyStr names ->
             fold_left (fun ks t =>
                          if existsb (key_eqb (symbol t)) ks then ks else ks ++ [symbol t])
                       ts (map PyStr ks)
             = map PyStr
                 (fold_left (fun ks s =>
                               if existsb (String.eqb s) ks then ks else ks ++ [s])
                            names ks)).
  { revert names. induction ts as [|t ts IH]; intros [|s names] ks E; try discriminate.
    - reflexivity.
    - cbn [map] in E. injection E as Es E. cbn [fold_left].
      rewrite Es.
      assert (Hx : existsb (key_eqb (PyStr s)) (map PyStr ks) = existsb (String.eqb s) ks).
      { clear. induction ks as [|a ks IH]; [reflexivity|]. cbn. rewrite IH. reflexivity. }
      rewrite Hx. destruct (existsb (String.eqb s) ks).
      + apply IH. exact E.
      + change [PyStr s] with (map PyStr [s]). rewrite <- map_app. apply IH. exact E. }
  apply (H []).
Qed.

Lemma insert_name_perm s l : Permutation (Common.insert_name s l) (s :: l).
Proof.
  induction l as [|s' l IH]; cbn; [reflexivity|].
  destruct (String.leb s s'); [reflexivity|].
  rewrite IH. apply perm_swap.
Qed.

Lemma sorted_perm l : Permutation (Common.sorted l) l.
Proof.
  induction l as [|s l IH]; cbn; [reflexivity|].
  rewrite insert_name_perm. constructor. exact IH.
Qed.

Lemma insert_name_sorted s l :
  Sorted (fun a b => String.leb a b = true) l ->
  Sorted (fun a b => String.leb a b = true) (Common.insert_name s l).
Proof.
  induction 1 as [|s' l Hs IH Hd]; cbn.
  - repeat constructor.
  - destruct (String.leb s s') eqn:E.
    + constructor; [constructor; assumption|]. constructor. exact E.
    + constructor; [exact IH|].
      assert (E' : String.leb s' s = true).
      { destruct (String.leb_total s s') as [H|H]; congruence. }
      destruct l as [|s'' l]; cbn.
      * constructor. exact E'.
      * destruct (String.leb s s''); constructor; [exact E'|].
        inversion Hd; assumption.
Qed.

Lemma sorted_sorted l : Sorted (fun a b => String.leb a b = true) (Common.sorted l).
Proof.
  induction l as [|s l IH]; cbn; [constructor|]. apply insert_name_sorted. exact IH.
Qed.

Lemma distinct_nodup names : NoDup (Common.distinct names).
Proof.
  unfold Common.distinct.
  assert (H : forall ks, NoDup ks ->
             NoDup (fold_left (fun ks s =>
                                 if existsb (String.eqb s) ks then ks else ks ++ [s])
                              names ks)).
  { induction names as [|s names IH]; intros ks Hks; [exact Hks|].
    cbn [fold_left]. apply IH.
    destruct (existsb (String.eqb s) ks) eqn:E; [exact Hks|].
    apply NoDup_app; [exact Hks | repeat constructor; intros [] |].
    intros x Hx [Ex|[]]. subst x.
    assert (Ht : existsb (String.eqb s) ks = true).
    { apply existsb_exists. exists s. split; [exact Hx | apply String.eqb_refl]. }
    congruence. }
  apply H. constructor.
Qed.

Lemma distinct_in names s : In s (Common.distinct names) <-> In s names.
Proof.
  unfold Common.distinct.
  assert (H : forall ks,
             In s (fold_left (fun ks s =>
                                if existsb (String.eqb s) ks then ks else ks ++ [s])
                             names ks)
             <-> In s ks \/ In s names).
  { induction names as [|a names IH]; intros ks; cbn [fold_left].
    - cbn. tauto.
    - rewrite IH. cbn [In].
      destruct (existsb (String.eqb a) ks) eqn:E.
      + apply existsb_exists in E. destruct E as (x & Hx & Ex).
        apply String.eqb_eq in Ex. subst x.
        split; [tauto|]. intros [H|[<-|H]]; auto.
      + rewrite in_app_iff. cbn [In]. tauto. }
  rewrite H. cbn. tauto.
Qed.

(** X7.  For trades whose symbols are the strings [names], the tokens that
    [main] lists are those names, each once and in ascending order, and
    their number, the "tokens traded", is the number of per-symbol rows of
    the report of either version. *)
Theorem tokens_match_report
    (np : numpy) (names : list string) (ts : list trade) (tk : ticker) :
  map symbol ts = map PyStr names ->
  (forall s, In s (Common.tokens names) <-> In s names) /\
  NoDup (Common.tokens names) /\
  Sorted (fun a b => String.leb a b = true) (Common.tokens names) /\
  List.length (Common.tokens names)
  = List.length (report_rows (Main.calculate_token_pnl np ts tk)) /\
  (conforms np ->
   List.length (Common.tokens names)
   = List.length (report_rows (Main2.calculate_token_pnl np ts tk))).
Proof.
  intros E. unfold Common.tokens.
  assert (Hlen : List.length (Common.sorted (Common.distinct names))
                 = List.length (first_seen ts)).
  { rewrite (Permutation_length (sorted_perm _)), (first_seen_names _ _ E), length_map.
    reflexivity. }
  split; [|split; [|split; [|split]]].
  - intros s. split; intros H.
    + apply distinct_in. apply (Permutation_in _ (sorted_perm _)). exact H.
    + apply (Permutation_in _ (Permutation_sym (sorted_perm _))).
      apply distinct_in. exact H.
  - apply (Permutation_NoDup (Permutation_sym (sorted_perm _))). apply distinct_nodup.
  - apply sorted_sorted.
  - rewrite Hlen. destruct ts as [|t ts]; [reflexivity|].
    rewrite main_report, report_rows_snoc.
    rewrite <- accumulate_key_order, <- (make_rows_tokens (Main.get_price tk)), length_map.
    reflexivity.
  - intros Hc. rewrite Hlen. destruct ts as [|t ts]; [reflexivity|].
    rewrite main2_report, report_rows_snoc.
    rewrite (Permutation_length (sort_values_perm np false _ Hc)).
    rewrite <- accumulate_key_order, <- (make_rows_tokens (Main2.bnb_rate tk)), length_map.
    reflexivity.
Qed.

Lemma tokens_match_report_witness :
  map symbol scenario = map PyStr ["BTCUSDC"; "BTCUSDC"; "ETHUSDC"]%string /\
  conforms stable_build /\
  List.length (Common.tokens ["BTCUSDC"; "BTCUSDC"; "ETHUSDC"]%string)
  = List.length (report_rows (Main2.calculate_token_pnl stable_build scenario ClientError)).
Proof.
  assert (H : map symbol scenario = map PyStr ["BTCUSDC"; "BTCUSDC"; "ETHUSDC"]%string)
    by reflexivity.
  split; [exact H|]. split; [exact stable_build_conforms|].
  apply (tokens_match_report stable_build _ scenario ClientError H).
  exact stable_build_conforms.
Defined.

(** ** The start of the period in [main.py] *)

Lemma make_trades_some rows :
  Forall (fun r => Fee_Coin r <> None) rows <->
  exists ts, Main.make_trades rows = Some ts.
Proof.
  induction rows as [|r rows IH]; cbn [Main.make_trades].
  - split; [eexists; reflexivity | constructor].
  - unfold Main.make_trade at 1. split.
    + intros H. inversion H as [|? ? Hr Hrows]; subst.
      apply IH in Hrows. destruct Hrows as (ts & ->).
      destruct (Fee_Coin r); [eexists; reflexivity | congruence].
    + intros (ts & H). destruct (Fee_Coin r) eqn:E; [|discriminate].
      destruct (Main.make_trades rows) eqn:E'; [|discriminate].
      constructor; [congruence|]. apply IH. eexists; reflexivity.
Qed.

Lemma make_trades_filter f rows ts :
  Main.make_trades rows = Some ts ->
  exists ts', Main.make_trades (filter f rows) = Some ts' /\
              incl ts' ts /\ (List.length ts' <= List.length ts)%nat.
Proof.
  revert ts. induction rows as [|r rows IH]; intros ts; cbn [Main.make_trades filter].
  - intros E. injection E as <-. exists []. repeat split; [apply incl_refl | lia].
  - destruct (Main.make_trade r) as [t|] eqn:Et; [|discriminate].
    destruct (Main.make_trades rows) as [ts0|] eqn:E0; [|discriminate].
    intros E. injection E as <-.
    destruct (IH ts0 eq_refl) as (ts' & E' & Hi & Hl).
    destruct (f r); cbn [Main.make_trades].
    + rewrite Et, E'. exists (t :: ts'). split; [reflexivity|]. split.
      * intros x [<-|Hx]; [left; reflexivity | right; apply Hi; exact Hx].
      * cbn [List.length]. lia.
    + exists ts'. split; [exact E'|]. split.
      * intros x Hx. right. apply Hi. exact Hx.
      * cbn [List.length]. lia.
Qed.

(** What [main.py] returns for a start that can be brought to UTC. *)
Lemma main_trades start w :
  Main.get_trades_from_file start w =
  match to_naive_utc start with
  | Some naive =>
      match w with
      | Sheet rows => Main.make_trades (filter (Main.on_or_after naive) (iterrows rows))
      | _ => None
      end
  | None => None
  end.
Proof. unfold Main.get_trades_from_file. rewrite start_converted. reflexivity. Qed.

(** X8.  In [main.py] a start that cannot be brought to UTC makes the
    function raise.  Of two starts that can, the later one never adds a
    trade and never turns a file that could be read into an error: the
    trades from the later start are among those from the earlier one.  The
    two starts are compared as instants, after the conversion of a start
    with a zone to UTC. *)
Theorem later_start_fewer_trades
    (start1 start2 naive1 naive2 : datetime) (w : workbook) (ts1 : list trade) :
  to_naive_utc start1 = Some naive1 ->
  to_naive_utc start2 = Some naive2 ->
  wall_clock naive1 <= wall_clock naive2 ->
  Main.get_trades_from_file start1 w = Some ts1 ->
  (exists ts2,
     Main.get_trades_from_file start2 w = Some ts2 /\
     incl ts2 ts1 /\ (List.length ts2 <= List.length ts1)%nat) /\
  (forall start, to_naive_utc start = None -> Main.get_trades_from_file start w = None).
Proof.
  intros E1 E2 Hle. rewrite !main_trades, E1, E2.
  intros Hts. split; [|intros start E; rewrite main_trades, E; reflexivity].
  destruct w as [| | |rows]; try discriminate.
  set (frame := iterrows rows) in *.
  assert (Hf : filter (Main.on_or_after naive2) frame
               = filter (Main.on_or_after naive2)
                   (filter (Main.on_or_after naive1) frame)).
  { clear Hts. induction frame as [|r frame' IH]; [reflexivity|]. cbn [filter].
    destruct (Main.on_or_after naive2 r) eqn:Er2.
    - assert (Er1 : Main.on_or_after naive1 r = true).
      { unfold Main.on_or_after in *. destruct (Date_UTC r); [|discriminate].
        apply Z.leb_le in Er2. apply Z.leb_le. lia. }
      rewrite Er1. cbn [filter]. rewrite Er2, IH. reflexivity.
    - destruct (Main.on_or_after naive1 r); cbn [filter];
        rewrite ?Er2; exact IH. }
  rewrite Hf. apply make_trades_filter. exact Hts.
Qed.

Lemma later_start_fewer_trades_witness :
  to_naive_utc (mkDatetime 3600000000 (Some 3600000000)) = Some (mkDatetime 0 None) /\
  to_naive_utc second_day = Some second_day /\
  wall_clock (mkDatetime 0 None) <= wall_clock second_day /\
  (exists ts1,
     Main.get_trades_from_file (mkDatetime 3600000000 (Some 3600000000)) dated_sheet
     = Some ts1 /\
     exists ts2,
       Main.get_trades_from_file second_day dated_sheet = Some ts2 /\
       incl ts2 ts1 /\ (List.length ts2 <= List.length ts1)%nat).
Proof.
  assert (H1 : to_naive_utc (mkDatetime 3600000000 (Some 3600000000))
               = Some (mkDatetime 0 None)) by reflexivity.
  assert (H2 : to_naive_utc second_day = Some second_day) by reflexivity.
  assert (H : wall_clock (mkDatetime 0 None) <= wall_clock second_day) by (cbn; lia).
  split; [exact H1|]. split; [exact H2|]. split; [exact H|].
  eexists. split; [reflexivity|].
  apply (later_start_fewer_trades _ _ _ _ dated_sheet _ H1 H2 H). reflexivity.
Defined.

(** ** The live query *)

Lemma ends_with_spec suffix s :
  ends_with suffix s = true <-> exists p, s = (p ++ suffix)%string.
Proof.
  induction s as [|c r IH]; cbn [ends_with].
  - rewrite orb_false_r, String.eqb_eq. split.
    + intros <-. exists ""%string. reflexivity.
    + intros (p & E). destruct p; cbn in E; [auto | discriminate].
  - rewrite orb_true_iff, String.eqb_eq, IH. split.
    + intros [<-|(p & ->)]; [exists ""%string | exists (String c p)]; reflexivity.
    + intros (p & E). destruct p as [|c' p]; cbn in E.
      * left. exact E.
      * right. injection E as _ E. exists p. exact E.
Qed.

(** X9.  [get_all_symbols] returns the symbols of exactly the listed
    contracts whose type is PERPETUAL and whose symbol ends in USDC, in the
    order of the list.  When the list cannot be had, [main2.py] returns no
    symbol, and in [main.py] the error leaves the function. *)
Theorem get_all_symbols_selects (info : list contract) :
  (forall s,
     In s (Main2.get_all_symbols (Some info)) <->
     exists c, In c info /\ contract_symbol c = s /\
               contractType c = Some "PERPETUAL"%string /\
               exists p, s = (p ++ "USDC")%string) /\
  Main.get_all_symbols (Some info) = Some (Main2.get_all_symbols (Some info)) /\
  Main2.get_all_symbols None = [] /\
  Main.get_all_symbols None = None.
Proof.
  split; [|repeat split].
  intros s. cbn [Main2.get_all_symbols]. rewrite in_map_iff. split.
  - intros (c & Ec & Hc). apply filter_In in Hc. destruct Hc as (Hin & Hp).
    unfold perpetual_usdc in Hp. destruct (contractType c) as [ty|] eqn:Ety; [|discriminate].
    apply andb_true_iff in Hp. destruct Hp as (Hty & He).
    apply String.eqb_eq in Hty. apply ends_with_spec in He.
    exists c. rewrite <- Ec. repeat split; [exact Hin | congruence | exact He].
  - intros (c & Hin & Ec & Ety & He). exists c. split; [exact Ec|].
    apply filter_In. split; [exact Hin|].
    unfold perpetual_usdc. rewrite Ety, String.eqb_refl. cbn [andb].
    apply ends_with_spec. rewrite Ec. exact He.
Qed.

(** X10.  A symbol whose trades the exchange refuses is skipped and costs
    nothing else: the live query returns what it would return had the symbol
    not been listed, the trades of the symbols before and after it
    included. *)
Theorem refused_symbol_is_skipped
    (before after : list string) (s : string) (fetch : string -> option (list trade)) :
  fetch s = None ->
  Common.get_trades_since (before ++ s :: after) fetch
  = (Common.get_trades_since before fetch ++ Common.get_trades_since after fetch)%list /\
  Common.get_trades_since (before ++ s :: after) fetch
  = Common.get_trades_since (before ++ after) fetch.
Proof.
  intros E. unfold Common.get_trades_since.
  rewrite !flat_map_app. cbn [flat_map]. rewrite E. split; reflexivity.
Qed.

Lemma refused_symbol_is_skipped_witness :
  refusing_eth "ETHUSDC" = None /\
  Common.get_trades_since (["BTCUSDC"%string] ++ "ETHUSDC"%string :: ["SOLUSDC"%string])%list refusing_eth
  = (Common.get_trades_since ["BTCUSDC"%string] refusing_eth
     ++ Common.get_trades_since ["SOLUSDC"%string] refusing_eth)%list /\
  Common.get_trades_since (["BTCUSDC"%string] ++ "ETHUSDC"%string :: ["SOLUSDC"%string])%list refusing_eth
  = Common.get_trades_since (["BTCUSDC"%string] ++ ["SOLUSDC"%string])%list refusing_eth.
Proof.
  assert (H : refusing_eth "ETHUSDC" = None) by reflexivity.
  split; [exact H|].
  exact (refused_symbol_is_skipped ["BTCUSDC"%string] ["SOLUSDC"%string] "ETHUSDC"
                                   refusing_eth H).
Defined.

(** The contracts kept from a sample list. *)
Lemma get_all_symbols_sample :
  Main2.get_all_symbols (Some listed_contracts) = ["BTCUSDC"; "ETHUSDC"]%string.
Proof. reflexivity. Qed.

(** ** Looking for the export file *)

Lemma append_nonempty a b : b <> ""%string -> (a ++ b)%string <> ""%string.
Proof. destruct a; cbn; [auto | discriminate]. Qed.

Lemma path_join_nonempty a b : b <> ""%string -> path_join a b <> ""%string.
Proof.
  intros Hb. unfold path_join.
  destruct (String.prefix "/" b); [exact Hb|].
  destruct (String.eqb a "" || ends_with "/" a)%bool.
  - apply append_nonempty. exact Hb.
  - apply append_nonempty. discriminate.
Qed.

Lemma possible_names_nonempty n : In n Main2.possible_names -> n <> ""%string.
Proof. intros [<-|[<-|[<-|[<-|[<-|[]]]]]]; discriminate. Qed.

(** X11.  [find_excel_file] returns the empty string exactly when the
    folder holds none of the five names it looks for and no listed
    spreadsheet whose name, in lower case, contains "trade" or "history". *)
Theorem no_file_found_iff
    (downloads_path : string) (path_exists : string -> bool) (excel_files : list string) :
  Main2.find_excel_file downloads_path path_exists excel_files = ""%string <->
  (forall n, In n Main2.possible_names ->
             path_exists (path_join downloads_path n) = false) /\
  (forall p, In p excel_files -> Main2.mentions_trade p = false).
Proof.
  unfold Main2.find_excel_file.
  destruct (find (fun name => path_exists (path_join downloads_path name))
                 Main2.possible_names) as [n|] eqn:En.
  - apply find_some in En. destruct En as (Hin & He). split.
    + intros E. exfalso.
      exact (path_join_nonempty _ _ (possible_names_nonempty _ Hin) E).
    + intros (H & _). rewrite (H n Hin) in He. discriminate.
  - destruct (find Main2.mentions_trade excel_files) as [p|] eqn:Ep.
    + apply find_some in Ep. destruct Ep as (Hin & Hm). split.
      * intros ->. discriminate.
      * intros (_ & H). rewrite (H p Hin) in Hm. discriminate.
    + split; [|reflexivity]. intros _. split.
      * intros n Hn. exact (find_none _ _ En n Hn).
      * intros p Hp. exact (find_none _ _ Ep p Hp).
Qed.

(** X12.  A path that [find_excel_file] returns is either one of the five
    names in the Downloads folder, and then it exists, or, when none of the
    five exists, a listed spreadsheet whose name mentions "trade" or
    "history". *)
Theorem found_file_is_a_candidate
    (downloads_path : string) (path_exists : string -> bool) (excel_files : list string) :
  let found := Main2.find_excel_file downloads_path path_exists excel_files in
  found = ""%string \/
  (exists n, In n Main2.possible_names /\ found = path_join downloads_path n /\
             path_exists found = true) \/
  (In found excel_files /\ Main2.mentions_trade found = true /\
   forall n, In n Main2.possible_names ->
             path_exists (path_join downloads_path n) = false).
Proof.
  cbv zeta. unfold Main2.find_excel_file.
  destruct (find (fun name => path_exists (path_join downloads_path name))
                 Main2.possible_names) as [n|] eqn:En.
  - apply find_some in En. destruct En as (Hin & He).
    right. left. exists n. auto.
  - destruct (find Main2.mentions_trade excel_files) as [p|] eqn:Ep.
    + apply find_some in Ep. destruct Ep as (Hin & Hm).
      right. right. split; [exact Hin|]. split; [exact Hm|].
      intros n Hn. exact (find_none _ _ En n Hn).
    + left. reflexivity.
Qed.

(** X13.  When one of the five names exists in the folder, the file found
    exists and is the same whatever other spreadsheets the folder lists: the
    names come before the search by content of the name. *)
Theorem exact_name_wins
    (downloads_path : string) (path_exists : string -> bool) (n : string)
    (excel_files excel_files' : list string) :
  In n Main2.possible_names ->
  path_exists (path_join downloads_path n) = true ->
  Main2.find_excel_file downloads_path path_exists excel_files
  = Main2.find_excel_file downloads_path path_exists excel_files' /\
  path_exists (Main2.find_excel_file downloads_path path_exists excel_files) = true.
Proof.
  intros Hin He. unfold Main2.find_excel_file.
  destruct (find (fun name => path_exists (path_join downloads_path name))
                 Main2.possible_names) as [n0|] eqn:En.
  - apply find_some in En. destruct En as (_ & He0). split; [reflexivity | exact He0].
  - rewrite (find_none _ _ En n Hin) in He. discriminate.
Qed.

Lemma exact_name_wins_witness :
  In "TradeHistory.xlsx"%string Main2.possible_names /\
  has_trade_history (path_join "/home/user/Downloads" "TradeHistory.xlsx") = true /\
  Main2.find_excel_file "/home/user/Downloads" has_trade_history
                        ["/home/user/Downloads/my trades.xlsx"%string]
  = Main2.find_excel_file "/home/user/Downloads" has_trade_history [] /\
  has_trade_history
    (Main2.find_excel_file "/home/user/Downloads" has_trade_history
                           ["/home/user/Downloads/my trades.xlsx"%string]) = true.
Proof.
  assert (H1 : In "TradeHistory.xlsx"%string Main2.possible_names)
    by (cbn; tauto).
  assert (H2 : has_trade_history (path_join "/home/user/Downloads" "TradeHistory.xlsx")
               = true) by reflexivity.
  split; [exact H1|]. split; [exact H2|].
  exact (exact_name_wins "/home/user/Downloads" has_trade_history "TradeHistory.xlsx"
                         ["/home/user/Downloads/my trades.xlsx"%string] [] H1 H2).
Defined.

(** ** The chart *)

Lemma without_total_snoc rows total :
  Token total = TOTAL -> without_total (rows ++ [total]) = without_total rows.
Proof.
  intros E. unfold without_total. rewrite filter_app. cbn [filter].
  rewrite E. cbn. apply app_nil_r.
Qed.

Lemma without_total_all rows :
  (forall r, In r rows -> Token r <> TOTAL) -> without_total rows = rows.
Proof.
  intros H. unfold without_total. apply filter_all. apply Forall_forall.
  intros r Hr. destruct (py_eqb (Token r) TOTAL) eqn:E; [|reflexivity].
  apply py_eqb_str in E. exfalso. exact (H r Hr E).
Qed.

(** The rows of a report carry the symbols of the trades. *)
Lemma report_rows_not_total_main np t ts tk :
  (forall t', In t' (t :: ts) -> symbol t' <> TOTAL) ->
  forall r, In r (report_rows (Main.calculate_token_pnl np (t :: ts) tk)) ->
            Token r <> TOTAL.
Proof.
  intros Hsym r Hr E.
  destruct (report_row_tokens_main _ _ _ _ _ Hr) as (t' & Ht' & Es).
  apply (Hsym t' Ht'). congruence.
Qed.

Lemma report_rows_not_total_main2 np t ts tk :
  conforms np ->
  (forall t', In t' (t :: ts) -> symbol t' <> TOTAL) ->
  forall r, In r (report_rows (Main2.calculate_token_pnl np (t :: ts) tk)) ->
            Token r <> TOTAL.
Proof.
  intros H Hsym r Hr E.
  destruct (report_row_tokens_main2 _ _ _ _ _ H Hr) as (t' & Ht' & Es).
  apply (Hsym t' Ht'). congruence.
Qed.

(** X14.  In [main.py], when no trade has the symbol ["TOTAL"], the chart
    of a report draws the per-symbol rows of the report, all of them and in
    their order, and never the TOTAL row. *)
Theorem chart_draws_the_rows (np : numpy) (t : trade) (ts : list trade) (tk : ticker) :
  (forall t', In t' (t :: ts) -> symbol t' <> TOTAL) ->
  Main.create_pnl_chart (Main.calculate_token_pnl np (t :: ts) tk)
  = Some (mkChart (report_rows (Main.calculate_token_pnl np (t :: ts) tk))
                  "PnL by Token" 600 None).
Proof.
  intros Hsym.
  pose proof (report_rows_not_total_main np t ts tk Hsym) as Hrows.
  revert Hrows. rewrite main_report, report_rows_snoc. intros Hrows.
  unfold Main.create_pnl_chart.
  rewrite (without_total_snoc _ (Main.total_row np _) eq_refl), (without_total_all _ Hrows).
  destruct (Common.make_rows (Main.get_price tk) (Common.accumulate (t :: ts))) eqn:E;
    [|reflexivity].
  exfalso. apply (accumulate_nonempty t ts).
  unfold Common.make_rows in E. apply map_eq_nil in E. exact E.
Qed.

Lemma chart_draws_the_rows_witness :
  (forall t', In t' scenario -> symbol t' <> TOTAL) /\
  Main.create_pnl_chart (Main.calculate_token_pnl stable_build scenario ClientError)
  = Some (mkChart (report_rows (Main.calculate_token_pnl stable_build scenario ClientError))
                  "PnL by Token" 600 None).
Proof.
  assert (H : forall t', In t' scenario -> symbol t' <> TOTAL).
  { intros t' [<-|[<-|[<-|[]]]]; discriminate. }
  split; [exact H|].
  exact (chart_draws_the_rows stable_build _ _ ClientError H).
Defined.

(** X15.  In [main2.py], when no trade has the symbol ["TOTAL"], the chart
    of a report draws the per-symbol rows of the report rearranged so that
    Net PnL ascends, rows without a Net PnL last, and its height is 25 for
    each distinct symbol and at least 300.  Symbols that are NaN are
    distinct when they are distinct objects. *)
Theorem chart_draws_the_rows_ascending
    (np : numpy) (t : trade) (ts : list trade) (tk : ticker) :
  conforms np ->
  (forall t', In t' (t :: ts) -> symbol t' <> TOTAL) ->
  exists c,
    Main2.create_pnl_chart np (Main2.calculate_token_pnl np (t :: ts) tk) = Some c /\
    Permutation (chart_data c) (report_rows (Main2.calculate_token_pnl np (t :: ts) tk)) /\
    StronglySorted in_order_up (chart_data c) /\
    chart_height c
    = Some (Z.max 300 (Z.of_nat (List.length (first_seen (t :: ts))) * 25)).
Proof.
  intros Hc Hsym.
  pose proof (report_rows_not_total_main2 np t ts tk Hc Hsym) as Hrows.
  revert Hrows. rewrite main2_report, report_rows_snoc. intros Hrows.
  unfold Main2.create_pnl_chart.
  rewrite (without_total_snoc _ (Main2.total_row np _) eq_refl), (without_total_all _ Hrows).
  set (rows := sort_values np false
                 (Common.make_rows (Main2.bnb_rate tk) (Common.accumulate (t :: ts)))).
  assert (Hlen : List.length rows = List.length (first_seen (t :: ts))).
  { unfold rows. rewrite (Permutation_length (sort_values_perm np false _ Hc)).
    rewrite <- accumulate_key_order, <- (make_rows_tokens (Main2.bnb_rate tk)), length_map.
    reflexivity. }
  destruct rows as [|r rows'] eqn:E.
  - exfalso.
    pose proof (occurrences_first_seen (symbol t) (t :: ts)) as Ho.
    unfold traded in Ho. cbn [existsb] in Ho. rewrite key_eqb_refl in Ho. cbn [orb] in Ho.
    destruct (first_seen (t :: ts)); [discriminate Ho | discriminate Hlen].
  - eexists. split; [reflexivity|]. cbn [chart_data chart_height].
    split; [apply sort_values_perm; exact Hc|].
    split; [apply sort_values_sorted_up; exact Hc|].
    rewrite (Permutation_length (sort_values_perm np true _ Hc)), Hlen. reflexivity.
Qed.

Lemma chart_draws_the_rows_ascending_witness :
  conforms stable_build /\
  (forall t', In t' scenario -> symbol t' <> TOTAL) /\
  exists c,
    Main2.create_pnl_chart stable_build
      (Main2.calculate_token_pnl stable_build scenario ClientError) = Some c /\
    Permutation (chart_data c)
                (report_rows (Main2.calculate_token_pnl stable_build scenario ClientError)) /\
    StronglySorted in_order_up (chart_data c) /\
    chart_height c = Some (Z.max 300 (Z.of_nat (List.length (first_seen scenario)) * 25)).
Proof.
  assert (H : forall t', In t' scenario -> symbol t' <> TOTAL).
  { intros t' [<-|[<-|[<-|[]]]]; discriminate. }
  split; [exact stable_build_conforms|]. split; [exact H|].
  exact (chart_draws_the_rows_ascending stable_build _ _ ClientError
                                        stable_build_conforms H).
Defined.

Lemma filter_nil_iff {A} (f : A -> bool) l :
  filter f l = [] <-> forall x, In x l -> f x = false.
Proof.
  induction l as [|a l IH]; cbn [filter].
  - split; [intros _ x [] | reflexivity].
  - destruct (f a) eqn:E.
    + split; [discriminate|]. intros H. rewrite (H a (or_introl eq_refl)) in E.
      discriminate.
    + rewrite IH. split.
      * intros H x [<-|Hx]; [exact E | apply H; exact Hx].
      * intros H x Hx. apply H. right. exact Hx.
Qed.

Lemma key_eqb_total_label x : key_eqb x TOTAL = true -> x = TOTAL.
Proof.
  destruct x as [s|[sx|sx| |sx mx ex]|i|]; cbn; try discriminate.
  intros E. apply String.eqb_eq in E. rewrite E. reflexivity.
Qed.

(** All keys of the dictionary are ["TOTAL"] exactly when all symbols of the
    input are. *)
Lemma first_seen_all_total ts :
  (forall k, In k (first_seen ts) -> k = TOTAL) <->
  (forall t, In t ts -> symbol t = TOTAL).
Proof.
  split.
  - intros H t Ht.
    pose proof (occurrences_first_seen (symbol t) ts) as Ho.
    assert (Htr : traded (symbol t) ts = true).
    { unfold traded. apply existsb_exists. exists t. split; [exact Ht | apply key_eqb_refl]. }
    rewrite Htr in Ho.
    destruct (occurrences_found (symbol t) (first_seen ts)) as (k & Hk & Ek); [lia|].
    rewrite (H k Hk) in Ek. apply key_eqb_total_label. exact Ek.
  - intros H k Hk. rewrite <- accumulate_key_order in Hk.
    destruct (accumulate_keys _ _ Hk) as (t & Ht & <-). apply H. exact Ht.
Qed.

Lemma without_total_nil_iff rows :
  without_total rows = [] <-> forall k, In k (map Token rows) -> k = TOTAL.
Proof.
  unfold without_total. split.
  - intros H0 k Hk. apply in_map_iff in Hk. destruct Hk as (r & <- & Hr).
    pose proof (proj1 (filter_nil_iff _ _) H0 r Hr) as H.
    apply negb_false_iff in H. apply py_eqb_str. exact H.
  - intros H. apply filter_nil_iff. intros r Hr.
    apply negb_false_iff. apply py_eqb_str. apply H.
    apply in_map. exact Hr.
Qed.

(** X16.  The report of a non-empty input has no chart exactly when every
    trade has the symbol ["TOTAL"]: rows of that name are taken for the
    TOTAL row and left out. *)
Theorem no_chart_iff_all_total (np : numpy) (t : trade) (ts : list trade) (tk : ticker) :
  (Main.create_pnl_chart (Main.calculate_token_pnl np (t :: ts) tk) = None <->
   forall t', In t' (t :: ts) -> symbol t' = TOTAL) /\
  (conforms np ->
   (Main2.create_pnl_chart np (Main2.calculate_token_pnl np (t :: ts) tk) = None <->
    forall t', In t' (t :: ts) -> symbol t' = TOTAL)).
Proof.
  rewrite <- first_seen_all_total. split.
  - rewrite main_report. unfold Main.create_pnl_chart.
    rewrite (without_total_snoc _ (Main.total_row np _) eq_refl).
    rewrite <- accumulate_key_order, <- (make_rows_tokens (Main.get_price tk)).
    rewrite <- without_total_nil_iff.
    destruct (without_total _); split; congruence.
  - intros Hc. rewrite main2_report. unfold Main2.create_pnl_chart.
    rewrite (without_total_snoc _ (Main2.total_row np _) eq_refl).
    rewrite <- accumulate_key_order, <- (make_rows_tokens (Main2.bnb_rate tk)).
    assert (Hp : forall k,
               In k (map Token (Common.make_rows (Main2.bnb_rate tk)
                                                 (Common.accumulate (t :: ts)))) <->
               In k (map Token (sort_values np false
                                  (Common.make_rows (Main2.bnb_rate tk)
                                                    (Common.accumulate (t :: ts)))))).
    { intros k. split; apply Permutation_in, Permutation_map;
        [symmetry|]; apply sort_values_perm; exact Hc. }
    assert (Hq : (forall k,
                    In k (map Token (Common.make_rows (Main2.bnb_rate tk)
                                                      (Common.accumulate (t :: ts)))) ->
                    k = TOTAL) <->
                 without_total
                   (sort_values np false
                      (Common.make_rows (Main2.bnb_rate tk)
                                        (Common.accumulate (t :: ts)))) = []).
    { rewrite without_total_nil_iff. split; intros H k Hk; apply H, Hp, Hk. }
    rewrite Hq. destruct (without_total _); split; congruence.
Qed.

Lemma no_chart_iff_all_total_witness :
  conforms stable_build /\
  (Main2.create_pnl_chart stable_build
     (Main2.calculate_token_pnl stable_build trade_named_total ClientError) = None <->
   forall t', In t' trade_named_total -> symbol t' = TOTAL).
Proof.
  split; [exact stable_build_conforms|].
  exact (proj2 (no_chart_iff_all_total stable_build _ _ ClientError) stable_build_conforms).
Defined.

(** ** The styles of the table *)

(** X17.  [highlight_total_and_negative] gives one style for each column of
    the frame: red for the Net PnL column of a row whose Net PnL is below
    zero, and otherwise bold in the TOTAL row and none in the others.  The
    Net PnL of a negative TOTAL is red and not bold; a Net PnL that is NaN
    or a negative zero is not red. *)
Theorem styles_by_column (r : row) :
  Main2.highlight_total_and_negative r = map (cell_style r) columns /\
  Main.highlight_total r
  = map (fun _ => if py_eqb (Token r) TOTAL then "font-weight: bold" else "")%string
        columns.
Proof.
  unfold Main2.highlight_total_and_negative, Main.highlight_total, cell_style.
  split.
  - destruct (py_eqb (Token r) TOTAL), (F64.ltb (Net_PnL r) F64.zero); reflexivity.
  - destruct (py_eqb (Token r) TOTAL); reflexivity.
Qed.

(** ** The two normalizers side by side *)

Lemma not_comma_of_class (c : ascii) (b : bool) :
  (Ascii.eqb c "," = true -> b = false) -> b = true -> Ascii.eqb c "," = false.
Proof. destruct (Ascii.eqb c ","); intros H Hb; [rewrite H in Hb by reflexivity; discriminate | reflexivity]. Qed.

Lemma space_not_comma c : is_space c = true -> Ascii.eqb c "," = false.
Proof.
  apply not_comma_of_class. intros E. apply Ascii.eqb_eq in E. subst. reflexivity.
Qed.

Lemma digit_not_comma c d : digit_of c = Some d -> Ascii.eqb c "," = false.
Proof.
  intros H. destruct (Ascii.eqb c ",") eqn:E; [|reflexivity].
  apply Ascii.eqb_eq in E. subst. discriminate.
Qed.

Lemma skip_spaces_commas s :
  remove_commas (skip_spaces s) = skip_spaces s -> remove_commas s = s.
Proof.
  induction s as [|c r IH]; [reflexivity|]. cbn [skip_spaces].
  destruct (is_space c) eqn:E; [|auto].
  intros H. cbn [remove_commas]. rewrite (space_not_comma _ E), (IH H). reflexivity.
Qed.

Lemma read_sign_commas s b r :
  read_sign s = (b, r) -> remove_commas r = r -> remove_commas s = s.
Proof.
  unfold read_sign. destruct s as [|c s']; [intros E; injection E as <- <-; auto|].
  destruct c as [[] [] [] [] [] [] [] []]; intros E; injection E as <- <-; auto;
    intros H; cbn; rewrite H; reflexivity.
Qed.

Lemma read_digits_commas s acc n v k r :
  read_digits s acc n = (v, k, r) -> remove_commas r = r -> remove_commas s = s.
Proof.
  revert acc n. induction s as [|c s' IH]; intros acc n; cbn [read_digits].
  - intros E; injection E as <- <- <-; auto.
  - destruct (digit_of c) as [d|] eqn:Ed.
    + intros E H. cbn [remove_commas].
      rewrite (digit_not_comma _ _ Ed), (IH _ _ E H). reflexivity.
    + intros E; injection E as <- <- <-; auto.
Qed.

Lemma all_spaces_commas s : skip_spaces s = ""%string -> remove_commas s = s.
Proof. intros E. apply skip_spaces_commas. rewrite E. reflexivity. Qed.

(** A numeral holds no comma. *)
Lemma read_numeral_commas s v : read_numeral s = Some v -> remove_commas s = s.
Proof.
  unfold read_numeral. intros H. apply skip_spaces_commas.
  destruct (read_sign (skip_spaces s)) as [neg s1] eqn:E1.
  apply (read_sign_commas _ _ _ E1).
  destruct (read_digits s1 0 0) as [[ip ni] s2] eqn:E2.
  apply (read_digits_commas _ _ _ _ _ _ E2).
  assert (H3 : forall m nf s3,
             (if Nat.eqb (ni + nf) 0 then None
              else
                let '(e, s) :=
                  match s3 with
                  | String c r =>
                      if Ascii.eqb (lower c) "e" then
                        let (eneg, r) := read_sign r in
                        let '(n, _, r) := read_digits r 0 0 in
                        (if eneg then - n else n, r)
                      else (0, s3)
                  | EmptyString => (0, s3)
                  end in
                match skip_spaces s with
                | EmptyString =>
                    let v := F64.of_decimal neg m (e - Z.of_nat nf) in
                    if F64.is_inf v then None else Some v
                | _ => None
                end) = Some v ->
             remove_commas s3 = s3).
  { clear. intros m nf s3. destruct (Nat.eqb (ni + nf) 0); [discriminate|].
    destruct s3 as [|c r]; [reflexivity|].
    destruct (Ascii.eqb (lower c) "e") eqn:Ec.
    - destruct (read_sign r) as [eneg r1] eqn:Er.
      destruct (read_digits r1 0 0) as [[n k] r2] eqn:Ed.
      destruct (skip_spaces r2) eqn:Es; [|discriminate].
      intros _. cbn [remove_commas].
      assert (Hc : Ascii.eqb c "," = false).
      { destruct (Ascii.eqb c ",") eqn:E; [|reflexivity].
        apply Ascii.eqb_eq in E. subst. discriminate. }
      rewrite Hc. f_equal.
      apply (read_sign_commas _ _ _ Er), (read_digits_commas _ _ _ _ _ _ Ed).
      apply all_spaces_commas. exact Es.
    - destruct (skip_spaces (String c r)) eqn:Es; [|discriminate].
      intros _. apply all_spaces_commas. exact Es. }
  destruct s2 as [|c2 r2].
  - apply (H3 ip 0%nat ""%string). exact H.
  - destruct (Ascii.eqb c2 ".") eqn:Edot.
    + apply Ascii.eqb_eq in Edot. subst c2.
      destruct (read_digits r2 ip 0) as [[m nf] s3] eqn:E3.
      cbn [remove_commas]. change (Ascii.eqb "." ",") with false. cbn iota. f_equal.
      apply (read_digits_commas _ _ _ _ _ _ E3). apply (H3 m nf s3). exact H.
    + apply (H3 ip 0%nat (String c2 r2)).
      destruct c2 as [[] [] [] [] [] [] [] []]; try exact H; discriminate.
Qed.

Lemma lower_comma c : Ascii.eqb (lower c) "," = Ascii.eqb c ",".
Proof. destruct c as [[] [] [] [] [] [] [] []]; reflexivity. Qed.

Lemma lowercase_commas s : remove_commas (lowercase s) = lowercase s -> remove_commas s = s.
Proof.
  induction s as [|c r IH]; [reflexivity|]. cbn [lowercase remove_commas].
  rewrite lower_comma. destruct (Ascii.eqb c ",") eqn:E.
  - intros H. exfalso.
    assert (Hl : (String.length (remove_commas (lowercase r))
                  <= String.length (lowercase r))%nat).
    { clear. induction (lowercase r) as [|a t IHt]; cbn; [lia|].
      destruct (Ascii.eqb a ","); cbn; lia. }
    rewrite H in Hl. cbn in Hl. lia.
  - intros H. injection H as H. rewrite (IH H). reflexivity.
Qed.

Lemma read_infinity_commas s v : read_infinity s = Some v -> remove_commas s = s.
Proof.
  unfold read_infinity. intros H. apply lowercase_commas.
  destruct (String.eqb (lowercase s) "inf") eqn:E1;
    [apply String.eqb_eq in E1; rewrite E1; reflexivity|].
  destruct (String.eqb (lowercase s) "+inf") eqn:E2;
    [apply String.eqb_eq in E2; rewrite E2; reflexivity|].
  destruct (String.eqb (lowercase s) "infinity") eqn:E3;
    [apply String.eqb_eq in E3; rewrite E3; reflexivity|].
  destruct (String.eqb (lowercase s) "+infinity") eqn:E4;
    [apply String.eqb_eq in E4; rewrite E4; reflexivity|].
  destruct (String.eqb (lowercase s) "-inf") eqn:E5;
    [apply String.eqb_eq in E5; rewrite E5; reflexivity|].
  destruct (String.eqb (lowercase s) "-infinity") eqn:E6;
    [apply String.eqb_eq in E6; rewrite E6; reflexivity|].
  cbn in H. discriminate.
Qed.

(** What is read as a number holds no comma. *)
Lemma to_numeric_commas s : F64.is_nan (to_numeric s) = false -> remove_commas s = s.
Proof.
  unfold to_numeric.
  destruct (read_numeral s) as [v|] eqn:E; [intros _; exact (read_numeral_commas _ _ E)|].
  destruct (read_infinity s) as [v|] eqn:E'; [intros _; exact (read_infinity_commas _ _ E')|].
  discriminate.
Qed.

(** X18.  Wherever the normalizer of [main.py] reads a number from a cell,
    the normalizer of [main2.py] reads the same number: the later version
    differs only on the cells that the earlier one turns into NaN. *)
Theorem normalizers_agree_on_numbers (c : pyobj) :
  F64.is_nan (Main.normalize c) = false -> Main2.normalize c = Main.normalize c.
Proof.
  unfold Main.normalize, Main2.normalize.
  destruct (text_of c) as [s|] eqn:Et.
  - cbv zeta. set (s' := lstrip_apostrophe s).
    destruct (String.eqb s' "") eqn:Ee.
    + apply String.eqb_eq in Ee. rewrite Ee. intros _. reflexivity.
    + intros Hn. rewrite (to_numeric_commas _ Hn).
      cbn [existsb]. rewrite Ee. cbn [orb].
      destruct (String.eqb s' "nan") eqn:E1.
      { apply String.eqb_eq in E1. rewrite E1 in Hn. discriminate. }
      destruct (String.eqb s' "None") eqn:E2.
      { apply String.eqb_eq in E2. rewrite E2 in Hn. discriminate. }
      cbn [orb]. unfold fillna0. rewrite Hn. reflexivity.
  - destruct c as [s|x|i|]; try discriminate.
    intros Hn. unfold fillna0. rewrite Hn. reflexivity.
Qed.

Lemma normalizers_agree_on_numbers_witness :
  F64.is_nan (Main.normalize (PyStr "'0.5")) = false /\
  Main2.normalize (PyStr "'0.5") = Main.normalize (PyStr "'0.5").
Proof.
  assert (H : F64.is_nan (Main.normalize (PyStr "'0.5")) = false) by reflexivity.
  split; [exact H|].
  exact (normalizers_agree_on_numbers (PyStr "'0.5") H).
Defined.
